(** * Study mode: position, layout and tool-panel coordination

    A shallow embedding of the client-side state choreography of the
    study-mode reader: the root component [App] (page cursor, pane layout,
    drag-resize), the contents navigator ([TOCItemComponent]) and the tool
    panel ([ToolPanel]: message list, pending flag, voice capture, overlay);
    then the document viewer ([PDFViewer]: page controls, zoom, selection
    popup), the restored chat history and the flashcard, diagram and quiz
    overlays ([ToolOverlay]).

    Conventions of the embedding.
    - A React component is a record of its state cells; an event handler is
      a function from the state (and the event's data) to the next state
      and the list of effects it issued, in order.
    - Page numbers are integers ([Z]); pixel quantities that go through
      [containerWidth * 0.6] are exact rationals ([Q]).
    - A JavaScript string is a [string] whose characters are code units
      below 256.
    - An [async] handler is split at its [await]: the part that runs at the
      call, and the continuation that runs on completion.
    - An effect ([useEffect]) is an event of its component, and its cleanup
      is added to the updates after which React runs it.
    - A render that throws leaves nothing on screen: no component is an
      error boundary, so React unmounts the tree. *)

From Stdlib Require Import ZArith QArith Qminmax String Ascii List Bool.
From Stdlib Require Import Lia Lqa DecimalString.
Import ListNotations.

Set Implicit Arguments.

(** ** The pieces of the JavaScript runtime the handlers use *)

Module Js.

Local Open Scope string_scope.

(** A number that is an integer or [-Infinity], the range of
    [Math.max] over integer arguments. *)
Inductive num : Type :=
| NegInfinity
| Fin (z : Z).

Definition num_max (a b : num) : num :=
  match a, b with
  | NegInfinity, _ => b
  | _, NegInfinity => a
  | Fin x, Fin y => Fin (Z.max x y)
  end.

(** [Math.max(...xs)]: [-Infinity] when there is no argument. *)
Definition Math_max (xs : list Z) : num :=
  fold_right (fun x acc => num_max (Fin x) acc) NegInfinity xs.

(** [n.toString()] and [`${n}`] for an integer. *)
Definition toString (n : Z) : string :=
  NilZero.string_of_int (Z.to_int n).

(** The double quote, which a literal cannot hold. *)
Definition dquote : string := String "034"%char EmptyString.

(** White space and line terminators among the code units below 256. *)
Definition isWhiteSpace (c : ascii) : bool :=
  let n := nat_of_ascii c in
  ((9 <=? n) && (n <=? 13) || (n =? 32) || (n =? 160))%nat.

Fixpoint trimStart (s : string) : string :=
  match s with
  | EmptyString => EmptyString
  | String c s' => if isWhiteSpace c then trimStart s' else s
  end.

(** Drops the white space at the end: a character is kept when it is not
    white space or when something kept follows it. *)
Fixpoint trimEnd (s : string) : string :=
  match s with
  | EmptyString => EmptyString
  | String c s' =>
      match trimEnd s' with
      | EmptyString => if isWhiteSpace c then EmptyString else String c EmptyString
      | r => String c r
      end
  end.

Definition trim (s : string) : string := trimEnd (trimStart s).

(** Truthiness of a string: the empty string is falsy. *)
Definition truthy (s : string) : bool :=
  match s with
  | EmptyString => false
  | String _ _ => true
  end.

(** [s.includes(sub)] *)
Fixpoint includes (sub s : string) : bool :=
  prefix sub s
  || match s with
     | EmptyString => false
     | String _ s' => includes sub s'
     end.

Definition lowerChar (c : ascii) : ascii :=
  let n := nat_of_ascii c in
  if ((65 <=? n) && (n <=? 90)
      || (192 <=? n) && (n <=? 222) && negb (n =? 215))%nat
  then ascii_of_nat (n + 32)
  else c.

Fixpoint toLowerCase (s : string) : string :=
  match s with
  | EmptyString => EmptyString
  | String c s' => String (lowerChar c) (toLowerCase s')
  end.

(** [a || b] on an optional string: [a] when it is present and not
    empty, otherwise [b]. *)
Definition orElse (a : option string) (b : option string) : option string :=
  match a with
  | Some s => if truthy s then Some s else b
  | None => b
  end.

End Js.

(** ** The table of contents, as the three components declare it *)

Record TocSection : Type := {
  section_id : string;
  section_title : string;
  page : Z
}.

Record Chapter : Type := {
  chapter_id : string;
  chapter_number : string;
  title : string;
  sections : option (list TocSection)   (* [Section[] | null] *)
}.

Record TOC : Type := {
  book_id : string;
  chapters : list Chapter
}.

(** ** The document viewer: zoom, selection popup, page content *)

Module Reader.

Local Open Scope string_scope.

Record TextSelection : Type := {
  sel_text : string;
  sel_x : Q;
  sel_y : Q;
  sel_context : string
}.

(** The state cells of [PDFViewer] its handlers write. *)
Record State : Type := {
  zoom : Q;
  textSelection : option TextSelection;
  showPopup : bool;
  hoveredTool : option string
}.

Definition initial : State := {|
  zoom := 1.0; textSelection := None; showPopup := false; hoveredTool := None |}.

Definition set_zoom (z : Q) (s : State) : State := {|
  zoom := z; textSelection := textSelection s; showPopup := showPopup s;
  hoveredTool := hoveredTool s |}.

Definition handleZoomIn (s : State) : State :=
  set_zoom (Qmin (zoom s + 0.1) 2.0) s.

Definition handleZoomOut (s : State) : State :=
  set_zoom (Qmax (zoom s - 0.1) 0.5) s.

Definition handleResetZoom (s : State) : State := set_zoom 1.0 s.

Inductive ZoomEvent : Type := ZoomIn | ZoomOut | ResetZoom.

Definition zoomStep (s : State) (e : ZoomEvent) : State :=
  match e with
  | ZoomIn => handleZoomIn s
  | ZoomOut => handleZoomOut s
  | ResetZoom => handleResetZoom s
  end.

Definition zoomAll (s : State) (es : list ZoomEvent) : State :=
  fold_left zoomStep es s.

(** *** The selection popup *)

(** [s.substring(a, b)] for non-negative offsets: both are cut at the
    length and taken in order. *)
Definition js_substring (a b : nat) (s : string) : string :=
  let n := String.length s in
  let a' := Nat.min a n in
  let b' := Nat.min b n in
  substring (Nat.min a' b') (Nat.max a' b' - Nat.min a' b') s.

(** What [window.getSelection()] gives when there is a range: the selected
    string, the text of the common ancestor, the offsets of the range and
    its rectangle. *)
Record Selection : Type := {
  selected : string;
  textContent : string;
  startOffset : nat;
  endOffset : nat;
  rect_left : Q;
  rect_top : Q;
  rect_width : Q
}.

Definition hidePopup (s : State) : State := {|
  zoom := zoom s; textSelection := None; showPopup := false;
  hoveredTool := hoveredTool s |}.

(** [radius] is 100 in the document viewer and 50 in the tool overlays;
    [startOffset - radius] below is the truncated difference, which is
    [Math.max(0, startOffset - radius)]. *)
Definition selectionOf (radius : nat) (d : Selection) : option TextSelection :=
  let selectedText := Js.trim (selected d) in
  if (String.length selectedText =? 0)%nat then None
  else
    let beforeText :=
      js_substring (startOffset d - radius) (startOffset d) (textContent d) in
    let afterText :=
      js_substring (endOffset d)
        (Nat.min (String.length (textContent d)) (endOffset d + radius))
        (textContent d) in
    Some {| sel_text := selectedText;
            sel_x := rect_left d + rect_width d / 2;
            sel_y := rect_top d - 10;
            sel_context := Js.trim (beforeText ++ selectedText ++ afterText) |}.

(** [sel] is [None] when there is no selection or no range in it. *)
Definition handleTextSelection (sel : option Selection) (s : State) : State :=
  match sel with
  | None => hidePopup s
  | Some d =>
      match selectionOf 100 d with
      | None => hidePopup s
      | Some t =>
          {| zoom := zoom s; textSelection := Some t; showPopup := true;
             hoveredTool := hoveredTool s |}
      end
  end.

Record Tool : Type := {
  tool_id : string;
  tool_name : string
}.

Definition availableTools : list Tool := [
  {| tool_id := "ask"; tool_name := "Ask LLM" |};
  {| tool_id := "flashcard"; tool_name := "Flashcards" |};
  {| tool_id := "quiz"; tool_name := "Quiz" |};
  {| tool_id := "diagram"; tool_name := "Diagrams" |};
  {| tool_id := "game"; tool_name := "Games" |} ].

(** A call of the [onTextHighlight] callback. *)
Record HighlightCall : Type := {
  hl_text : string;
  hl_context : string;
  hl_toolType : option string
}.

Definition handleClosePopup (s : State) : State := {|
  zoom := zoom s; textSelection := None; showPopup := false; hoveredTool := None |}.

(** The root always passes [onTextHighlight]; the third component is the
    text of the success toast, if any. *)
Definition handleToolSelect (toolId : string) (s : State)
  : State * option HighlightCall * option string :=
  match textSelection s with
  | Some t =>
      (handleClosePopup s,
       Some {| hl_text := sel_text t; hl_context := sel_context t;
               hl_toolType := if String.eqb toolId "ask" then None else Some toolId |},
       match find (fun tool => String.eqb (tool_id tool) toolId) availableTools with
       | Some tool => Some ("Selected text sent to " ++ tool_name tool ++ "!")
       | None => None
       end)
  | None => (s, None, None)
  end.

(** *** The page content of the mock document *)

Definition topics : list string := [
  "Algorithm Analysis and Complexity";
  "Data Structures and Abstract Data Types";
  "Sorting and Searching Algorithms";
  "Graph Algorithms and Network Flow";
  "Dynamic Programming Techniques";
  "Greedy Algorithms and Optimization";
  "Divide and Conquer Strategies";
  "Advanced Tree Structures" ].

Definition concepts : list (list string) := [
  ["Big O Notation"; "Time Complexity"; "Space Complexity"; "Asymptotic Analysis"];
  ["Arrays"; "Linked Lists"; "Stacks"; "Queues"; "Hash Tables"];
  ["Quick Sort"; "Merge Sort"; "Binary Search"; "Heap Sort"];
  ["BFS"; "DFS"; "Dijkstra's Algorithm"; "Minimum Spanning Trees"];
  ["Optimal Substructure"; "Memoization"; "Tabulation"; "State Transitions"];
  ["Greedy Choice Property"; "Activity Selection"; "Huffman Coding";
   "Fractional Knapsack"];
  ["Recurrence Relations"; "Master Theorem"; "Binary Search Trees"; "FFT"];
  ["AVL Trees"; "Red-Black Trees"; "B-Trees"; "Segment Trees"] ].

(** [xs[i]] for an integer index: [undefined] outside the array. *)
Definition at_index {A : Type} (xs : list A) (i : Z) : option A :=
  if (i <? 0)%Z then None else nth_error xs (Z.to_nat i).

(** [Math.ceil(a / b)] for integers [a] and [b > 0]. *)
Definition ceilDiv (a b : Z) : Z := (- ((- a) / b))%Z.

Record PageContent : Type := {
  chapter : Z;
  section : Z;
  topic : option string;
  pageConcepts : option (list string)
}.

(** [%] is the remainder that takes the sign of the dividend. *)
Definition generatePageContent (currentPage : Z) : PageContent :=
  let chapterNum := ceilDiv currentPage 20 in
  let sectionNum :=
    let c := ceilDiv (Z.rem currentPage 20) 5 in
    if (c =? 0)%Z then 1%Z else c in
  {| chapter := chapterNum;
     section := sectionNum;
     topic := at_index topics (Z.rem (currentPage - 1) (Z.of_nat (length topics)));
     pageConcepts :=
       at_index concepts (Z.rem (currentPage - 1) (Z.of_nat (length concepts))) |}.

(** *** Rendering the page

    The render of [PDFViewer] evaluates [pageContent.topic.toLowerCase()]
    and, further down, [pageContent.concepts.map(...)]: it throws a
    [TypeError] on a page whose topic or concepts are [undefined]. *)
Definition renderThrows (currentPage : Z) : bool :=
  match topic (generatePageContent currentPage),
        pageConcepts (generatePageContent currentPage) with
  | Some _, Some _ => false
  | _, _ => true
  end.

End Reader.

(** ** The root component *)

Module App.

Local Open Scope string_scope.

Record Document : Type := {
  id : string;
  user_id : string;
  doc_title : string;
  file_name : string;
  created_at : string
}.

Record LastPosition : Type := {
  page_number : Z;
  last_chapter_id : option string;
  last_section_id : option string;
  updated_at : string
}.

Record StudyModeData : Type := {
  document : Document;
  chat_session_id : string;
  toc : option TOC;                    (* [toc?: TOC] *)
  last_position : LastPosition
}.

(** The state cells of [App] that its handlers and its layout read. *)
Record State : Type := {
  studyData : option StudyModeData;
  currentPage : Z;
  isTOCCollapsed : bool;
  isMobile : bool;
  rightPanelWidth : Q;
  isResizing : bool;
  isLoading : bool;
  isPDFHidden : bool
}.

(** [useState] initial values. *)
Definition initial : State := {|
  studyData := None;
  currentPage := 1;
  isTOCCollapsed := false;
  isMobile := false;
  rightPanelWidth := 320;
  isResizing := false;
  isLoading := true;
  isPDFHidden := false
|}.

Inductive Effect : Type :=
| ConsoleLog (what : string) (page : Z) (sectionId chapterId : option string)
| ToastSuccess (msg : string)
| ToastInfo (msg : string)
| ToastError (msg : string).

Definition set_currentPage (p : Z) (s : State) : State := {|
  studyData := studyData s; currentPage := p;
  isTOCCollapsed := isTOCCollapsed s; isMobile := isMobile s;
  rightPanelWidth := rightPanelWidth s; isResizing := isResizing s;
  isLoading := isLoading s; isPDFHidden := isPDFHidden s |}.

Definition set_isTOCCollapsed (b : bool) (s : State) : State := {|
  studyData := studyData s; currentPage := currentPage s;
  isTOCCollapsed := b; isMobile := isMobile s;
  rightPanelWidth := rightPanelWidth s; isResizing := isResizing s;
  isLoading := isLoading s; isPDFHidden := isPDFHidden s |}.

Definition set_isMobile (b : bool) (s : State) : State := {|
  studyData := studyData s; currentPage := currentPage s;
  isTOCCollapsed := isTOCCollapsed s; isMobile := b;
  rightPanelWidth := rightPanelWidth s; isResizing := isResizing s;
  isLoading := isLoading s; isPDFHidden := isPDFHidden s |}.

Definition set_rightPanelWidth (w : Q) (s : State) : State := {|
  studyData := studyData s; currentPage := currentPage s;
  isTOCCollapsed := isTOCCollapsed s; isMobile := isMobile s;
  rightPanelWidth := w; isResizing := isResizing s;
  isLoading := isLoading s; isPDFHidden := isPDFHidden s |}.

Definition set_isResizing (b : bool) (s : State) : State := {|
  studyData := studyData s; currentPage := currentPage s;
  isTOCCollapsed := isTOCCollapsed s; isMobile := isMobile s;
  rightPanelWidth := rightPanelWidth s; isResizing := b;
  isLoading := isLoading s; isPDFHidden := isPDFHidden s |}.

Definition set_isPDFHidden (b : bool) (s : State) : State := {|
  studyData := studyData s; currentPage := currentPage s;
  isTOCCollapsed := isTOCCollapsed s; isMobile := isMobile s;
  rightPanelWidth := rightPanelWidth s; isResizing := isResizing s;
  isLoading := isLoading s; isPDFHidden := b |}.

(** [studyData?.toc] *)
Definition tocOf (s : State) : option TOC :=
  match studyData s with
  | Some d => toc d
  | None => None
  end.

(** The page list handed to [Math.max]:
    [chapter.sections ? chapter.sections.map(section => section.page) : [1]]
    flattened over the chapters.  An empty [sections] array is truthy and
    contributes nothing. *)
Definition chapterPages (c : Chapter) : list Z :=
  match sections c with
  | Some secs => map page secs
  | None => [1%Z]
  end.

Definition totalPages (s : State) : Js.num :=
  match tocOf s with
  | Some t => Js.Math_max (flat_map chapterPages (chapters t))
  | None => Js.Fin 100
  end.

(** [studyData?.toc?.chapters && studyData.toc.chapters.length > 0] *)
Definition hasTOC (s : State) : bool :=
  match tocOf s with
  | Some t => (0 <? length (chapters t))%nat
  | None => false
  end.

Definition tocWidth (s : State) : Z :=
  if negb (hasTOC s) || isPDFHidden s then 0%Z
  else if isTOCCollapsed s then 48%Z else 240%Z.

(** *** Responsive behaviour: [checkMobile] at a window width *)
Definition checkMobile (innerWidth : Q) (s : State) : State :=
  let mobile := if Qlt_le_dec innerWidth 1024 then true else false in
  let s1 := set_isMobile mobile s in
  if mobile then set_rightPanelWidth 280 (set_isTOCCollapsed true s1)
  else if isPDFHidden s
       then set_rightPanelWidth (Qmin 800 (innerWidth - 100)) s1
       else set_rightPanelWidth
              (if hasTOC s then (if isTOCCollapsed s then 380 else 320) else 400)
              s1.

(** *** Panel resizing *)

(** What [getBoundingClientRect] gives of the container. *)
Record Rect : Type := { left : Q; width : Q }.

Definition handleMouseDown (s : State) : State := set_isResizing true s.

Definition maxWidthOf (pdfHidden : bool) (containerWidth : Q) : Q :=
  if pdfHidden then containerWidth - 100 else containerWidth * 0.6.

(** [containerRef.current] is [None] while the container is not mounted. *)
Definition handleMouseMove (container : option Rect) (clientX : Q) (s : State)
  : State :=
  match container with
  | None => s
  | Some containerRect =>
      if negb (isResizing s) || isMobile s then s
      else
        let containerWidth := width containerRect in
        let mouseX := clientX - left containerRect in
        let newRightPanelWidth := containerWidth - mouseX - 4 in
        let minWidth := 280 in
        let maxWidth := maxWidthOf (isPDFHidden s) containerWidth in
        let clampedWidth := Qmax minWidth (Qmin maxWidth newRightPanelWidth) in
        set_rightPanelWidth clampedWidth s
  end.

Definition handleMouseUp (s : State) : State := set_isResizing false s.

(** *** Navigation *)

Definition updatePosition (s : State) (p : Z) (sectionId chapterId : option string)
  : list Effect :=
  match studyData s with
  | None => []
  | Some _ => [ConsoleLog "Position updated:" p sectionId chapterId]
  end.

Definition handlePageChange (s : State) (p : Z) (sectionId chapterId : option string)
  : State * list Effect :=
  (set_currentPage p s,
   (updatePosition s p sectionId chapterId
      ++ [ToastSuccess ("Navigated to page " ++ Js.toString p)])%list).

Definition handleTOCToggle (s : State) : State :=
  set_isTOCCollapsed (negb (isTOCCollapsed s)) s.

Definition handleTogglePDF (s : State) : State * list Effect :=
  (set_isPDFHidden (negb (isPDFHidden s)) s,
   [ToastInfo (if isPDFHidden s then "Document shown"
               else "Document hidden for focused studying")]).

(** A run of navigation calls [(page, sectionId, chapterId)], each on the
    state the previous one left. *)
Definition Call : Type := (Z * option string * option string)%type.

Definition pageOf (c : Call) : Z := fst (fst c).

Fixpoint navigateAll (s : State) (calls : list Call) : State :=
  match calls with
  | [] => s
  | (p, sectionId, chapterId) :: rest =>
      navigateAll (fst (handlePageChange s p sectionId chapterId)) rest
  end.

(** *** What [App] renders: the panes, in order *)

Inductive Pane : Type :=
| ContentsPane (widthPx : option Z) (collapsed : bool)
| DocumentPane
| ResizeHandle
| ToolPane (fullWidth : bool).

(** [Unmounted]: a component threw while rendering.  No component here is
    an error boundary, so React unmounts the whole tree and nothing stays on
    screen. *)
Inductive View : Type :=
| LoadingScreen
| Stacked (panes : list Pane)        (* narrow layout *)
| SideBySide (panes : list Pane)
| Unmounted.

Definition when (b : bool) (p : Pane) : list Pane := if b then [p] else [].

(** Both layouts mount [PDFViewer] under [!isPDFHidden], with the current
    page; its render throws on a page without topic
    ([Reader.renderThrows]). *)
Definition render (s : State) : View :=
  match studyData s with
  | None => LoadingScreen
  | Some _ =>
      if isLoading s then LoadingScreen
      else if negb (isPDFHidden s) && Reader.renderThrows (currentPage s)
      then Unmounted
      else if isMobile s then
        Stacked
          (when (hasTOC s && negb (isPDFHidden s))
                (ContentsPane None (isTOCCollapsed s))
           ++ when (negb (isPDFHidden s)) DocumentPane
           ++ [ToolPane (isPDFHidden s)])%list
      else
        SideBySide
          (when (hasTOC s && negb (isPDFHidden s))
                (ContentsPane (Some (tocWidth s)) (isTOCCollapsed s))
           ++ when (negb (isPDFHidden s)) DocumentPane
           ++ when (negb (isPDFHidden s)) ResizeHandle
           ++ [ToolPane (isPDFHidden s)])%list
  end.

Definition panesOf (v : View) : list Pane :=
  match v with
  | LoadingScreen => []
  | Stacked ps | SideBySide ps => ps
  | Unmounted => []
  end.

Definition isContentsPane (p : Pane) : bool :=
  match p with
  | ContentsPane _ _ => true
  | _ => false
  end.

Definition contentsRendered (s : State) : bool :=
  existsb isContentsPane (panesOf (render s)).

(** *** The study data [initializeStudyMode] installs *)

Definition mockToc : TOC := {|
  book_id := "a4b8b023-5d0f-47fd-9c11-de9c38808600";
  chapters := [
    {| chapter_id := "10273a10-b1ea-4514-b6c7-d1bf2d20a856";
       chapter_number := "1";
       title := "Chapter 1: Foundations";
       sections := Some [
         {| section_id := "06671124-438a-424b-84cc-43ef360501b0";
            section_title := "1.1 Algorithms"; page := 5 |};
         {| section_id := "b8e19ca7-0dab-49cc-832a-91a099c32031";
            section_title := "1.2 Algorithms as a technology"; page := 11 |};
         {| section_id := "6a0fe27b-a200-4777-becb-5ec0c62b6cee";
            section_title := "2 Getting Started"; page := 16 |} ] |};
    {| chapter_id := "0ada99be-dfc6-4efa-acca-c91d67458e4e";
       chapter_number := "2";
       title := "Chapter 2: Sorting and Order Statistics";
       sections := Some [
         {| section_id := "d945fa7c-2d8d-4302-811c-05a7ab9646dc";
            section_title := "6 Heapsort"; page := 151 |};
         {| section_id := "abcdfe9d-b9cd-4820-ae8d-5ba3a9c16cb6";
            section_title := "6.1 Heaps"; page := 151 |} ] |} ]
|}.

Definition mockData : StudyModeData := {|
  document := {|
    id := "a4b8b023-5d0f-47fd-9c11-de9c38808600";
    user_id := "db391bfe-d580-4855-b4be-19ec6d45e7cc";
    doc_title := "Introduction to Algorithms";
    file_name := "Introduction_to_algorithms-6-12.pdf";
    created_at := "2025-07-10T23:06:34.028593" |};
  chat_session_id := "8bb10527-c62d-43e1-bd81-c3a44b590262";
  toc := Some mockToc;
  last_position := {|
    page_number := 12;
    last_chapter_id := None;
    last_section_id := None;
    updated_at := "2025-07-18T01:56:41.864035+00:00" |}
|}.

Definition withoutToc (d : StudyModeData) : StudyModeData := {|
  document := document d;
  chat_session_id := chat_session_id d;
  toc := None;
  last_position := last_position d |}.

Definition withToc (t : TOC) (d : StudyModeData) : StudyModeData := {|
  document := document d;
  chat_session_id := chat_session_id d;
  toc := Some t;
  last_position := last_position d |}.

(** The state once [initializeStudyMode] has run on a wide window:
    [setStudyData], [setCurrentPage(last_position.page_number)],
    [setIsLoading(false)]. *)
Definition loaded (d : StudyModeData) : State := {|
  studyData := Some d;
  currentPage := page_number (last_position d);
  isTOCCollapsed := false;
  isMobile := false;
  rightPanelWidth := 320;
  isResizing := false;
  isLoading := false;
  isPDFHidden := false
|}.

End App.

(** ** The contents navigator *)

Module Contents.

(** A call of the [onPageSelect] callback. *)
Record NavRequest : Type := {
  nav_page : Z;
  nav_sectionId : option string;     (* [undefined] when absent *)
  nav_chapterId : option string
}.

(** [chapter.sections && chapter.sections.length > 0 &&
     !(chapter.sections.length === 1 &&
       chapter.sections[0].title === chapter.title)] *)
Definition shouldShowSections (chapter : Chapter) : bool :=
  match sections chapter with
  | None => false
  | Some secs =>
      (0 <? length secs)%nat
      && negb ((length secs =? 1)%nat
               && match secs with
                  | s0 :: _ => String.eqb (section_title s0) (title chapter)
                  | [] => false
                  end)
  end.

Definition hasExpandableSections (chapter : Chapter) : bool :=
  shouldShowSections chapter.

(** [chapter.sections && chapter.sections.length > 0 ?
     chapter.sections[0].page : null] *)
Definition chapterPage (chapter : Chapter) : option Z :=
  match sections chapter with
  | Some (s0 :: _) => Some (page s0)
  | _ => None
  end.

(** Truthiness of [chapterPage]: [null] and [0] are falsy. *)
Definition truthyPage (p : option Z) : bool :=
  match p with
  | Some n => negb (n =? 0)%Z
  | None => false
  end.

Definition isCurrentChapter (chapter : Chapter) (currentPage : Z) : bool :=
  match chapterPage chapter with
  | Some p => truthyPage (Some p) && (currentPage =? p)%Z
  | None => false
  end.

(** [chapter.sections?.[0]?.section_id] *)
Definition firstSectionId (chapter : Chapter) : option string :=
  match sections chapter with
  | Some (s0 :: _) => Some (section_id s0)
  | _ => None
  end.

Definition handleChapterClick (chapter : Chapter) : list NavRequest :=
  match chapterPage chapter with
  | Some p =>
      if truthyPage (Some p)
      then [{| nav_page := p;
               nav_sectionId := firstSectionId chapter;
               nav_chapterId := Some (chapter_id chapter) |}]
      else []
  | None => []
  end.

Definition handleSectionClick (chapter : Chapter) (section : TocSection)
  : list NavRequest :=
  [{| nav_page := page section;
      nav_sectionId := Some (section_id section);
      nav_chapterId := Some (chapter_id chapter) |}].

Definition isCurrentSection (currentPage : Z) (section : TocSection) : bool :=
  (currentPage =? page section)%Z.

(** What one chapter entry shows. *)
Record HeaderView : Type := {
  clickable : bool;          (* [cursor-pointer], [onClick] attached *)
  highlighted : bool;
  expandArrow : bool         (* the [CollapsibleTrigger] chevron *)
}.

Record SectionRow : Type := {
  row_section : TocSection;
  row_current : bool
}.

Record ItemView : Type := {
  header : HeaderView;
  rows : option (list SectionRow)    (* the [CollapsibleContent], if any *)
}.

Definition TOCItemComponent (chapter : Chapter) (currentPage : Z) : ItemView := {|
  header := {|
    clickable := negb (hasExpandableSections chapter);
    highlighted := isCurrentChapter chapter currentPage
                   && negb (hasExpandableSections chapter);
    expandArrow := hasExpandableSections chapter |};
  rows :=
    if hasExpandableSections chapter
    then Some (map (fun section =>
                      {| row_section := section;
                         row_current := isCurrentSection currentPage section |})
                   (match sections chapter with
                    | Some secs => secs
                    | None => []
                    end))
    else None
|}.

(** A click on the chapter header:
    [onClick={!hasExpandableSections ? handleChapterClick : undefined}]. *)
Definition clickHeader (chapter : Chapter) : list NavRequest :=
  if negb (hasExpandableSections chapter) then handleChapterClick chapter else [].

(** The entries [TableOfContents] renders: none while collapsed. *)
Definition TableOfContents (isCollapsed : bool) (currentPage : Z) (tocData : TOC)
  : list ItemView :=
  if isCollapsed then []
  else map (fun chapter => TOCItemComponent chapter currentPage) (chapters tocData).

(** The root passes [handlePageChange] as [onPageSelect]. *)
Definition deliver (s : App.State) (reqs : list NavRequest)
  : App.State * list App.Effect :=
  fold_left
    (fun acc r =>
       let '(s1, out) := acc in
       let '(s2, out2) :=
         App.handlePageChange s1 (nav_page r) (nav_sectionId r) (nav_chapterId r) in
       (s2, out ++ out2))
    reqs (s, []).

End Contents.

(** ** The page controls of the document viewer *)

Module Viewer.

Definition ltb_num (z : Z) (n : Js.num) : bool :=
  match n with
  | Js.NegInfinity => false
  | Js.Fin m => (z <? m)%Z
  end.

Definition leb_num (z : Z) (n : Js.num) : bool :=
  match n with
  | Js.NegInfinity => false
  | Js.Fin m => (z <=? m)%Z
  end.

(** Each handler gives the page it hands to [onPageChange], if any. *)
Definition handlePrevPage (currentPage : Z) : option Z :=
  if (1 <? currentPage)%Z then Some (currentPage - 1)%Z else None.

Definition handleNextPage (currentPage : Z) (totalPages : Js.num) : option Z :=
  if ltb_num currentPage totalPages then Some (currentPage + 1)%Z else None.

(** [parsed] is [parseInt(pageInput)], [None] for [NaN]. *)
Definition handlePageInputSubmit (parsed : option Z) (totalPages : Js.num)
  : option Z :=
  match parsed with
  | Some p => if (1 <=? p)%Z && leb_num p totalPages then Some p else None
  | None => None
  end.

End Viewer.

(** ** The tool panel *)

Module Panel.

Local Open Scope string_scope.
Import Js.

Definition nl : string := String "010"%char EmptyString.

Inductive Sender : Type := user | ai.

Record FlashCard : Type := {
  card_id : string;
  card_question : string;
  card_answer : string;
  card_difficulty : Z;
  card_topic : string
}.

Record QuizQuestion : Type := {
  quiz_id : string;
  quiz_question : string;
  quiz_options : list string;
  correct_answer : string;
  explanation : string;
  quiz_difficulty : Z;
  quiz_topic : string;
  question_type : string
}.

(** [string[] | any[]]: the arrays a tool payload is made of. *)
Inductive Payload : Type :=
| Texts (items : list string)
| Cards (items : list FlashCard)
| Questions (items : list QuizQuestion).

Definition payloadLength (c : Payload) : nat :=
  match c with
  | Texts l => length l
  | Cards l => length l
  | Questions l => length l
  end.

(** The [toolResponse] a message carries, and the value of
    [activeOverlay].  [tool_type] is [response.tool_type] as it is,
    [null] included. *)
Record ToolRef : Type := {
  tool_type : option string;
  tool_content : Payload;
  toolResponseId : option string
}.

Record Highlight : Type := {
  text : string;
  context_of : string
}.

Record Message : Type := {
  msg_id : string;
  msg_content : string;
  sender : Sender;
  timestamp : Z;
  model : option string;
  toolUsed : option string;
  toolResponse : option ToolRef;
  highlightedText : option Highlight
}.

Record Tool : Type := {
  tool_id : string;
  tool_name : string;
  tool_description : string
}.

Definition availableTools : list Tool := [
  {| tool_id := "flashcard"; tool_name := "Flashcards";
     tool_description := "Generate flashcards" |};
  {| tool_id := "quiz"; tool_name := "Quiz";
     tool_description := "Create quiz questions" |};
  {| tool_id := "diagram"; tool_name := "Diagrams";
     tool_description := "Generate diagrams" |};
  {| tool_id := "game"; tool_name := "Games";
     tool_description := "Create learning games" |} ].

(** [availableModels[0].id] *)
Definition defaultModel : string := "d50a33ce-2462-4a5a-9aa7-efc2d1749745".

Definition getToolDisplayName (toolType : string) : string :=
  let type := toLowerCase toolType in
  if includes "flashcard" type then "Flashcards"
  else if includes "quiz" type then "Quiz"
  else if includes "diagram" type then "Diagrams"
  else if includes "game" type then "Games"
  else toolType.

(** *** The payloads of the mocked generation service.  Characters of
    these texts above code unit 255 stand as their UTF-8 bytes; no handler
    looks inside a payload. *)

Definition gameTexts : list string := [
  "**Memory Match Game**" ++ nl ++ nl
    ++ "Match the algorithm concepts with their definitions:" ++ nl ++ nl
    ++ "1. Big O → Time complexity upper bound" ++ nl
    ++ "2. DFS → Depth-first search" ++ nl
    ++ "3. BFS → Breadth-first search" ++ nl
    ++ "4. Heap → Complete binary tree";
  "**Quiz Game**" ++ nl ++ nl
    ++ "Answer these questions to level up:" ++ nl ++ nl
    ++ "**Level 1:** What is O(n)?" ++ nl
    ++ "**Level 2:** Which is faster: O(log n) or O(n)?" ++ nl
    ++ "**Level 3:** Implement bubble sort"
].

Definition diagramTexts : list string := [
  "graph TD" ++ nl
    ++ "    Algorithm[Algorithm Analysis] --> TimeComplexity[Time Complexity]" ++ nl
    ++ "    Algorithm --> SpaceComplexity[Space Complexity]" ++ nl
    ++ "    TimeComplexity --> BigO[Big O Notation]" ++ nl
    ++ "    TimeComplexity --> Omega[Omega Notation]" ++ nl
    ++ "    TimeComplexity --> Theta[Theta Notation]";
  "graph LR" ++ nl
    ++ "    Input[Input Size n] --> Linear[O(n)]" ++ nl
    ++ "    Input --> Quadratic[O(n²)]" ++ nl
    ++ "    Input --> Logarithmic[O(log n)]" ++ nl
    ++ "    Input --> Constant[O(1)]"
].

Definition flashCards : list FlashCard := [
  {| card_id := "1";
     card_question := "What is the primary subject of the book 'Introduction to Algorithms'?";
     card_answer := "Computer algorithms and programming.";
     card_difficulty := 1;
     card_topic := "Book Overview" |};
  {| card_id := "2";
     card_question := "Who are the authors of 'Introduction to Algorithms'?";
     card_answer := "Thomas H. Cormen, Charles E. Leiserson, Ronald L. Rivest, and Clifford Stein.";
     card_difficulty := 1;
     card_topic := "Book Overview" |};
  {| card_id := "3";
     card_question := "What is Algorithm Analysis?";
     card_answer := "Algorithm analysis is the process of determining the computational complexity of algorithms - both time and space complexity.";
     card_difficulty := 2;
     card_topic := "Algorithm Analysis" |};
  {| card_id := "4";
     card_question := "What does Big O notation represent?";
     card_answer := "Big O notation describes the upper bound of time complexity in the worst-case scenario for an algorithm.";
     card_difficulty := 2;
     card_topic := "Algorithm Analysis" |};
  {| card_id := "5";
     card_question := "What is the difference between O(n) and O(log n)?";
     card_answer := "O(n) is linear time complexity where runtime increases directly with input size, while O(log n) is logarithmic time where runtime increases much slower.";
     card_difficulty := 3;
     card_topic := "Time Complexity" |}
].

Definition quizQuestions : list QuizQuestion := [
  {| quiz_id := "1";
     quiz_question := "What does Big O notation represent in algorithm analysis?";
     quiz_options := ["a) Best case time complexity"; "b) Average case time complexity"; "c) Worst case time complexity"; "d) Space complexity only"];
     correct_answer := "c) Worst case time complexity";
     explanation := "Big O notation specifically describes the upper bound of an algorithm's time complexity, representing the worst-case scenario. This helps developers understand how the algorithm will perform under the most challenging conditions.";
     quiz_difficulty := 2;
     quiz_topic := "Algorithm Analysis";
     question_type := "multiple_choice" |};
  {| quiz_id := "2";
     quiz_question := "Which of the following algorithms has O(log n) time complexity?";
     quiz_options := ["a) Linear search"; "b) Binary search"; "c) Bubble sort"; "d) Selection sort"];
     correct_answer := "b) Binary search";
     explanation := "Binary search achieves O(log n) time complexity because it eliminates half of the remaining elements in each step. This logarithmic behavior makes it very efficient for searching in sorted arrays.";
     quiz_difficulty := 2;
     quiz_topic := "Search Algorithms";
     question_type := "multiple_choice" |};
  {| quiz_id := "3";
     quiz_question := "What is the time complexity of accessing an element in an array by index?";
     quiz_options := ["a) O(1)"; "b) O(log n)"; "c) O(n)"; "d) O(n²)"];
     correct_answer := "a) O(1)";
     explanation := "Array access by index is O(1) or constant time because arrays store elements in contiguous memory locations. The memory address can be calculated directly using the base address plus the index offset.";
     quiz_difficulty := 1;
     quiz_topic := "Data Structures";
     question_type := "multiple_choice" |};
  {| quiz_id := "4";
     quiz_question := "Which sorting algorithm is generally considered the most efficient for large datasets?";
     quiz_options := ["a) Bubble sort"; "b) Selection sort"; "c) Quick sort"; "d) Insertion sort"];
     correct_answer := "c) Quick sort";
     explanation := "Quick sort has an average time complexity of O(n log n) and is generally faster in practice than other O(n log n) algorithms like merge sort due to better cache performance and lower constant factors.";
     quiz_difficulty := 3;
     quiz_topic := "Sorting Algorithms";
     question_type := "multiple_choice" |};
  {| quiz_id := "5";
     quiz_question := "Hash tables provide O(1) average case time complexity for insertions and lookups.";
     quiz_options := ["a) True"; "b) False"];
     correct_answer := "a) True";
     explanation := "Hash tables do provide O(1) average case time complexity for basic operations when the hash function distributes elements evenly. However, in the worst case (many collisions), operations can degrade to O(n).";
     quiz_difficulty := 2;
     quiz_topic := "Data Structures";
     question_type := "true_false" |}
].

Definition fallbackQuizTexts : list string := [
  "**Question 1:** What does Big O notation represent?" ++ nl
    ++ "a) Best case" ++ nl
    ++ "b) Average case" ++ nl
    ++ "c) Worst case" ++ nl
    ++ "d) Space only" ++ nl ++ nl
    ++ "**Answer:** c) Worst case"
].

(** *** Props and state of [ToolPanel] *)

Record Props : Type := {
  chatSessionId : string;
  currentPage : Z;
  tocData : option TOC
}.

(** [mediaRecorderRef] holds a handle of the recorder, [recordingTimerRef]
    the id [setInterval] gave. *)
Record State : Type := {
  selectedModel : string;
  messages : list Message;
  inputValue : string;
  isLoading : bool;
  contextText : option Highlight;
  isRecording : bool;
  recordingTime : Z;
  mediaRecorderRef : option nat;
  recordingTimerRef : option Z;
  activeOverlay : option ToolRef
}.

Definition initial : State := {|
  selectedModel := defaultModel;
  messages := [];
  inputValue := EmptyString;
  isLoading := false;
  contextText := None;
  isRecording := false;
  recordingTime := 0;
  mediaRecorderRef := None;
  recordingTimerRef := None;
  activeOverlay := None
|}.

Inductive Effect : Type :=
| ToastSuccess (msg : string)
| ToastInfo (msg : string)
| ToastError (msg : string)
| ConsoleError (what : string)
| RecorderStart (recorder : nat)
| RecorderStop (recorder : nat)
| SetInterval (timer : Z)
| ClearInterval (timer : Z).

Definition set_selectedModel (v : string) (s : State) : State := {|
  selectedModel := v; messages := messages s; inputValue := inputValue s;
  isLoading := isLoading s; contextText := contextText s;
  isRecording := isRecording s; recordingTime := recordingTime s;
  mediaRecorderRef := mediaRecorderRef s;
  recordingTimerRef := recordingTimerRef s;
  activeOverlay := activeOverlay s |}.

Definition set_messages (v : list Message) (s : State) : State := {|
  selectedModel := selectedModel s; messages := v;
  inputValue := inputValue s; isLoading := isLoading s;
  contextText := contextText s; isRecording := isRecording s;
  recordingTime := recordingTime s; mediaRecorderRef := mediaRecorderRef s;
  recordingTimerRef := recordingTimerRef s;
  activeOverlay := activeOverlay s |}.

Definition set_inputValue (v : string) (s : State) : State := {|
  selectedModel := selectedModel s; messages := messages s;
  inputValue := v; isLoading := isLoading s; contextText := contextText s;
  isRecording := isRecording s; recordingTime := recordingTime s;
  mediaRecorderRef := mediaRecorderRef s;
  recordingTimerRef := recordingTimerRef s;
  activeOverlay := activeOverlay s |}.

Definition set_isLoading (v : bool) (s : State) : State := {|
  selectedModel := selectedModel s; messages := messages s;
  inputValue := inputValue s; isLoading := v; contextText := contextText s;
  isRecording := isRecording s; recordingTime := recordingTime s;
  mediaRecorderRef := mediaRecorderRef s;
  recordingTimerRef := recordingTimerRef s;
  activeOverlay := activeOverlay s |}.

Definition set_contextText (v : option Highlight) (s : State) : State := {|
  selectedModel := selectedModel s; messages := messages s;
  inputValue := inputValue s; isLoading := isLoading s; contextText := v;
  isRecording := isRecording s; recordingTime := recordingTime s;
  mediaRecorderRef := mediaRecorderRef s;
  recordingTimerRef := recordingTimerRef s;
  activeOverlay := activeOverlay s |}.

Definition set_isRecording (v : bool) (s : State) : State := {|
  selectedModel := selectedModel s; messages := messages s;
  inputValue := inputValue s; isLoading := isLoading s;
  contextText := contextText s; isRecording := v;
  recordingTime := recordingTime s; mediaRecorderRef := mediaRecorderRef s;
  recordingTimerRef := recordingTimerRef s;
  activeOverlay := activeOverlay s |}.

Definition set_recordingTime (v : Z) (s : State) : State := {|
  selectedModel := selectedModel s; messages := messages s;
  inputValue := inputValue s; isLoading := isLoading s;
  contextText := contextText s; isRecording := isRecording s;
  recordingTime := v; mediaRecorderRef := mediaRecorderRef s;
  recordingTimerRef := recordingTimerRef s;
  activeOverlay := activeOverlay s |}.

Definition set_mediaRecorderRef (v : option nat) (s : State) : State := {|
  selectedModel := selectedModel s; messages := messages s;
  inputValue := inputValue s; isLoading := isLoading s;
  contextText := contextText s; isRecording := isRecording s;
  recordingTime := recordingTime s; mediaRecorderRef := v;
  recordingTimerRef := recordingTimerRef s;
  activeOverlay := activeOverlay s |}.

Definition set_recordingTimerRef (v : option Z) (s : State) : State := {|
  selectedModel := selectedModel s; messages := messages s;
  inputValue := inputValue s; isLoading := isLoading s;
  contextText := contextText s; isRecording := isRecording s;
  recordingTime := recordingTime s; mediaRecorderRef := mediaRecorderRef s;
  recordingTimerRef := v; activeOverlay := activeOverlay s |}.

Definition set_activeOverlay (v : option ToolRef) (s : State) : State := {|
  selectedModel := selectedModel s; messages := messages s;
  inputValue := inputValue s; isLoading := isLoading s;
  contextText := contextText s; isRecording := isRecording s;
  recordingTime := recordingTime s; mediaRecorderRef := mediaRecorderRef s;
  recordingTimerRef := recordingTimerRef s; activeOverlay := v |}.

(** *** Current section and chapter *)

Record Context : Type := {
  chapterName : string;
  sectionName : string;
  chapterId : option string;
  sectionId : option string
}.

Definition noContext : Context := {|
  chapterName := EmptyString; sectionName := EmptyString;
  chapterId := None; sectionId := None |}.

(** The inner loop: the first section whose page is [currentPage]. *)
Fixpoint scanSections (currentPage : Z) (secs : list TocSection)
  : option TocSection :=
  match secs with
  | [] => None
  | section :: rest =>
      if (page section =? currentPage)%Z then Some section
      else scanSections currentPage rest
  end.

(** The outer loop, which skips a chapter whose [sections] is [null]. *)
Fixpoint scanChapters (currentPage : Z) (chs : list Chapter)
  : option (Chapter * TocSection) :=
  match chs with
  | [] => None
  | chapter :: rest =>
      match sections chapter with
      | Some secs =>
          match scanSections currentPage secs with
          | Some section => Some (chapter, section)
          | None => scanChapters currentPage rest
          end
      | None => scanChapters currentPage rest
      end
  end.

Definition getCurrentContext (props : Props) : Context :=
  match tocData props with
  | None => noContext
  | Some t =>
      match scanChapters (currentPage props) (chapters t) with
      | Some (chapter, section) =>
          {| chapterName := title chapter;
             sectionName := section_title section;
             chapterId := Some (chapter_id chapter);
             sectionId := Some (section_id section) |}
      | None => noContext
      end
  end.

(** *** Voice recording *)

(** How the browser answers [startRecording]. *)
Inductive Capture : Type :=
| Unsupported                      (* no [mediaDevices.getUserMedia] *)
| Rejected                         (* [getUserMedia] rejects *)
| RecorderFails                    (* [new MediaRecorder] throws *)
| StartFails (recorder : nat)      (* [mediaRecorder.start()] throws *)
| Started (recorder : nat) (timer : Z).

Definition captureFailed (c : Capture) : bool :=
  match c with
  | Started _ _ => false
  | _ => true
  end.

Definition startFailure : list Effect :=
  [ConsoleError "Recording error:"; ToastError "Failed to start recording."].

Definition startRecording (c : Capture) (s : State) : State * list Effect :=
  match c with
  | Unsupported => (s, [ToastError "Audio recording not supported."])
  | Rejected => (s, startFailure)
  | RecorderFails => (s, startFailure)
  | StartFails recorder => (set_mediaRecorderRef (Some recorder) s, startFailure)
  | Started recorder timer =>
      (set_recordingTimerRef (Some timer)
         (set_recordingTime 0
            (set_isRecording true
               (set_mediaRecorderRef (Some recorder) s))),
       [RecorderStart recorder; SetInterval timer;
        ToastSuccess "Recording started..."])
  end.

(** The interval callback: [setRecordingTime(prev => prev + 1)]. *)
Definition tick (s : State) : State :=
  set_recordingTime (recordingTime s + 1) s.

Definition clearTimer (s : State) : State * list Effect :=
  match recordingTimerRef s with
  | Some timer => (set_recordingTimerRef None s, [ClearInterval timer])
  | None => (s, [])
  end.

Definition stopRecording (stopThrows : bool) (s : State) : State * list Effect :=
  match mediaRecorderRef s with
  | Some recorder =>
      if isRecording s then
        if stopThrows then
          let '(s1, out) := clearTimer (set_isRecording false s) in
          (s1, ConsoleError "Stop recording error:" :: out)
        else
          let '(s1, out) := clearTimer (set_isRecording false s) in
          (s1, (RecorderStop recorder :: out ++ [ToastInfo "Processing audio..."])%list)
      else (s, [])
  | None => (s, [])
  end.

Definition toggleRecording (c : Capture) (stopThrows : bool) (s : State)
  : State * list Effect :=
  if isRecording s then stopRecording stopThrows s else startRecording c s.

(** The recorder's [onstop], one second later. *)
Definition transcribed (s : State) : State * list Effect :=
  let transcribedText := "Can you explain the key concepts in this section?" in
  (set_inputValue
     (inputValue s ++ (if truthy (inputValue s) then nl else EmptyString)
        ++ transcribedText) s,
   [ToastSuccess "Audio transcribed!"]).

(** The recorder's [onerror]. *)
Definition recorderError (s : State) : State * list Effect :=
  (set_isRecording false s,
   ([ConsoleError "MediaRecorder error:"; ToastError "Recording error occurred."]
    ++ match recordingTimerRef s with
       | Some timer => [ClearInterval timer]
       | None => []
       end)%list).

(** The cleanup of [useEffect(..., [isRecording])].  React runs it after a
    render in which [isRecording] has changed, and when the panel unmounts.
    [wasRecording] is the [isRecording] of the render that set the effect
    up (the cleanup closes over it); the two refs are read when the cleanup
    runs.  [cleanupThrows]: the call of [stop()] inside its [try] throws. *)
Definition recordingCleanup (wasRecording cleanupThrows : bool) (s : State)
  : list Effect :=
  (match recordingTimerRef s with
   | Some timer => [ClearInterval timer]
   | None => []
   end
   ++ match mediaRecorderRef s with
      | Some recorder =>
          if wasRecording then
            if cleanupThrows then [ConsoleError "Cleanup error:"]
            else [RecorderStop recorder]
          else []
      | None => []
      end)%list.

(** What the effect adds to an update that takes the panel from [s] to
    [s1]. *)
Definition afterRender (cleanupThrows : bool) (s s1 : State) : list Effect :=
  if Bool.eqb (isRecording s) (isRecording s1) then []
  else recordingCleanup (isRecording s) cleanupThrows s1.

(** *** The mocked chat service *)

Record HighlightedRef : Type := {
  h_text : string;
  h_context : string;
  h_page : Z;
  h_chapter_id : option string;
  h_section_id : option string
}.

Record Response : Type := {
  r_chat_session_id : string;
  role : string;
  r_content : string;
  model_id : string;
  r_tool_type : option string;
  tool_response_id : option string;
  tool_response : option Payload;
  r_created_at : Z;
  highlighted_text : option HighlightedRef
}.

(** [now] is what the clock reads during the call. *)
Definition sendChatMessage (props : Props) (s : State) (now : Z)
    (content : string) (autoGenerated : bool) (highlightedText : option Highlight)
  : Response :=
  let context := getCurrentContext props in
  {| r_chat_session_id := chatSessionId props;
     role := "assistant";
     r_content :=
       match highlightedText with
       | Some h =>
           "Based on the selected text " ++ dquote ++ text h ++ dquote
           ++ ", this refers to " ++ toLowerCase (text h) ++ ". " ++ text h
           ++ " is a fundamental concept that plays a crucial role in algorithm analysis. It represents the upper bound of an algorithm's time complexity, helping us understand the worst-case scenario for performance."
       | None =>
           if autoGenerated
           then "I've analyzed the selected content and generated the requested tool. You can interact with the results using the tool button below."
           else "This page discusses important concepts. The content covers fundamental principles that are essential for understanding the subject matter."
       end;
     model_id := selectedModel s;
     r_tool_type :=
       if autoGenerated
       then Some (if includes "game" content then "game"
                  else if includes "diagram" content then "diagram"
                  else if includes "flashcard" content then "flashcard"
                  else "quiz")
       else None;
     tool_response_id :=
       if autoGenerated then Some ("mock-response-" ++ toString now) else None;
     tool_response :=
       if autoGenerated
       then Some (if includes "game" content then Texts gameTexts
                  else if includes "diagram" content then Texts diagramTexts
                  else if includes "flashcard" content then Cards flashCards
                  else if includes "quiz" content then Questions quizQuestions
                  else Texts fallbackQuizTexts)
       else None;
     r_created_at := now;
     highlighted_text :=
       match highlightedText with
       | Some h =>
           Some {| h_text := text h; h_context := context_of h;
                   h_page := currentPage props;
                   h_chapter_id := chapterId context;
                   h_section_id := sectionId context |}
       | None => None
       end |}.

(** *** Sending a message *)

(** What [handleSendMessage] waits for at its [await]: the outcome of
    [sendChatMessage] ([None] when it threw) and the model that the
    closure of the call holds. *)
Record Pending : Type := {
  outcome : option Response;
  pending_model : string
}.

(** [messageContent || inputValue] *)
Definition contentOf (messageContent : option string) (s : State) : string :=
  match orElse messageContent None with
  | Some m => m
  | None => inputValue s
  end.

(** The part that runs at the call, up to the [await].  [messageContent]
    is [None] when the argument is left out. *)
Definition handleSendMessage (props : Props) (now : Z)
    (messageContent : option string) (autoGenerated : bool)
    (highlightedTextOverride : option Highlight) (s : State)
  : State * option Pending :=
  let content := contentOf messageContent s in
  if negb (truthy (trim content)) || isLoading s then (s, None)
  else
    let currentContextText :=
      match highlightedTextOverride with
      | Some h => Some h
      | None => contextText s
      end in
    let userMessage := {|
      msg_id := toString now;
      msg_content := content;
      sender := user;
      timestamp := now;
      model := None;
      toolUsed := None;
      toolResponse := None;
      highlightedText := currentContextText |} in
    let s1 := set_messages (messages s ++ [userMessage]) s in
    let s2 := if negb autoGenerated then set_inputValue EmptyString s1 else s1 in
    let s3 :=
      match highlightedTextOverride with
      | Some _ => s2
      | None => set_contextText None s2
      end in
    let s4 := set_isLoading true s3 in
    (s4,
     Some {| outcome :=
               Some (sendChatMessage props s now content autoGenerated
                       currentContextText);
             pending_model := selectedModel s |}).

(** The assistant message built from a response. *)
Definition aiMessageOf (now : Z) (selected : string) (response : Response)
  : Message := {|
  msg_id := toString (now + 1);
  msg_content := r_content response;
  sender := ai;
  timestamp := now;
  model := Some selected;
  toolUsed := orElse (r_tool_type response) None;
  toolResponse :=
    match tool_response response with
    | Some payload =>
        Some {| tool_type := r_tool_type response;
                tool_content := payload;
                toolResponseId := orElse (tool_response_id response) None |}
    | None => None
    end;
  highlightedText := None |}.

(** The continuation after the [await]: [try] body, [catch], [finally]. *)
Definition handleSendMessage_completed (p : Pending) (now : Z) (s : State)
  : State * list Effect :=
  match outcome p with
  | Some response =>
      (set_isLoading false
         (set_messages (messages s ++ [aiMessageOf now (pending_model p) response]) s),
       [])
  | None =>
      (set_isLoading false s, [ToastError "Failed to send message"])
  end.

Definition handleToolUse (props : Props) (now : Z) (tool : Tool) (s : State)
  : State * option Pending * list Effect :=
  let toolMessage :=
    "Generate a " ++ toLowerCase (tool_name tool)
    ++ " based on the current content on page " ++ toString (currentPage props) in
  (handleSendMessage props now (Some toolMessage) true None s,
   [ToastInfo ("Generating " ++ toLowerCase (tool_name tool) ++ "...")]).

(** *** The entry points the root calls *)

Definition handleHighlightedText (text0 context0 : string) (s : State) : State :=
  set_inputValue ("Please explain: " ++ dquote ++ text0 ++ dquote)
    (set_contextText (Some {| text := text0; context_of := context0 |}) s).

Definition handleDirectToolGeneration (props : Props) (now : Z)
    (text0 context0 toolType : string) (s : State)
  : State * option Pending * list Effect :=
  let toolName := getToolDisplayName toolType in
  let toolMessage :=
    "Generate " ++ toLowerCase toolName ++ " from the selected text: "
    ++ dquote ++ text0 ++ dquote in
  (handleSendMessage props now (Some toolMessage) true
     (Some {| text := text0; context_of := context0 |}) s,
   [ToastInfo ("Generating " ++ toLowerCase toolName ++ " from selected text...")]).

Definition handleToolTextHighlight (selectedText context0 : string) (s : State)
  : State * list Effect :=
  (set_inputValue ("Please explain: " ++ dquote ++ selectedText ++ dquote)
     (set_contextText (Some {| text := selectedText; context_of := context0 |}) s),
   [ToastSuccess "Selected text added to chat!"]).

Definition handleClearContext (s : State) : State :=
  set_inputValue EmptyString (set_contextText None s).

(** *** Opening a tool *)

Definition handleOpenToolMessage (toolResponse0 : ToolRef) (s : State) : State :=
  set_activeOverlay (Some toolResponse0) s.

Definition mockToolResponse : list string := [
  "graph TD" ++ nl
    ++ "    Blockchain  -->  A[Decentralized Network]" ++ nl
    ++ "    A  -->  B[Nodes  Peers]" ++ nl
    ++ "    B  -->  C[Transactions Verified]" ++ nl
    ++ "    C  -->  D[Blocks Created]" ++ nl
    ++ "    D  -->  E[Blockchain Updated]";
  "graph TD" ++ nl
    ++ "    Transaction  -->  A[Verified by Nodes]" ++ nl
    ++ "    A  -->  B[Encrypted  Linked]" ++ nl
    ++ "    B  -->  C[Block Created]" ++ nl
    ++ "    C  -->  D[Block Hashed]" ++ nl
    ++ "    D  -->  E[Blockchain Updated]";
  "graph TD" ++ nl
    ++ "    Data  -->  A[Encrypted]" ++ nl
    ++ "    A  -->  B[Distributed Ledger]" ++ nl
    ++ "    B  -->  C[Decentralized Network]" ++ nl
    ++ "    C  -->  D[Consensus Mechanism]" ++ nl
    ++ "    D  -->  E[Validated Transactions]"
].

Definition sameId (a : option string) (b : string) : bool :=
  match a with
  | Some x => String.eqb x b
  | None => false
  end.

Definition backfill (toolResponseId0 : string) (msg : Message) : Message :=
  match toolResponse msg with
  | Some tr =>
      if sameId (toolResponseId tr) toolResponseId0
      then {| msg_id := msg_id msg; msg_content := msg_content msg;
              sender := sender msg; timestamp := timestamp msg;
              model := model msg; toolUsed := toolUsed msg;
              toolResponse :=
                Some {| tool_type := tool_type tr;
                        tool_content := Texts mockToolResponse;
                        toolResponseId := toolResponseId tr |};
              highlightedText := highlightedText msg |}
      else msg
  | None => msg
  end.

Definition loadToolResponse (toolResponseId0 : string) (toolType : option string)
    (s : State) : State :=
  set_activeOverlay
    (Some {| tool_type := toolType;
             tool_content := Texts mockToolResponse;
             toolResponseId := Some toolResponseId0 |})
    (set_messages (map (backfill toolResponseId0) (messages s)) s).

(** A click on a message's open-tool button. *)
Definition handleOpenTool (message : Message) (s : State) : State :=
  match toolResponse message with
  | None => s
  | Some tr =>
      if (0 <? payloadLength (tool_content tr))%nat
      then handleOpenToolMessage tr s
      else
        match toolResponseId tr with
        | Some i => if truthy i then loadToolResponse i (tool_type tr) s else s
        | None => s
        end
  end.

(** [onClose] and [onMinimize] of the overlay. *)
Definition closeOverlay (s : State) : State := set_activeOverlay None s.

(** *** The panel as one transition system

    The events of one mounted instance of the panel, with the two effects
    the component declares.  [HistoryEffect] is the effect on
    [initialChatHistory]: it runs when the panel mounts and whenever that
    property changes, and carries the list it computes
    ([History.convertMessagesFromHistory], further down).  The cleanup of
    the effect on [isRecording] is added to the updates that can change
    [isRecording]: the record button and the recorder's [onerror]; no other
    handler calls [setIsRecording].  [Tick] is the callback of an interval
    that is live; the interval of a recording that starts from an idle
    panel is cleared by that cleanup in the update that sets it.  An
    instance ends when React unmounts it; the next one starts from
    [initial] ([Lifetime], further down). *)

Inductive Event : Type :=
| Send (now : Z)                                    (* Enter, send button *)
| SendCompleted (p : Pending) (now : Z)
| ToolUse (now : Z) (tool : Tool)
| HighlightedText (text0 context0 : string)
| DirectToolGeneration (now : Z) (text0 context0 toolType : string)
| ToolTextHighlight (selectedText context0 : string)
| ClearContext
| TypeInput (value : string)
| SelectModel (m : string)
| OpenTool (message : Message)
| CloseOverlay
| ToggleRecording (c : Capture) (stopThrows cleanupThrows : bool)
| Tick
| Transcribed
| RecorderError (cleanupThrows : bool)
| HistoryEffect (converted : list Message).

Definition step (props : Props) (s : State) (e : Event)
  : State * option Pending * list Effect :=
  match e with
  | Send now => (handleSendMessage props now None false None s, [])
  | SendCompleted p now =>
      let '(s1, out) := handleSendMessage_completed p now s in (s1, None, out)
  | ToolUse now tool => handleToolUse props now tool s
  | HighlightedText t c => (handleHighlightedText t c s, None, [])
  | DirectToolGeneration now t c ty => handleDirectToolGeneration props now t c ty s
  | ToolTextHighlight t c =>
      let '(s1, out) := handleToolTextHighlight t c s in (s1, None, out)
  | ClearContext => (handleClearContext s, None, [])
  | TypeInput v => (set_inputValue v s, None, [])
  | SelectModel m => (set_selectedModel m s, None, [])
  | OpenTool message => (handleOpenTool message s, None, [])
  | CloseOverlay => (closeOverlay s, None, [])
  | ToggleRecording c stopThrows cleanupThrows =>
      let '(s1, out) := toggleRecording c stopThrows s in
      (s1, None, (out ++ afterRender cleanupThrows s s1)%list)
  | Tick => (tick s, None, [])
  | Transcribed => let '(s1, out) := transcribed s in (s1, None, out)
  | RecorderError cleanupThrows =>
      let '(s1, out) := recorderError s in
      (s1, None, (out ++ afterRender cleanupThrows s s1)%list)
  | HistoryEffect converted => (set_messages converted s, None, [])
  end.

Definition stateOf (r : State * option Pending * list Effect) : State :=
  fst (fst r).

End Panel.

(** ** The specification's own notions, to compare the code with *)

Module Spec.

Local Open Scope string_scope.

(** [p] clamped into [[1, totalPages]]. *)
Definition clampPage (p totalPages : Z) : Z :=
  if (p <? 1)%Z then 1%Z
  else if (totalPages <? p)%Z then totalPages
  else p.

(** [clamp(x, lo, hi)] *)
Definition clamp (x lo hi : Q) : Q :=
  if Qlt_le_dec x lo then lo
  else if Qlt_le_dec hi x then hi
  else x.

(** A chapter entry is directly clickable when it has no sections, or
    exactly one section whose title equals the chapter's title. *)
Definition directlyClickable (c : Chapter) : bool :=
  match sections c with
  | None => true
  | Some [] => true
  | Some [s0] => String.eqb (section_title s0) (title c)
  | Some (_ :: _ :: _) => false
  end.

(** The table of contents of the scenario: chapter Ch1 with the sections
    1.1 on page 5 and 1.2 on page 11. *)
Definition scenarioToc : TOC := {|
  book_id := "book";
  chapters := [
    {| chapter_id := "Ch1-id"; chapter_number := "1"; title := "Ch1";
       sections := Some [
         {| section_id := "1.1-id"; section_title := "1.1"; page := 5 |};
         {| section_id := "1.2-id"; section_title := "1.2"; page := 11 |} ] |} ]
|}.

(** A table of contents that is present and has no chapter. *)
Definition emptyToc : TOC := {| book_id := "book"; chapters := [] |}.

(** A chapter without sections. *)
Definition bareChapter : Chapter := {|
  chapter_id := "Ch-id"; chapter_number := "3"; title := "Appendix";
  sections := None |}.

End Spec.

(** ** How the root wires the tool panel *)

Module Wiring.

(** The props [App] passes to [ToolPanel] once the study data is loaded:
    [chatSessionId={studyData.chat_session_id}], [currentPage={currentPage}],
    [tocData={studyData.toc}]. *)
Definition panelProps (s : App.State) : option Panel.Props :=
  match App.studyData s with
  | Some d =>
      Some {| Panel.chatSessionId := App.chat_session_id d;
              Panel.currentPage := App.currentPage s;
              Panel.tocData := App.toc d |}
  | None => None
  end.

(** The current context the panel computes under the root's state. *)
Definition currentContext (s : App.State) : option Panel.Context :=
  option_map Panel.getCurrentContext (panelProps s).

End Wiring.


(** ** The viewer's page controls, wired to the root *)

Module Paging.

Inductive PageEvent : Type :=
| PrevPage
| NextPage
| SubmitPage (parsed : option Z).

(** The page an event hands to [onPageChange], if any. *)
Definition pageRequest (e : PageEvent) (currentPage : Z) (totalPages : Js.num)
  : option Z :=
  match e with
  | PrevPage => Viewer.handlePrevPage currentPage
  | NextPage => Viewer.handleNextPage currentPage totalPages
  | SubmitPage parsed => Viewer.handlePageInputSubmit parsed totalPages
  end.

(** [onPageChange={handlePageChange}], with the props
    [currentPage={currentPage}] and [totalPages={totalPages}]. *)
Definition viewerStep (s : App.State) (e : PageEvent) : App.State :=
  match pageRequest e (App.currentPage s) (App.totalPages s) with
  | Some p => fst (App.handlePageChange s p None None)
  | None => s
  end.

Definition viewerAll (s : App.State) (es : list PageEvent) : App.State :=
  fold_left viewerStep es s.

(** A toggle of the contents pane followed by the responsive effect that it
    triggers ([isTOCCollapsed] is a dependency of the effect), at a window
    width. *)
Definition toggleContents (innerWidth : Q) (s : App.State) : App.State :=
  App.checkMobile innerWidth (App.handleTOCToggle s).

(** The same for hiding or showing the document. *)
Definition toggleDocument (innerWidth : Q) (s : App.State) : App.State :=
  App.checkMobile innerWidth (fst (App.handleTogglePDF s)).

End Paging.

(** ** Routing a highlight from the viewer to the tool panel *)

Module Routing.

(** [handleTextHighlight] of the root, on the panel the ref points to
    ([None] while the panel is not mounted). *)
Definition handleTextHighlight (props : Panel.Props) (now : Z)
    (selectedText context0 : string) (toolType : option string)
    (panel : option Panel.State)
  : option (Panel.State * option Panel.Pending * list Panel.Effect) :=
  match panel with
  | None => None
  | Some s =>
      match toolType with
      | Some t =>
          if Js.truthy t && negb (String.eqb t "ask")
          then Some (Panel.handleDirectToolGeneration props now selectedText
                       context0 t s)
          else Some (Panel.handleHighlightedText selectedText context0 s, None, [])
      | None => Some (Panel.handleHighlightedText selectedText context0 s, None, [])
      end
  end.

(** A tool chosen in the viewer's popup, delivered to the panel. *)
Definition selectTool (props : Panel.Props) (now : Z) (toolId : string)
    (viewer : Reader.State) (panel : Panel.State)
  : Reader.State * Panel.State * option Panel.Pending :=
  match Reader.handleToolSelect toolId viewer with
  | (viewer', Some call, _) =>
      match handleTextHighlight props now (Reader.hl_text call)
              (Reader.hl_context call) (Reader.hl_toolType call) (Some panel) with
      | Some (panel', pending, _) => (viewer', panel', pending)
      | None => (viewer', panel, None)
      end
  | (viewer', None, _) => (viewer', panel, None)
  end.

End Routing.

(** ** Restoring the chat history *)

Module History.

Local Open Scope string_scope.

Inductive Role : Type := role_user | role_assistant.

(** A turn as the chat-history provider gives it. *)
Record ChatMessage : Type := {
  id : string;
  chat_session_id : string;
  role : Role;
  content : string;
  model_id : option string;
  tool_response_id : option string;
  tool_type : option string;
  created_at : string
}.

Record ChatHistory : Type := {
  history_session_id : string;
  messages : list ChatMessage
}.

(** [a && b] on two optional strings, as a condition. *)
Definition bothTruthy (a b : option string) : option (string * string) :=
  match a, b with
  | Some x, Some y => if Js.truthy x && Js.truthy y then Some (x, y) else None
  | _, _ => None
  end.

(** One turn converted; [parseDate] stands for [new Date(created_at)]. *)
Definition convertMessage (parseDate : string -> Z) (msg : ChatMessage)
  : Panel.Message := {|
  Panel.msg_id := id msg;
  Panel.msg_content := content msg;
  Panel.sender := match role msg with
                  | role_user => Panel.user
                  | role_assistant => Panel.ai
                  end;
  Panel.timestamp := parseDate (created_at msg);
  Panel.model := Js.orElse (model_id msg) None;
  Panel.toolUsed := Js.orElse (tool_type msg) None;
  Panel.toolResponse :=
    match bothTruthy (tool_response_id msg) (tool_type msg) with
    | Some (i, ty) =>
        Some {| Panel.tool_type := Some ty;
                Panel.tool_content := Panel.Texts [];
                Panel.toolResponseId := Some i |}
    | None => None
    end;
  Panel.highlightedText := None |}.

Definition welcome (now : Z) : Panel.Message := {|
  Panel.msg_id := "1";
  Panel.msg_content :=
    "Hello! I'm here to help you study. Ask me questions, use the tools to generate flashcards, quizzes, diagrams, or games, or highlight any text in the document to instantly access all learning tools.";
  Panel.sender := Panel.ai;
  Panel.timestamp := now;
  Panel.model := Some Panel.defaultModel;
  Panel.toolUsed := None;
  Panel.toolResponse := None;
  Panel.highlightedText := None |}.

(** The effect on [initialChatHistory]: the converted turns, or the welcome
    message when there is no history or it is empty. *)
Definition convertMessagesFromHistory (parseDate : string -> Z) (now : Z)
    (initialChatHistory : option ChatHistory) (s : Panel.State) : Panel.State :=
  match initialChatHistory with
  | Some h =>
      if (0 <? length (messages h))%nat
      then Panel.set_messages (map (convertMessage parseDate) (messages h)) s
      else Panel.set_messages [welcome now] s
  | None => Panel.set_messages [welcome now] s
  end.

End History.

(** ** The life of a panel instance *)

Module Lifetime.

(** The list that the effect on [initialChatHistory] installs. *)
Definition converted (parseDate : string -> Z) (now : Z)
    (history : option History.ChatHistory) : list Panel.Message :=
  Panel.messages
    (History.convertMessagesFromHistory parseDate now history Panel.initial).

Definition historyEffect (parseDate : string -> Z) (now : Z)
    (history : option History.ChatHistory) : Panel.Event :=
  Panel.HistoryEffect (converted parseDate now history).

(** Mounting: the state cells at their initial values, then the effect on
    [initialChatHistory] runs. *)
Definition mount (props : Panel.Props) (parseDate : string -> Z) (now : Z)
    (history : option History.ChatHistory) : Panel.State :=
  Panel.stateOf
    (Panel.step props Panel.initial (historyEffect parseDate now history)).

(** Unmounting runs the cleanup of the effect on [isRecording], as the last
    render set it up. *)
Definition unmount (cleanupThrows : bool) (s : Panel.State)
  : list Panel.Effect :=
  Panel.recordingCleanup (Panel.isRecording s) cleanupThrows s.

(** [App] places the panel under a [div] in the narrow layout and under a
    fragment in the wide one.  When [isMobile] differs between two renders
    React unmounts the instance and mounts a new one: the state of the old
    one is lost. *)
Definition relayout (wasMobile isMobile : bool) (props : Panel.Props)
    (parseDate : string -> Z) (now : Z) (history : option History.ChatHistory)
    (cleanupThrows : bool) (s : Panel.State)
  : Panel.State * list Panel.Effect :=
  if Bool.eqb wasMobile isMobile then (s, [])
  else (mount props parseDate now history, unmount cleanupThrows s).

End Lifetime.

(** ** Tool labels and the overlay that a tool type opens *)

Module Labels.

Local Open Scope string_scope.

Definition getToolButtonText (toolType : string) : string :=
  let type := Js.toLowerCase toolType in
  if Js.includes "flashcard" type then "Open Flashcards"
  else if Js.includes "quiz" type then "Open Quiz"
  else if Js.includes "diagram" type then "Open Diagrams"
  else if Js.includes "game" type then "Open Game"
  else "Open Tool".

Inductive OverlayKind : Type :=
| FlashcardOverlay
| QuizOverlay
| DiagramOverlay
| GameOverlay
| PlainOverlay.

(** [getOverlayContent] of [ToolOverlay]: the component it picks. *)
Definition getOverlayContent (toolType : string) : OverlayKind :=
  let type := Js.toLowerCase toolType in
  if Js.includes "flashcard" type then FlashcardOverlay
  else if Js.includes "quiz" type then QuizOverlay
  else if Js.includes "diagram" type then DiagramOverlay
  else if Js.includes "game" type then GameOverlay
  else PlainOverlay.

(** [padStart(2, '0')] *)
Definition padStart2 (s : string) : string :=
  match String.length s with
  | O => "00"
  | S O => "0" ++ s
  | _ => s
  end.

(** [formatRecordingTime], which the game overlay repeats as [formatTime],
    for a whole number of seconds. *)
Definition formatRecordingTime (seconds : Z) : string :=
  let mins := (seconds / 60)%Z in          (* [Math.floor(seconds / 60)] *)
  let secs := Z.rem seconds 60 in
  Js.toString mins ++ ":" ++ padStart2 (Js.toString secs).

End Labels.

(** ** The tool overlays: flashcards, diagrams, quiz *)

Module Overlays.

Local Open Scope string_scope.

(** *** Cyclic navigation, shared by the flashcard and diagram overlays *)

(** [(prev + 1) % n] and [(prev - 1 + n) % n]. *)
Definition nextIndex (n prev : Z) : Z := Z.rem (prev + 1) n.
Definition prevIndex (n prev : Z) : Z := Z.rem (prev - 1 + n) n.

(** *** Flashcards *)

Record Card : Type := {
  front : string;
  back : string;
  difficulty : Z;
  topic : string;
  id : string
}.

(** [cards] for content that is an array of flashcard objects; the empty
    array falls to the legacy parser, which throws on it and gives no card. *)
Definition cardsOf (content : list Panel.FlashCard) : list Card :=
  map (fun card =>
         {| front := Panel.card_question card;
            back := Panel.card_answer card;
            difficulty := Panel.card_difficulty card;
            topic := Panel.card_topic card;
            id := Panel.card_id card |})
      content.

Record FlashcardState : Type := {
  currentCard : Z;
  isFlipped : bool
}.

Definition flashcardInitial : FlashcardState :=
  {| currentCard := 0; isFlipped := false |}.

Inductive FlashcardEvent : Type := CardNext | CardPrev | CardFlip.

Definition flashcardStep (cards : list Card) (s : FlashcardState)
    (e : FlashcardEvent) : FlashcardState :=
  let n := Z.of_nat (length cards) in
  match e with
  | CardNext =>
      if (n =? 0)%Z then s
      else {| currentCard := nextIndex n (currentCard s); isFlipped := false |}
  | CardPrev =>
      if (n =? 0)%Z then s
      else {| currentCard := prevIndex n (currentCard s); isFlipped := false |}
  | CardFlip => {| currentCard := currentCard s; isFlipped := negb (isFlipped s) |}
  end.

(** [cards[currentCard]] *)
Definition currentCardData (cards : list Card) (s : FlashcardState) : option Card :=
  Reader.at_index cards (currentCard s).

(** [`Q: ${front}\nA: ${back}`], what [handleCopyCard] puts on the
    clipboard; nothing for an empty deck. *)
Definition cardText (cards : list Card) (s : FlashcardState) : option string :=
  match cards with
  | [] => None
  | _ =>
      match currentCardData cards s with
      | Some c => Some ("Q: " ++ front c ++ Panel.nl ++ "A: " ++ back c)
      | None => None
      end
  end.

(** *** Diagrams *)

(** [diagrams] for content that is an array of strings. *)
Definition diagramsOf (content : list string) : list string :=
  filter (fun diagram => (0 <? String.length (Js.trim diagram))%nat) content.

Inductive DiagramEvent : Type := DiagramNext | DiagramPrev.

Definition diagramStep (diagrams : list string) (currentDiagram : Z)
    (e : DiagramEvent) : Z :=
  let n := Z.of_nat (length diagrams) in
  if (n =? 0)%Z then currentDiagram
  else match e with
       | DiagramNext => nextIndex n currentDiagram
       | DiagramPrev => prevIndex n currentDiagram
       end.

(** *** Quiz *)

Record QuestionState : Type := {
  answered : bool;
  selectedAnswer : option string;
  isCorrect : bool;
  showExplanation : bool
}.

(** An object used as a map from question ids; the order of the keys is
    not read, only their number and their values. *)
Definition Dict (A : Type) : Type := list (string * A).

Fixpoint lookup {A : Type} (k : string) (d : Dict A) : option A :=
  match d with
  | [] => None
  | (k', v) :: rest => if String.eqb k' k then Some v else lookup k rest
  end.

(** [{ ...prev, [k]: v }] *)
Fixpoint assign {A : Type} (k : string) (v : A) (d : Dict A) : Dict A :=
  match d with
  | [] => [(k, v)]
  | (k', v') :: rest =>
      if String.eqb k' k then (k, v) :: rest else (k', v') :: assign k v rest
  end.

Definition keys {A : Type} (d : Dict A) : list string := map fst d.

Record QuizState : Type := {
  currentPage : nat;
  questionStates : Dict QuestionState;
  selectedAnswers : Dict string
}.

Definition quizInitial : QuizState :=
  {| currentPage := 0; questionStates := []; selectedAnswers := [] |}.

Definition questionsPerPage : nat := 2.

(** [Math.ceil(questions.length / questionsPerPage)] *)
Definition totalPages (questions : list Panel.QuizQuestion) : nat :=
  (length questions + 1) / 2.

(** [xs.slice(a, b)] for [a <= b]. *)
Definition slice {A : Type} (a b : nat) (xs : list A) : list A :=
  firstn (b - a) (skipn a xs).

Definition currentQuestions (questions : list Panel.QuizQuestion) (page : nat)
  : list Panel.QuizQuestion :=
  slice (page * questionsPerPage) ((page + 1) * questionsPerPage) questions.

Inductive QuizEvent : Type :=
| AnswerSelect (questionId answer : string)
| SubmitQuestion (questionId : string)
| QuizNext
| QuizPrev.

Inductive QuizToast : Type := CorrectToast | IncorrectToast.

Definition handleAnswerSelect (questionId answer : string) (s : QuizState)
  : QuizState :=
  {| currentPage := currentPage s;
     questionStates := questionStates s;
     selectedAnswers := assign questionId answer (selectedAnswers s) |}.

Definition handleSubmitQuestion (questions : list Panel.QuizQuestion)
    (questionId : string) (s : QuizState) : QuizState * option QuizToast :=
  match find (fun q => String.eqb (Panel.quiz_id q) questionId) questions,
        Js.orElse (lookup questionId (selectedAnswers s)) None with
  | Some question, Some selected =>
      let correct := String.eqb selected (Panel.correct_answer question) in
      ({| currentPage := currentPage s;
          questionStates :=
            assign questionId
              {| answered := true; selectedAnswer := Some selected;
                 isCorrect := correct; showExplanation := true |}
              (questionStates s);
          selectedAnswers := selectedAnswers s |},
       Some (if correct then CorrectToast else IncorrectToast))
  | _, _ => (s, None)
  end.

Definition quizNext (questions : list Panel.QuizQuestion) (s : QuizState)
  : QuizState :=
  if (Z.of_nat (currentPage s) <? Z.of_nat (totalPages questions) - 1)%Z
  then {| currentPage := currentPage s + 1;
          questionStates := questionStates s;
          selectedAnswers := selectedAnswers s |}
  else s.

Definition quizPrev (s : QuizState) : QuizState :=
  if (0 <? currentPage s)%nat
  then {| currentPage := currentPage s - 1;
          questionStates := questionStates s;
          selectedAnswers := selectedAnswers s |}
  else s.

Definition quizStep (questions : list Panel.QuizQuestion) (s : QuizState)
    (e : QuizEvent) : QuizState :=
  match e with
  | AnswerSelect q a => handleAnswerSelect q a s
  | SubmitQuestion q => fst (handleSubmitQuestion questions q s)
  | QuizNext => quizNext questions s
  | QuizPrev => quizPrev s
  end.

Definition quizAll (questions : list Panel.QuizQuestion) (s : QuizState)
    (es : list QuizEvent) : QuizState :=
  fold_left (quizStep questions) es s.

Definition getAnsweredCount (s : QuizState) : nat :=
  length (keys (questionStates s)).

End Overlays.

(** ** What stays of a message *)

Module Turns.

(** What a message keeps for good: everything but the content of its tool
    reference. *)
Definition sameTurn (old new : Panel.Message) : Prop :=
  Panel.msg_id new = Panel.msg_id old
  /\ Panel.msg_content new = Panel.msg_content old
  /\ Panel.sender new = Panel.sender old
  /\ Panel.timestamp new = Panel.timestamp old
  /\ Panel.model new = Panel.model old
  /\ Panel.toolUsed new = Panel.toolUsed old
  /\ Panel.highlightedText new = Panel.highlightedText old
  /\ option_map Panel.tool_type (Panel.toolResponse new) = option_map Panel.tool_type (Panel.toolResponse old)
  /\ option_map Panel.toolResponseId (Panel.toolResponse new)
     = option_map Panel.toolResponseId (Panel.toolResponse old).

End Turns.

(** ** What holds of every state of the panel *)

Module Invariants.



End Invariants.

(** ** The order of the table of contents *)

Module Order.

(** No section of the chapter is on page [p]. *)
Definition chapterMisses (p : Z) (c : Chapter) : Prop :=
  forall secs sec, sections c = Some secs -> In sec secs -> page sec <> p.

(** Section [sec] of chapter [c] is the first section on page [p], in the
    order of the table of contents: [c] is a chapter of [chs], [sec] one of
    its sections, on page [p]; no section before it in [c] is on page [p],
    and neither is any section of a chapter before [c]. *)
Definition firstOnPage (p : Z) (chs : list Chapter) (c : Chapter)
    (sec : TocSection) : Prop :=
  exists before after pre post,
    chs = (before ++ c :: after)%list
    /\ sections c = Some (pre ++ sec :: post)%list
    /\ page sec = p
    /\ Forall (fun x => page x <> p) pre
    /\ Forall (chapterMisses p) before.

End Order.

(** * Properties *)

(** ** The model at work on the mock data *)

Example trim_drops_outer_white_space :
  Js.trim ("  " ++ Panel.nl ++ "a b " ++ Panel.nl)%string = "a b"%string.
Proof. reflexivity. Qed.

Example toString_negative : Js.toString (-12) = "-12"%string.
Proof. reflexivity. Qed.

Example mock_total_pages : App.totalPages (App.loaded App.mockData) = Js.Fin 151.
Proof. reflexivity. Qed.

Example mock_wide_layout :
  App.render (App.loaded App.mockData)
  = App.SideBySide [App.ContentsPane (Some 240%Z) false; App.DocumentPane;
                    App.ResizeHandle; App.ToolPane false].
Proof. reflexivity. Qed.

Example mock_hidden_document :
  App.render (fst (App.handleTogglePDF (App.loaded App.mockData)))
  = App.SideBySide [App.ToolPane true].
Proof. reflexivity. Qed.

Example mock_chapters_are_expandable :
  map Contents.hasExpandableSections (chapters App.mockToc) = [true; true].
Proof. reflexivity. Qed.

Example mock_section_click :
  Wiring.currentContext
    (fst (Contents.deliver (App.loaded App.mockData)
            (Contents.handleSectionClick
               {| chapter_id := "c"; chapter_number := "1"; title := "t";
                  sections := None |}
               {| section_id := "s"; section_title := "6 Heapsort"; page := 151 |})))
  = Some {| Panel.chapterName := "Chapter 2: Sorting and Order Statistics";
            Panel.sectionName := "6 Heapsort";
            Panel.chapterId := Some "0ada99be-dfc6-4efa-acca-c91d67458e4e"%string;
            Panel.sectionId := Some "d945fa7c-2d8d-4302-811c-05a7ab9646dc"%string |}.
Proof. reflexivity. Qed.

Example tool_message_for_quiz :
  option_map (fun p => option_map Panel.r_tool_type (Panel.outcome p))
    (snd (fst (Panel.handleToolUse
                 {| Panel.chatSessionId := "session"; Panel.currentPage := 5;
                    Panel.tocData := None |}
                 3 {| Panel.tool_id := "quiz"; Panel.tool_name := "Quiz";
                      Panel.tool_description := "Create quiz questions" |}
                 Panel.initial)))
  = Some (Some (Some "quiz"%string)).
Proof. reflexivity. Qed.

Example narrow_window_collapses_contents :
  let s := App.checkMobile 800 (App.loaded App.mockData) in
  App.isMobile s = true /\ App.isTOCCollapsed s = true
  /\ App.render s
     = App.Stacked [App.ContentsPane None true; App.DocumentPane; App.ToolPane false].
Proof. repeat split. Qed.

(** ** Navigation *)

Section Navigation.

Import App.
Local Open Scope Z_scope.

Lemma handlePageChange_page (s : State) (p : Z) (sid cid : option string) :
  currentPage (fst (handlePageChange s p sid cid)) = p.
Proof. reflexivity. Qed.

Lemma navigateAll_app (xs ys : list Call) :
  forall s, navigateAll s (xs ++ ys) = navigateAll (navigateAll s xs) ys.
Proof.
  induction xs as [| [[p sid] cid] xs IH]; intros s; simpl.
  - reflexivity.
  - apply IH.
Qed.

Lemma navigateAll_last (s : State) (calls : list Call) (c : Call) :
  currentPage (navigateAll s (calls ++ [c])) = pageOf c.
Proof.
  rewrite navigateAll_app. destruct c as [[p sid] cid]. reflexivity.
Qed.

Lemma clampPage_in_range (p tp : Z) :
  1 <= p <= tp -> Spec.clampPage p tp = p.
Proof.
  intros [Hlo Hhi]. unfold Spec.clampPage.
  destruct (Z.ltb_spec p 1); [lia |].
  destruct (Z.ltb_spec tp p); [lia | reflexivity].
Qed.

(** The page input of the viewer only hands over pages within range. *)
Lemma page_input_in_range (parsed : option Z) (tp p : Z) :
  Viewer.handlePageInputSubmit parsed (Js.Fin tp) = Some p -> 1 <= p <= tp.
Proof.
  unfold Viewer.handlePageInputSubmit. destruct parsed as [q |]; [| discriminate].
  simpl. destruct (Z.leb_spec 1 q); simpl; [| discriminate].
  destruct (Z.leb_spec q tp); [| discriminate].
  intros E. injection E as <-. lia.
Qed.

End Navigation.

(** C1 (as amended).  A call of [handlePageChange] is never rejected: it
    acknowledges the navigation and leaves the page equal to the page it
    was called with, whatever came before; no clamping is applied.  For a
    page within [[1, totalPages]] this is the clamped page, so after any
    sequence of calls the page is the last call's page. *)
Theorem navigation_page_is_last_requested
    (s : App.State) (calls : list App.Call)
    (p : Z) (sid cid : option string) (tp : Z) :
  let before := App.navigateAll s calls in
  let after := App.navigateAll s (calls ++ [(p, sid, cid)]) in
  after = fst (App.handlePageChange before p sid cid)
  /\ App.currentPage after = p
  /\ In (App.ToastSuccess ("Navigated to page " ++ Js.toString p))
        (snd (App.handlePageChange before p sid cid))
  /\ ((1 <= p <= tp)%Z -> App.currentPage after = Spec.clampPage p tp).
Proof.
  cbv zeta. rewrite navigateAll_app. simpl. repeat split.
  - apply in_or_app. right. left. reflexivity.
  - intros Hrange. symmetry. now apply clampPage_in_range.
Qed.

Lemma navigation_page_is_last_requested_witness :
  (1 <= 11 <= 151)%Z
  /\ App.currentPage
       (App.navigateAll (App.loaded App.mockData)
          ([(5%Z, None, None); (16%Z, None, None)] ++ [(11%Z, None, None)]))
     = Spec.clampPage 11 151.
Proof.
  split; [lia |].
  apply (navigation_page_is_last_requested (App.loaded App.mockData)
           [(5%Z, None, None); (16%Z, None, None)] 11 None None 151).
  lia.
Defined.

(** C1 (as stated) fails: with the mock table of contents the last page is
    151; a call with page 500 leaves the page at 500, not at 151, and a call
    with page 0 leaves it at 0, not at 1. *)
Lemma navigation_does_not_clamp :
  App.totalPages (App.loaded App.mockData) = Js.Fin 151
  /\ App.currentPage
       (fst (App.handlePageChange (App.loaded App.mockData) 500 None None)) = 500%Z
  /\ Spec.clampPage 500 151 = 151%Z
  /\ App.currentPage
       (fst (App.handlePageChange (App.loaded App.mockData) 500 None None))
     <> Spec.clampPage 500 151
  /\ App.currentPage
       (fst (App.handlePageChange (App.loaded App.mockData) 0 None None))
     <> Spec.clampPage 0 151.
Proof.
  repeat split; vm_compute; discriminate.
Qed.

(** ** Layout *)

Section Layout.

Import App.

Lemma Math_max_nil : Js.Math_max [] = Js.NegInfinity.
Proof. reflexivity. Qed.

Lemma Math_max_cons (x : Z) (xs : list Z) :
  Js.Math_max (x :: xs) = Js.num_max (Js.Fin x) (Js.Math_max xs).
Proof. reflexivity. Qed.

Lemma Math_max_neg_infinity (xs : list Z) :
  Js.Math_max xs = Js.NegInfinity <-> xs = [].
Proof.
  split.
  - destruct xs as [| x xs]; [reflexivity |].
    rewrite Math_max_cons. destruct (Js.Math_max xs); discriminate.
  - intros ->. reflexivity.
Qed.

(** [Math.max] gives an element of the list that bounds the others. *)
Lemma Math_max_greatest (xs : list Z) (m : Z) :
  Js.Math_max xs = Js.Fin m <-> In m xs /\ Forall (fun x => (x <= m)%Z) xs.
Proof.
  revert m. induction xs as [| x xs IH]; intros m.
  - simpl. split; [discriminate | intros [[] _]].
  - rewrite Math_max_cons. destruct (Js.Math_max xs) as [| k] eqn:E.
    + apply Math_max_neg_infinity in E. subst xs. simpl. split.
      * intros [= <-]. split; [now left |]. constructor; [lia | constructor].
      * intros [[-> | []] _]. reflexivity.
    + simpl. destruct (IH k) as [IH1 _]. destruct (IH1 eq_refl) as [Hin Hall].
      split.
      * intros [= <-]. split.
        -- destruct (Z.max_spec x k) as [[_ ->] | [_ ->]]; [now right | now left].
        -- constructor; [lia |].
           eapply Forall_impl; [| exact Hall]. simpl. intros; lia.
      * intros [Hm Hle]. f_equal. inversion Hle as [| ? ? Hx Hxs]; subst.
        destruct Hm as [-> | Hm].
        -- rewrite Forall_forall in Hxs. specialize (Hxs k Hin). lia.
        -- rewrite Forall_forall in Hall. specialize (Hall m Hm).
           rewrite Forall_forall in Hxs. specialize (Hxs k Hin). lia.
Qed.

Lemma hasTOC_true (s : State) :
  hasTOC s = true <-> exists t, tocOf s = Some t /\ chapters t <> [].
Proof.
  unfold hasTOC. destruct (tocOf s) as [t |].
  - destruct (chapters t) as [| c cs] eqn:E; simpl; split.
    + discriminate.
    + intros (t' & [= <-] & H). congruence.
    + intros _. exists t. split; [reflexivity | congruence].
    + reflexivity.
  - split; [discriminate | intros (t & H & _); discriminate].
Qed.

Lemma contents_pane_needs_hasTOC (s : State) :
  hasTOC s = false -> contentsRendered s = false.
Proof.
  intros H. unfold contentsRendered, render.
  destruct (studyData s); [| reflexivity].
  destruct (isLoading s); [reflexivity |].
  rewrite H.
  destruct (isMobile s), (isPDFHidden s),
    (Reader.renderThrows (currentPage s)); reflexivity.
Qed.

End Layout.

(** C4 (as amended).  The width of the contents pane is 0 whenever there is
    no table of contents, or the table of contents has no chapter, or the
    document is hidden, for every value of the collapsed flag; otherwise it
    is 48 when the pane is collapsed and 240 when it is not. *)
Theorem contents_width_rule (s : App.State) :
  ((App.tocOf s = None
    \/ (exists t, App.tocOf s = Some t /\ chapters t = [])
    \/ App.isPDFHidden s = true) -> App.tocWidth s = 0%Z)
  /\ (forall t, App.tocOf s = Some t -> chapters t <> [] ->
        App.isPDFHidden s = false ->
        App.tocWidth s = if App.isTOCCollapsed s then 48%Z else 240%Z).
Proof.
  unfold App.tocWidth. split.
  - intros [H | [(t & H & E) | H]].
    + unfold App.hasTOC. rewrite H. reflexivity.
    + unfold App.hasTOC. rewrite H, E. reflexivity.
    + rewrite H. now rewrite orb_true_r.
  - intros t H E Hvis.
    assert (App.hasTOC s = true) as -> by (apply hasTOC_true; eauto).
    rewrite Hvis. reflexivity.
Qed.

Lemma contents_width_rule_witness :
  App.tocWidth (App.set_isPDFHidden true (App.loaded App.mockData)) = 0%Z
  /\ App.tocWidth (App.loaded App.mockData) = 240%Z
  /\ App.tocWidth (App.set_isTOCCollapsed true (App.loaded App.mockData)) = 48%Z.
Proof.
  split; [| split].
  - apply (proj1 (contents_width_rule
                    (App.set_isPDFHidden true (App.loaded App.mockData)))).
    right. right. reflexivity.
  - apply (proj2 (contents_width_rule (App.loaded App.mockData)) App.mockToc).
    + reflexivity.
    + discriminate.
    + reflexivity.
  - apply (proj2 (contents_width_rule
                    (App.set_isTOCCollapsed true (App.loaded App.mockData)))
             App.mockToc).
    + reflexivity.
    + discriminate.
    + reflexivity.
Defined.

(** C4 (as stated) fails: a table of contents that is present but has no
    chapter, with the document visible and the pane not collapsed, gives
    width 0, not 240. *)
Lemma contents_width_zero_for_empty_toc :
  let s := App.loaded (App.withToc Spec.emptyToc App.mockData) in
  App.tocOf s = Some Spec.emptyToc
  /\ App.isPDFHidden s = false
  /\ App.isTOCCollapsed s = false
  /\ App.tocWidth s = 0%Z
  /\ App.tocWidth s <> 240%Z.
Proof.
  cbv zeta. repeat split. vm_compute. discriminate.
Qed.

(** C5.  When the study data carries no table of contents, the contents
    pane is not among the panes rendered, in the narrow and in the wide
    layout, and [totalPages] is 100, whatever the rest of the state is. *)
Theorem no_toc_no_contents_pane (s : App.State) :
  App.tocOf s = None ->
  App.totalPages s = Js.Fin 100
  /\ App.contentsRendered s = false
  /\ App.tocWidth s = 0%Z.
Proof.
  intros H. repeat split.
  - unfold App.totalPages. now rewrite H.
  - apply contents_pane_needs_hasTOC. unfold App.hasTOC. now rewrite H.
  - unfold App.tocWidth, App.hasTOC. now rewrite H.
Qed.

Lemma no_toc_no_contents_pane_witness :
  App.totalPages (App.loaded (App.withoutToc App.mockData)) = Js.Fin 100
  /\ App.contentsRendered (App.loaded (App.withoutToc App.mockData)) = false
  /\ App.tocWidth (App.loaded (App.withoutToc App.mockData)) = 0%Z.
Proof.
  apply (no_toc_no_contents_pane (App.loaded (App.withoutToc App.mockData))).
  reflexivity.
Defined.

(** C10.  With a table of contents present, [totalPages] is [Math.max] of
    the section pages of all chapters, a chapter whose [sections] is [null]
    counting as the single page 1: the greatest of these pages when there
    is one, and [-Infinity] when there is none, as for an empty chapter
    list.  The fallback 100 is taken when the table of contents is absent;
    a present, empty one does not give 100. *)
Theorem totalPages_is_max_section_page (s : App.State) (t : TOC) :
  App.tocOf s = Some t ->
  let pages := flat_map App.chapterPages (chapters t) in
  App.totalPages s = Js.Math_max pages
  /\ (forall c, sections c = None -> App.chapterPages c = [1%Z])
  /\ (forall c secs, sections c = Some secs -> App.chapterPages c = map page secs)
  /\ (forall m, App.totalPages s = Js.Fin m
                <-> In m pages /\ Forall (fun x => (x <= m)%Z) pages)
  /\ (App.totalPages s = Js.NegInfinity <-> pages = [])
  /\ (chapters t = [] ->
      App.totalPages s = Js.NegInfinity /\ App.totalPages s <> Js.Fin 100).
Proof.
  intros H pages.
  assert (E : App.totalPages s = Js.Math_max pages).
  { unfold App.totalPages. now rewrite H. }
  split; [exact E |]. split; [| split; [| split; [| split]]].
  - intros c Hc. unfold App.chapterPages. now rewrite Hc.
  - intros c secs Hc. unfold App.chapterPages. now rewrite Hc.
  - intros m. rewrite E. apply Math_max_greatest.
  - rewrite E. apply Math_max_neg_infinity.
  - intros Hnil. rewrite E. subst pages. rewrite Hnil. simpl.
    split; [reflexivity | discriminate].
Qed.

Lemma totalPages_is_max_section_page_witness :
  App.totalPages (App.loaded App.mockData) = Js.Fin 151
  /\ App.totalPages (App.loaded (App.withToc Spec.emptyToc App.mockData))
     = Js.NegInfinity
  /\ App.totalPages (App.loaded (App.withoutToc App.mockData)) = Js.Fin 100.
Proof.
  split; [| split].
  - apply (proj1 (proj2 (proj2 (proj2
             (totalPages_is_max_section_page (App.loaded App.mockData)
                (t := App.mockToc) eq_refl)))) 151%Z).
    split.
    + vm_compute. do 3 right. left. reflexivity.
    + vm_compute. repeat (constructor; try discriminate).
  - apply (proj2 (proj2 (proj2 (proj2 (proj2
             (totalPages_is_max_section_page
                (App.loaded (App.withToc Spec.emptyToc App.mockData))
                (t := Spec.emptyToc) eq_refl)))))).
    reflexivity.
  - reflexivity.
Defined.

(** ** Drag-resize of the tool panel *)

Section Resize.

Import App.
Local Open Scope Q_scope.

Lemma handleMouseMove_dragging (s : State) (r : Rect) (x : Q) :
  isResizing s = true -> isMobile s = false ->
  rightPanelWidth (handleMouseMove (Some r) x s)
  = Qmax 280 (Qmin (maxWidthOf (isPDFHidden s) (width r))
                   (width r - (x - left r) - 4)).
Proof.
  intros Hr Hm. unfold handleMouseMove. rewrite Hr, Hm. reflexivity.
Qed.

(** With the bounds in order, the code's [max]/[min] nest is the clamp. *)
Lemma max_min_is_clamp (x lo hi : Q) :
  lo <= hi -> Qmax lo (Qmin hi x) == Spec.clamp x lo hi.
Proof.
  intros Hb. unfold Spec.clamp.
  destruct (Qlt_le_dec x lo) as [Hlo | Hlo].
  - apply Q.max_l. rewrite Q.min_r by lra. lra.
  - destruct (Qlt_le_dec hi x) as [Hhi | Hhi].
    + rewrite Q.min_l by lra. apply Q.max_r. exact Hb.
    + rewrite Q.min_r by exact Hhi. apply Q.max_r. exact Hlo.
Qed.

Lemma max_min_upper (x lo hi : Q) : lo <= hi -> Qmax lo (Qmin hi x) <= hi.
Proof.
  intros Hb. apply Q.max_lub; [exact Hb | apply Q.le_min_l].
Qed.

Lemma max_min_crossed (x lo hi : Q) : hi < lo -> Qmax lo (Qmin hi x) == lo.
Proof.
  intros Hb. apply Q.max_l.
  apply Qle_trans with hi; [apply Q.le_min_l | lra].
Qed.

End Resize.

(** C3 (as amended).  While dragging (resizing, wide layout, container
    mounted), a pointer move sets the tool-panel width to
    [max(280, min(maxWidth, containerWidth - pointerX - 4))], where
    [maxWidth] is 60% of the container width with the document visible and
    [containerWidth - 100] with it hidden.  The width is never below 280.
    When [maxWidth] is at least 280 this is
    [clamp(containerWidth - pointerX - 4, 280, maxWidth)] and never exceeds
    [maxWidth]; when [maxWidth] is below 280 the width is 280. *)
Theorem drag_resize_width (s : App.State) (r : App.Rect) (clientX : Q) :
  App.isResizing s = true -> App.isMobile s = false ->
  let containerWidth := App.width r in
  let pointerX := clientX - App.left r in
  let maxWidth := App.maxWidthOf (App.isPDFHidden s) containerWidth in
  let w := App.rightPanelWidth (App.handleMouseMove (Some r) clientX s) in
  (App.isPDFHidden s = false -> maxWidth == (60 # 100) * containerWidth)
  /\ (App.isPDFHidden s = true -> maxWidth == containerWidth - 100)
  /\ w == Qmax 280 (Qmin maxWidth (containerWidth - pointerX - 4))
  /\ 280 <= w
  /\ (280 <= maxWidth ->
      w == Spec.clamp (containerWidth - pointerX - 4) 280 maxWidth
      /\ w <= maxWidth)
  /\ (maxWidth < 280 -> w == 280).
Proof.
  intros Hr Hm containerWidth pointerX maxWidth w.
  assert (E : w = Qmax 280 (Qmin maxWidth (containerWidth - pointerX - 4))).
  { subst w. now rewrite handleMouseMove_dragging. }
  split; [| split; [| split; [| split; [| split]]]].
  - intros H. subst maxWidth. rewrite H. unfold App.maxWidthOf. lra.
  - intros H. subst maxWidth. rewrite H. unfold App.maxWidthOf. lra.
  - rewrite E. reflexivity.
  - rewrite E. apply Q.le_max_l.
  - intros Hb. rewrite E. split.
    + now apply max_min_is_clamp.
    + now apply max_min_upper.
  - intros Hb. rewrite E. now apply max_min_crossed.
Qed.

Lemma drag_resize_width_witness :
  let s := App.handleMouseDown (App.loaded App.mockData) in
  let r := {| App.left := 0; App.width := 1200 |} in
  App.rightPanelWidth (App.handleMouseMove (Some r) 100 s) <= 720.
Proof.
  cbv zeta.
  pose proof (drag_resize_width (App.handleMouseDown (App.loaded App.mockData))
                {| App.left := 0; App.width := 1200 |} 100
                eq_refl eq_refl) as H.
  cbv zeta in H.
  destruct H as (_ & _ & _ & _ & H & _).
  assert (Hb : 280 <= App.maxWidthOf
                        (App.isPDFHidden (App.handleMouseDown (App.loaded App.mockData)))
                        (App.width {| App.left := 0; App.width := 1200 |})).
  { vm_compute. discriminate. }
  destruct (H Hb) as [_ Hle].
  apply Qle_trans with (1 := Hle). vm_compute. discriminate.
Defined.

(** C3 (as stated) fails: in a container 400 wide with the document
    visible, [maxWidth] is 240 and every pointer position gives width 280,
    which exceeds it. *)
Lemma drag_resize_exceeds_small_max :
  let s := App.handleMouseDown (App.loaded App.mockData) in
  let r := {| App.left := 0; App.width := 400 |} in
  App.maxWidthOf (App.isPDFHidden s) (App.width r) == 240
  /\ App.rightPanelWidth (App.handleMouseMove (Some r) 0 s) == 280
  /\ ~ (App.rightPanelWidth (App.handleMouseMove (Some r) 0 s)
        <= App.maxWidthOf (App.isPDFHidden s) (App.width r)).
Proof.
  cbv zeta. split; [| split].
  - vm_compute. reflexivity.
  - vm_compute. reflexivity.
  - vm_compute. intros H. apply H. reflexivity.
Qed.

(** ** The contents navigator *)

Section Navigator.

Import Contents.

Lemma directlyClickable_not_expandable (c : Chapter) :
  Spec.directlyClickable c = negb (hasExpandableSections c).
Proof.
  unfold Spec.directlyClickable, hasExpandableSections, shouldShowSections.
  destruct (sections c) as [[| s0 [| s1 rest]] |]; simpl; try reflexivity.
  now rewrite negb_involutive.
Qed.

Lemma deliver_one (s : App.State) (r : NavRequest) :
  App.currentPage (fst (deliver s [r])) = nav_page r.
Proof. reflexivity. Qed.

End Navigator.

(** C6 (as amended).  A directly clickable chapter entry (no sections, or
    exactly one section whose title equals the chapter's title) is rendered
    without an expand arrow and without section rows, and its header takes
    clicks.  Clicking one that has a section, on a non-zero page, emits one
    navigation to that section's page carrying that section's id and the
    chapter's id, which the root turns into its current page; clicking one
    that has no section emits nothing. *)
Theorem clickable_chapter_entry (c : Chapter) (currentPage : Z) :
  Spec.directlyClickable c = true ->
  let item := Contents.TOCItemComponent c currentPage in
  Contents.expandArrow (Contents.header item) = false
  /\ Contents.clickable (Contents.header item) = true
  /\ Contents.rows item = None
  /\ (forall s0 rest, sections c = Some (s0 :: rest) -> page s0 <> 0%Z ->
        Contents.clickHeader c
        = [{| Contents.nav_page := page s0;
              Contents.nav_sectionId := Some (section_id s0);
              Contents.nav_chapterId := Some (chapter_id c) |}]
        /\ forall s, App.currentPage (fst (Contents.deliver s (Contents.clickHeader c)))
                     = page s0)
  /\ ((sections c = None \/ sections c = Some []) -> Contents.clickHeader c = []).
Proof.
  intros H. rewrite directlyClickable_not_expandable in H.
  apply negb_true_iff in H. cbv zeta.
  unfold Contents.TOCItemComponent, Contents.clickHeader. simpl. rewrite H. simpl.
  split; [reflexivity |]. split; [reflexivity |]. split; [reflexivity |]. split.
  - intros s0 rest Hsec Hpage.
    unfold Contents.handleChapterClick, Contents.chapterPage,
      Contents.firstSectionId. rewrite Hsec. simpl.
    destruct (Z.eqb_spec (page s0) 0); [contradiction |]. simpl.
    split; [reflexivity | intros s; reflexivity].
  - unfold Contents.handleChapterClick, Contents.chapterPage.
    intros [-> | ->]; reflexivity.
Qed.

Lemma clickable_chapter_entry_witness :
  let c := {| chapter_id := "Ch2-id"; chapter_number := "2"; title := "Preface";
              sections := Some [ {| section_id := "2.0-id";
                                    section_title := "Preface"; page := 3 |} ] |} in
  Contents.expandArrow (Contents.header (Contents.TOCItemComponent c 1)) = false
  /\ Contents.clickHeader c
     = [{| Contents.nav_page := 3;
           Contents.nav_sectionId := Some "2.0-id"%string;
           Contents.nav_chapterId := Some "Ch2-id"%string |}].
Proof.
  cbv zeta.
  pose proof (clickable_chapter_entry
                {| chapter_id := "Ch2-id"; chapter_number := "2"; title := "Preface";
                   sections := Some [ {| section_id := "2.0-id";
                                         section_title := "Preface"; page := 3 |} ] |}
                1 eq_refl) as H.
  cbv zeta in H. destruct H as (Harrow & _ & _ & Hclick & _).
  split; [exact Harrow |].
  apply (Hclick _ _ eq_refl). discriminate.
Defined.

(** C6 (as stated) fails: a chapter without sections is directly
    clickable and shows no expand arrow, but a click on it emits no
    navigation. *)
Lemma click_on_bare_chapter_emits_nothing :
  Spec.directlyClickable Spec.bareChapter = true
  /\ Contents.expandArrow
       (Contents.header (Contents.TOCItemComponent Spec.bareChapter 1)) = false
  /\ Contents.clickHeader Spec.bareChapter = []
  /\ ~ (exists r, In r (Contents.clickHeader Spec.bareChapter)).
Proof.
  repeat split. intros [r []].
Qed.

(** ** The current section *)

Section CurrentSection.

Import Panel.

Lemma scanSections_some (p : Z) (secs : list TocSection) (sec : TocSection) :
  scanSections p secs = Some sec -> In sec secs /\ page sec = p.
Proof.
  induction secs as [| x secs IH]; simpl; [discriminate |].
  destruct (Z.eqb_spec (page x) p) as [E | E].
  - intros [= <-]. split; [now left | exact E].
  - intros H. destruct (IH H) as [Hin Hp]. split; [now right | exact Hp].
Qed.

Lemma scanSections_none (p : Z) (secs : list TocSection) :
  scanSections p secs = None <-> (forall sec, In sec secs -> page sec <> p).
Proof.
  induction secs as [| x secs IH]; simpl.
  - split; [intros _ sec [] | reflexivity].
  - destruct (Z.eqb_spec (page x) p) as [E | E].
    + split; [discriminate |]. intros H. exfalso. apply (H x); [now left | exact E].
    + rewrite IH. split.
      * intros H sec [<- | Hin]; [exact E | now apply H].
      * intros H sec Hin. apply H. now right.
Qed.

Lemma scanChapters_some (p : Z) (chs : list Chapter) (c : Chapter) (sec : TocSection) :
  scanChapters p chs = Some (c, sec) ->
  In c chs /\ exists secs, sections c = Some secs /\ In sec secs /\ page sec = p.
Proof.
  induction chs as [| x chs IH]; simpl; [discriminate |].
  destruct (sections x) as [secs |] eqn:Ex.
  - destruct (scanSections p secs) as [found |] eqn:Ef.
    + intros [= <- <-]. apply scanSections_some in Ef.
      split; [now left |]. exists secs. tauto.
    + intros H. destruct (IH H) as [Hin Hrest]. split; [now right | exact Hrest].
  - intros H. destruct (IH H) as [Hin Hrest]. split; [now right | exact Hrest].
Qed.

Lemma scanChapters_none (p : Z) (chs : list Chapter) :
  scanChapters p chs = None <->
  (forall c secs sec, In c chs -> sections c = Some secs -> In sec secs ->
                      page sec <> p).
Proof.
  induction chs as [| x chs IH]; simpl.
  - split; [intros _ c secs sec [] | reflexivity].
  - destruct (sections x) as [secs |] eqn:Ex.
    + destruct (scanSections p secs) as [found |] eqn:Ef.
      * split; [discriminate |]. intros H. exfalso.
        apply scanSections_some in Ef. destruct Ef as [Hin Hp].
        apply (H x secs found); auto.
      * rewrite IH. rewrite scanSections_none in Ef. split.
        -- intros H c secs' sec [<- | Hin] Hs Hsec.
           ++ rewrite Ex in Hs. injection Hs as <-. now apply Ef.
           ++ now apply (H c secs' sec).
        -- intros H c secs' sec Hin. apply H. now right.
    + rewrite IH. split.
      * intros H c secs sec [<- | Hin] Hs Hsec; [congruence |].
        now apply (H c secs sec).
      * intros H c secs sec Hin. apply H. now right.
Qed.

Lemma scanSections_first (p : Z) (secs : list TocSection) (sec : TocSection) :
  scanSections p secs = Some sec <->
  exists pre post,
    secs = pre ++ sec :: post /\ page sec = p
    /\ Forall (fun x => page x <> p) pre.
Proof.
  split.
  - induction secs as [| x secs IH]; simpl; [discriminate |].
    destruct (Z.eqb_spec (page x) p) as [E | E].
    + intros [= <-]. exists [], secs. repeat split; [exact E | constructor].
    + intros H. destruct (IH H) as (pre & post & -> & Hp & Hall).
      exists (x :: pre), post. repeat split; [exact Hp | now constructor].
  - intros (pre & post & -> & Hp & Hall).
    induction Hall as [| x pre Hx Hall IH]; simpl.
    + destruct (Z.eqb_spec (page sec) p); [reflexivity | contradiction].
    + destruct (Z.eqb_spec (page x) p); [contradiction | exact IH].
Qed.

Lemma scanChapters_first (p : Z) (chs : list Chapter) (c : Chapter)
    (sec : TocSection) :
  scanChapters p chs = Some (c, sec) <-> Order.firstOnPage p chs c sec.
Proof.
  unfold Order.firstOnPage. split.
  - induction chs as [| x chs IH]; simpl; [discriminate |].
    destruct (sections x) as [secs |] eqn:Ex.
    + destruct (scanSections p secs) as [found |] eqn:Ef.
      * intros [= <- <-]. apply scanSections_first in Ef.
        destruct Ef as (pre & post & -> & Hp & Hall).
        exists [], chs, pre, post. repeat split; auto.
      * intros H. destruct (IH H) as (before & after & pre & post & -> & Hs & Hp & Hall & Hb).
        exists (x :: before), after, pre, post. repeat split; auto.
        constructor; [| exact Hb].
        intros secs' sec' Hs' Hin. rewrite Ex in Hs'. injection Hs' as <-.
        rewrite scanSections_none in Ef. now apply Ef.
    + intros H. destruct (IH H) as (before & after & pre & post & -> & Hs & Hp & Hall & Hb).
      exists (x :: before), after, pre, post. repeat split; auto.
      constructor; [| exact Hb]. intros secs' sec' Hs'. congruence.
  - intros (before & after & pre & post & -> & Hs & Hp & Hall & Hb).
    induction Hb as [| x before Hx Hb IH]; simpl.
    + rewrite Hs.
      assert (Hf : scanSections p (pre ++ sec :: post) = Some sec).
      { apply scanSections_first. exists pre, post. repeat split; assumption. }
      now rewrite Hf.
    + destruct (sections x) as [secs |] eqn:Ex; [| exact IH].
      assert (Hn : scanSections p secs = None).
      { apply scanSections_none. intros sec' Hin. now apply (Hx secs sec'). }
      now rewrite Hn.
Qed.

(** What the first section on a page is part of. *)
Lemma firstOnPage_in (p : Z) (chs : list Chapter) (c : Chapter)
    (sec : TocSection) :
  Order.firstOnPage p chs c sec ->
  In c chs /\ exists secs, sections c = Some secs /\ In sec secs /\ page sec = p.
Proof.
  intros (before & after & pre & post & -> & Hs & Hp & _ & _). split.
  - apply in_or_app. right. now left.
  - exists (pre ++ sec :: post). repeat split; [exact Hs | | exact Hp].
    apply in_or_app. right. now left.
Qed.

Lemma getCurrentContext_first (props : Props) (t : TOC) (c : Chapter)
    (sec : TocSection) :
  tocData props = Some t ->
  Order.firstOnPage (currentPage props) (chapters t) c sec ->
  getCurrentContext props
  = {| chapterName := title c; sectionName := section_title sec;
       chapterId := Some (chapter_id c); sectionId := Some (section_id sec) |}.
Proof.
  intros Ht Hfirst. unfold getCurrentContext. rewrite Ht.
  apply scanChapters_first in Hfirst. now rewrite Hfirst.
Qed.

(** Some section on the page means there is a first one. *)
Lemma firstOnPage_exists (p : Z) (chs : list Chapter) (c : Chapter)
    (secs : list TocSection) (sec : TocSection) :
  In c chs -> sections c = Some secs -> In sec secs -> page sec = p ->
  exists c' sec', Order.firstOnPage p chs c' sec'.
Proof.
  intros Hc Hs Hsec Hp.
  destruct (scanChapters p chs) as [[c' sec'] |] eqn:E.
  - exists c', sec'. now apply scanChapters_first.
  - exfalso. rewrite scanChapters_none in E. now apply (E c secs sec).
Qed.

(** The section rows of an entry. *)
Lemma rows_of_expandable (c : Chapter) (secs : list TocSection) (p : Z) :
  sections c = Some secs -> Contents.hasExpandableSections c = true ->
  exists rs,
    Contents.rows (Contents.TOCItemComponent c p) = Some rs
    /\ map Contents.row_section rs = secs
    /\ (forall r, In r rs ->
                  (Contents.row_current r = true <-> p = page (Contents.row_section r))).
Proof.
  intros Hs He. unfold Contents.TOCItemComponent. cbn [Contents.rows].
  rewrite He, Hs. eexists. split; [reflexivity |]. split.
  - rewrite map_map. cbn [Contents.row_section]. apply map_id.
  - intros r Hin. apply in_map_iff in Hin. destruct Hin as (x & <- & _).
    cbn [Contents.row_current Contents.row_section].
    unfold Contents.isCurrentSection. apply Z.eqb_eq.
Qed.

Lemma isCurrentChapter_spec (c : Chapter) (s0 : TocSection)
    (rest : list TocSection) (p : Z) :
  sections c = Some (s0 :: rest) -> page s0 <> 0%Z ->
  (Contents.isCurrentChapter c p = true <-> p = page s0).
Proof.
  intros Hs Hnz. unfold Contents.isCurrentChapter, Contents.chapterPage.
  rewrite Hs. unfold Contents.truthyPage.
  destruct (Z.eqb_spec (page s0) 0); [contradiction |]. simpl.
  apply Z.eqb_eq.
Qed.

Lemma isCurrentChapter_no_section (c : Chapter) (p : Z) :
  Contents.chapterPage c = None -> Contents.isCurrentChapter c p = false.
Proof.
  intros H. unfold Contents.isCurrentChapter. now rewrite H.
Qed.

End CurrentSection.

(** C7, as stated, fails on the chapter mark.  Two chapter entries whose
    page is 5, the current page being 5: the header of the one with a
    single section named like the chapter is marked current, the header of
    Ch1, which has expandable sections, is not.  The mark of a chapter is
    therefore not a function of the equality of pages alone. *)
Lemma chapter_mark_is_not_page_equality :
  let solo := {| chapter_id := "Intro-id"; chapter_number := "0";
                 title := "Intro";
                 sections := Some [ {| section_id := "Intro-1";
                                       section_title := "Intro";
                                       page := 5 |} ] |} in
  let ch1 := {| chapter_id := "Ch1-id"; chapter_number := "1"; title := "Ch1";
                sections := Some [
                  {| section_id := "1.1-id"; section_title := "1.1"; page := 5 |};
                  {| section_id := "1.2-id"; section_title := "1.2"; page := 11 |} ] |} in
  chapters Spec.scenarioToc = [ch1]
  /\ Contents.chapterPage solo = Some 5%Z
  /\ Contents.chapterPage ch1 = Some 5%Z
  /\ Contents.highlighted (Contents.header (Contents.TOCItemComponent solo 5)) = true
  /\ Contents.highlighted (Contents.header (Contents.TOCItemComponent ch1 5)) = false.
Proof.
  cbv zeta. repeat split.
Qed.

(** C7 (as amended).  The current section is determined by exact equality
    between the current page and a section's page, with no tolerance and no
    nearest match.  In the scenario (chapter Ch1 with section 1.1 on page 5
    and 1.2 on page 11), after navigating to page 11 the lookup gives
    section 1.2 of Ch1, and after navigating to page 10, which no section
    is on, it gives no section.  In general the lookup gives the first
    section, in the order of the table of contents, whose page equals the
    current page, together with its chapter, and it gives no section when
    no section's page equals the current page.  The navigator shows the
    sections of a chapter with expandable sections, one row each in their
    order, and marks a row current exactly when its section's page equals
    the current page.  A chapter counts as current exactly when the current
    page equals its page, which is that of its first section and is taken
    to be non-zero; its header is marked exactly when, in addition, the
    chapter is directly clickable.  The header of a chapter with expandable
    sections is never marked, and a chapter without a section is never
    current. *)
Theorem current_section_exact_match :
  let s := App.loaded (App.withToc Spec.scenarioToc App.mockData) in
  let at11 := fst (App.handlePageChange s 11 (Some "1.2-id"%string)
                     (Some "Ch1-id"%string)) in
  let at10 := fst (App.handlePageChange s 10 None None) in
  let contextOf := fun (c : Chapter) (sec : TocSection) =>
    {| Panel.chapterName := title c; Panel.sectionName := section_title sec;
       Panel.chapterId := Some (chapter_id c);
       Panel.sectionId := Some (section_id sec) |} in
  Wiring.currentContext at11
  = Some {| Panel.chapterName := "Ch1"; Panel.sectionName := "1.2";
            Panel.chapterId := Some "Ch1-id"%string;
            Panel.sectionId := Some "1.2-id"%string |}
  /\ Wiring.currentContext at10 = Some Panel.noContext
  /\ (forall props t,
        Panel.tocData props = Some t ->
        (forall c secs sec, In c (chapters t) -> sections c = Some secs ->
                            In sec secs -> page sec <> Panel.currentPage props) ->
        Panel.getCurrentContext props = Panel.noContext)
  /\ (forall props t c sec,
        Panel.tocData props = Some t ->
        Order.firstOnPage (Panel.currentPage props) (chapters t) c sec ->
        Panel.getCurrentContext props = contextOf c sec)
  /\ (forall props t c secs sec,
        Panel.tocData props = Some t -> In c (chapters t) ->
        sections c = Some secs -> In sec secs ->
        page sec = Panel.currentPage props ->
        exists c' sec',
          Order.firstOnPage (Panel.currentPage props) (chapters t) c' sec'
          /\ Panel.getCurrentContext props = contextOf c' sec')
  /\ (forall props sid,
        Panel.sectionId (Panel.getCurrentContext props) = Some sid ->
        exists t c secs sec,
          Panel.tocData props = Some t /\ In c (chapters t)
          /\ sections c = Some secs /\ In sec secs
          /\ page sec = Panel.currentPage props
          /\ section_id sec = sid
          /\ Panel.sectionName (Panel.getCurrentContext props) = section_title sec
          /\ Panel.chapterId (Panel.getCurrentContext props) = Some (chapter_id c)
          /\ Order.firstOnPage (Panel.currentPage props) (chapters t) c sec)
  /\ (forall p sec, Contents.isCurrentSection p sec = true <-> p = page sec)
  /\ (forall c secs p,
        sections c = Some secs -> Contents.hasExpandableSections c = true ->
        exists rs,
          Contents.rows (Contents.TOCItemComponent c p) = Some rs
          /\ map Contents.row_section rs = secs
          /\ (forall r, In r rs ->
                (Contents.row_current r = true
                 <-> p = page (Contents.row_section r))))
  /\ (forall c s0 rest p,
        sections c = Some (s0 :: rest) -> page s0 <> 0%Z ->
        (Contents.isCurrentChapter c p = true <-> p = page s0)
        /\ (Contents.highlighted (Contents.header (Contents.TOCItemComponent c p))
            = true
            <-> p = page s0 /\ Spec.directlyClickable c = true))
  /\ (forall c p,
        Contents.hasExpandableSections c = true ->
        Contents.highlighted (Contents.header (Contents.TOCItemComponent c p))
        = false)
  /\ (forall c p,
        Contents.chapterPage c = None ->
        Contents.isCurrentChapter c p = false
        /\ Contents.highlighted (Contents.header (Contents.TOCItemComponent c p))
           = false).
Proof.
  cbv zeta. split; [reflexivity |]. split; [reflexivity |].
  split; [| split; [| split; [| split; [| split; [| split; [| split; [| split]]]]]]].
  - intros props t Ht Hnone. unfold Panel.getCurrentContext. rewrite Ht.
    apply scanChapters_none in Hnone. now rewrite Hnone.
  - intros props t c sec Ht Hfirst. now apply getCurrentContext_first with (t := t).
  - intros props t c secs sec Ht Hc Hs Hsec Hp.
    destruct (@firstOnPage_exists (Panel.currentPage props) (chapters t) c secs sec
                Hc Hs Hsec Hp) as (c' & sec' & Hfirst).
    exists c', sec'. split; [exact Hfirst |].
    now apply getCurrentContext_first with (t := t).
  - intros props sid. unfold Panel.getCurrentContext.
    destruct (Panel.tocData props) as [t |]; [| discriminate].
    destruct (Panel.scanChapters (Panel.currentPage props) (chapters t))
      as [[c sec] |] eqn:E; [| discriminate].
    simpl. intros [= <-].
    pose proof E as Hfirst. apply scanChapters_first in Hfirst.
    apply scanChapters_some in E. destruct E as (Hc & secs & Hs & Hin & Hp).
    exists t, c, secs, sec. repeat split; assumption.
  - intros p sec. unfold Contents.isCurrentSection. apply Z.eqb_eq.
  - intros c secs p Hs He. now apply rows_of_expandable.
  - intros c s0 rest p Hs Hnz.
    pose proof (@isCurrentChapter_spec c s0 rest p Hs Hnz) as Hcur.
    split; [exact Hcur |].
    unfold Contents.TOCItemComponent. cbn [Contents.header Contents.highlighted].
    rewrite directlyClickable_not_expandable. rewrite andb_true_iff.
    now rewrite Hcur.
  - intros c p He. unfold Contents.TOCItemComponent.
    cbn [Contents.header Contents.highlighted]. rewrite He. apply andb_false_r.
  - intros c p Hn. pose proof (@isCurrentChapter_no_section c p Hn) as Hcur.
    split; [exact Hcur |].
    unfold Contents.TOCItemComponent. cbn [Contents.header Contents.highlighted].
    now rewrite Hcur.
Qed.

Lemma current_section_exact_match_witness :
  let intro := {| chapter_id := "Intro-id"; chapter_number := "0";
                  title := "Intro";
                  sections := Some [ {| section_id := "Intro-1";
                                        section_title := "Intro";
                                        page := 2 |} ] |} in
  let ch2 := {| chapter_id := "Ch2-id"; chapter_number := "2"; title := "Ch2";
                sections := Some [
                  {| section_id := "2.1-id"; section_title := "2.1"; page := 20 |};
                  {| section_id := "2.2-id"; section_title := "2.2"; page := 20 |} ] |} in
  let toc2 := {| book_id := "book";
                 chapters := (intro :: chapters Spec.scenarioToc ++ [ch2])%list |} in
  Panel.getCurrentContext
    {| Panel.chatSessionId := "session"; Panel.currentPage := 20;
       Panel.tocData := Some toc2 |}
  = {| Panel.chapterName := "Ch2"; Panel.sectionName := "2.1";
       Panel.chapterId := Some "Ch2-id"%string;
       Panel.sectionId := Some "2.1-id"%string |}
  /\ Panel.getCurrentContext
       {| Panel.chatSessionId := "session"; Panel.currentPage := 6;
          Panel.tocData := Some Spec.scenarioToc |}
     = Panel.noContext
  /\ (Contents.highlighted (Contents.header (Contents.TOCItemComponent intro 2))
      = true).
Proof.
  cbv zeta. split; [| split].
  - apply (proj1 (proj2 (proj2 (proj2 current_section_exact_match)))
             {| Panel.chatSessionId := "session"; Panel.currentPage := 20;
                Panel.tocData :=
                  Some {| book_id := "book";
                          chapters :=
                            ({| chapter_id := "Intro-id"; chapter_number := "0";
                                title := "Intro";
                                sections := Some [ {| section_id := "Intro-1";
                                                      section_title := "Intro";
                                                      page := 2 |} ] |}
                             :: chapters Spec.scenarioToc
                             ++ [ {| chapter_id := "Ch2-id"; chapter_number := "2";
                                     title := "Ch2";
                                     sections := Some [
                                       {| section_id := "2.1-id";
                                          section_title := "2.1"; page := 20 |};
                                       {| section_id := "2.2-id";
                                          section_title := "2.2"; page := 20 |} ] |} ])%list |} |}
             _
             {| chapter_id := "Ch2-id"; chapter_number := "2"; title := "Ch2";
                sections := Some [
                  {| section_id := "2.1-id"; section_title := "2.1"; page := 20 |};
                  {| section_id := "2.2-id"; section_title := "2.2"; page := 20 |} ] |}
             {| section_id := "2.1-id"; section_title := "2.1"; page := 20 |}
             eq_refl).
    exists ({| chapter_id := "Intro-id"; chapter_number := "0"; title := "Intro";
               sections := Some [ {| section_id := "Intro-1";
                                     section_title := "Intro"; page := 2 |} ] |}
            :: chapters Spec.scenarioToc), [], [],
           [ {| section_id := "2.2-id"; section_title := "2.2"; page := 20 |} ].
    split; [reflexivity |]. split; [reflexivity |]. split; [reflexivity |].
    split; [constructor |].
    constructor; [| constructor; [| constructor]].
    + intros secs sec [= <-] [<- | []]. discriminate.
    + intros secs sec [= <-] [<- | [<- | []]]; discriminate.
  - apply (proj1 (proj2 (proj2 current_section_exact_match))
             {| Panel.chatSessionId := "session"; Panel.currentPage := 6;
                Panel.tocData := Some Spec.scenarioToc |}
             Spec.scenarioToc eq_refl).
    intros c secs sec Hc Hs Hsec.
    destruct Hc as [<- | []]. injection Hs as <-.
    destruct Hsec as [<- | [<- | []]]; discriminate.
  - apply (proj2 (proj1 (proj2 (proj2 (proj2 (proj2 (proj2 (proj2 (proj2
             (proj2 current_section_exact_match))))))))
             {| chapter_id := "Intro-id"; chapter_number := "0"; title := "Intro";
                sections := Some [ {| section_id := "Intro-1";
                                      section_title := "Intro"; page := 2 |} ] |}
             {| section_id := "Intro-1"; section_title := "Intro"; page := 2 |}
             [] 2%Z eq_refl ltac:(discriminate))).
    split; reflexivity.
Defined.

(** ** Sending a message *)

Section Sending.

Import Panel.

Lemma handleSendMessage_suppressed
    (props : Props) (now : Z) (mc : option string) (ag : bool)
    (ov : option Highlight) (s : State) :
  Js.truthy (Js.trim (contentOf mc s)) = false \/ isLoading s = true ->
  handleSendMessage props now mc ag ov s = (s, None).
Proof.
  intros H. unfold handleSendMessage.
  destruct H as [-> | ->]; [reflexivity |]. now rewrite orb_true_r.
Qed.

Lemma messages_after_call
    (props : Props) (now : Z) (mc : option string) (ag : bool)
    (ov : option Highlight) (s : State) :
  Js.truthy (Js.trim (contentOf mc s)) = true -> isLoading s = false ->
  exists u,
    messages (fst (handleSendMessage props now mc ag ov s)) = messages s ++ [u]
    /\ sender u = user
    /\ msg_content u = contentOf mc s
    /\ isLoading (fst (handleSendMessage props now mc ag ov s)) = true
    /\ snd (handleSendMessage props now mc ag ov s)
       = Some {| outcome :=
                   Some (sendChatMessage props s now (contentOf mc s) ag
                           (match ov with
                            | Some h => Some h
                            | None => contextText s
                            end));
                 pending_model := selectedModel s |}.
Proof.
  intros Hc Hl. unfold handleSendMessage. rewrite Hc, Hl. simpl.
  exists {| msg_id := Js.toString now; msg_content := contentOf mc s;
            sender := user; timestamp := now; model := None; toolUsed := None;
            toolResponse := None;
            highlightedText := match ov with
                               | Some h => Some h
                               | None => contextText s
                               end |}.
  split; [| split; [| split; [| split]]].
  - destruct ag, ov; reflexivity.
  - reflexivity.
  - reflexivity.
  - destruct ag, ov; reflexivity.
  - reflexivity.
Qed.

Lemma completed_with_response (p : Pending) (now : Z) (s : State) (r : Response) :
  outcome p = Some r ->
  handleSendMessage_completed p now s
  = (set_isLoading false
       (set_messages (messages s ++ [aiMessageOf now (pending_model p) r]) s),
     []).
Proof.
  intros H. unfold handleSendMessage_completed. now rewrite H.
Qed.

Lemma overlay_after_call
    (props : Props) (now : Z) (mc : option string) (ag : bool)
    (ov : option Highlight) (s : State) :
  activeOverlay (fst (handleSendMessage props now mc ag ov s)) = activeOverlay s.
Proof.
  unfold handleSendMessage.
  destruct (negb (Js.truthy (Js.trim (contentOf mc s))) || isLoading s);
    [reflexivity |].
  destruct ag, ov; reflexivity.
Qed.

Lemma overlay_after_completion (p : Pending) (now : Z) (s : State) :
  activeOverlay (fst (handleSendMessage_completed p now s)) = activeOverlay s.
Proof.
  unfold handleSendMessage_completed. destruct (outcome p); reflexivity.
Qed.

Lemma overlay_after_toggleRecording (c : Capture) (b : bool) (s : State) :
  activeOverlay (fst (toggleRecording c b s)) = activeOverlay s.
Proof.
  unfold toggleRecording, stopRecording, startRecording, clearTimer.
  destruct (isRecording s).
  - destruct (mediaRecorderRef s); [| reflexivity].
    destruct b; simpl; destruct (recordingTimerRef s); reflexivity.
  - destruct c; reflexivity.
Qed.

End Sending.

(** C2 (as amended).  While the pending flag is set, a send appends no
    message and leaves the whole panel state unchanged; so does a send
    whose content is blank (empty once trimmed).  With the flag clear and
    content that is not blank, the call appends exactly one user message
    with that content and sets the flag; the completion of its request, on
    whatever state it finds, appends exactly one assistant message and
    clears the flag. *)
Theorem send_message_protocol
    (props : Panel.Props) (now finished : Z) (messageContent : option string)
    (autoGenerated : bool) (override : option Panel.Highlight) (s : Panel.State) :
  let content := Panel.contentOf messageContent s in
  let called := Panel.handleSendMessage props now messageContent autoGenerated
                  override s in
  (Panel.isLoading s = true -> called = (s, None))
  /\ (Js.truthy (Js.trim content) = false -> called = (s, None))
  /\ (Panel.isLoading s = false -> Js.truthy (Js.trim content) = true ->
      exists u p,
        snd called = Some p
        /\ Panel.messages (fst called) = Panel.messages s ++ [u]
        /\ Panel.sender u = Panel.user
        /\ Panel.msg_content u = content
        /\ Panel.isLoading (fst called) = true
        /\ forall later,
             exists a,
               Panel.messages
                 (fst (Panel.handleSendMessage_completed p finished later))
               = Panel.messages later ++ [a]
               /\ Panel.sender a = Panel.ai
               /\ Panel.isLoading
                    (fst (Panel.handleSendMessage_completed p finished later))
                  = false).
Proof.
  cbv zeta. split; [| split].
  - intros H. apply handleSendMessage_suppressed. now right.
  - intros H. apply handleSendMessage_suppressed. now left.
  - intros Hl Hc.
    destruct (messages_after_call props now messageContent autoGenerated
                override s Hc Hl) as (u & Hm & Hs & Hu & Hp & Hr).
    exists u. eexists. split; [exact Hr |].
    repeat (split; [assumption |]).
    intros later. unfold Panel.handleSendMessage_completed. simpl.
    eexists. repeat split.
Qed.

Lemma send_message_protocol_witness :
  let props := {| Panel.chatSessionId := "session"; Panel.currentPage := 11;
                  Panel.tocData := Some Spec.scenarioToc |} in
  let busy := Panel.set_isLoading true Panel.initial in
  Panel.handleSendMessage props 7 (Some "What is a heap?"%string) false None busy
  = (busy, None)
  /\ exists u p,
       snd (Panel.handleSendMessage props 7 (Some "What is a heap?"%string)
              false None Panel.initial) = Some p
       /\ Panel.messages
            (fst (Panel.handleSendMessage props 7 (Some "What is a heap?"%string)
                    false None Panel.initial)) = [u].
Proof.
  cbv zeta. split.
  - apply (proj1 (send_message_protocol
                    {| Panel.chatSessionId := "session"; Panel.currentPage := 11;
                       Panel.tocData := Some Spec.scenarioToc |}
                    7 8 (Some "What is a heap?"%string) false None
                    (Panel.set_isLoading true Panel.initial))).
    reflexivity.
  - destruct (proj2 (proj2 (send_message_protocol
                    {| Panel.chatSessionId := "session"; Panel.currentPage := 11;
                       Panel.tocData := Some Spec.scenarioToc |}
                    7 8 (Some "What is a heap?"%string) false None Panel.initial))
                eq_refl eq_refl) as (u & p & Hp & Hm & _).
    exists u, p. split; [exact Hp | exact Hm].
Defined.

(** C2 (as stated) fails: with the pending flag clear and a single space
    in the compose box, which is not empty, pressing Enter appends no
    message. *)
Lemma blank_message_is_not_sent :
  let props := {| Panel.chatSessionId := "session"; Panel.currentPage := 11;
                  Panel.tocData := Some Spec.scenarioToc |} in
  let s := Panel.set_inputValue " " Panel.initial in
  Panel.isLoading s = false
  /\ Panel.contentOf None s = " "%string
  /\ Panel.contentOf None s <> EmptyString
  /\ Panel.messages (Panel.stateOf (Panel.step props s (Panel.Send 7)))
     = Panel.messages s
  /\ Panel.step props s (Panel.Send 7) = (s, None, []).
Proof.
  cbv zeta. repeat split. discriminate.
Qed.

(** ** Voice capture *)

(** C8.  When starting a capture fails (capture unsupported, the request
    for the microphone rejected, or the recorder failing to be made or to
    start), an error is reported and recording stays idle: [isRecording]
    stays false, no interval timer is set and the timer reference and the
    elapsed time are as before, and the compose box is unchanged.  The
    record button, pressed while idle, does exactly this. *)
Theorem failed_capture_stays_idle (c : Panel.Capture) (s : Panel.State) :
  Panel.captureFailed c = true ->
  Panel.isRecording s = false ->
  let r := Panel.startRecording c s in
  Panel.isRecording (fst r) = false
  /\ Panel.recordingTimerRef (fst r) = Panel.recordingTimerRef s
  /\ Panel.recordingTime (fst r) = Panel.recordingTime s
  /\ Panel.inputValue (fst r) = Panel.inputValue s
  /\ Panel.messages (fst r) = Panel.messages s
  /\ (forall timer, ~ In (Panel.SetInterval timer) (snd r))
  /\ (forall recorder, ~ In (Panel.RecorderStart recorder) (snd r))
  /\ (exists msg, In (Panel.ToastError msg) (snd r))
  /\ (forall stopThrows, Panel.toggleRecording c stopThrows s = r).
Proof.
  intros Hc Hidle r. subst r.
  assert (Htoggle : forall b, Panel.toggleRecording c b s = Panel.startRecording c s).
  { intros b. unfold Panel.toggleRecording. now rewrite Hidle. }
  repeat match goal with |- _ /\ _ => split end; try exact Htoggle;
    destruct c; try discriminate Hc; simpl;
    try assumption; try reflexivity;
    try (intros x Hin; simpl in Hin; intuition discriminate);
    try (eexists; simpl; eauto).
Qed.

Lemma failed_capture_stays_idle_witness :
  Panel.isRecording (fst (Panel.startRecording Panel.Rejected Panel.initial)) = false
  /\ Panel.recordingTimerRef
       (fst (Panel.startRecording Panel.Rejected Panel.initial)) = None
  /\ Panel.inputValue
       (fst (Panel.startRecording Panel.Rejected Panel.initial)) = EmptyString.
Proof.
  pose proof (failed_capture_stays_idle Panel.Rejected Panel.initial
                eq_refl eq_refl) as H.
  cbv zeta in H. destruct H as (H1 & H2 & _ & H4 & _).
  split; [exact H1 |]. split; [exact H2 | exact H4].
Defined.

(** ** The tool overlay *)

Section Overlay.

Import Panel.

(** Of all the events of the panel, only opening a tool and closing the
    overlay touch [activeOverlay]. *)
Lemma overlay_changes_only_on_request (props : Props) (s : State) (e : Event) :
  activeOverlay (stateOf (step props s e)) = activeOverlay s
  \/ (exists message, e = OpenTool message)
  \/ e = CloseOverlay.
Proof.
  destruct e; try (left; reflexivity);
    try (right; left; eexists; reflexivity);
    try (right; right; reflexivity); left; unfold stateOf, step.
  - simpl. apply overlay_after_call.
  - pose proof (overlay_after_completion p now s) as H.
    destruct (handleSendMessage_completed p now s). exact H.
  - unfold handleToolUse. simpl. apply overlay_after_call.
  - unfold handleDirectToolGeneration. simpl. apply overlay_after_call.
  - pose proof (overlay_after_toggleRecording c stopThrows s) as H.
    destruct (toggleRecording c stopThrows s). exact H.
Qed.

Lemma open_tool_with_content (m : Message) (tr : ToolRef) (s : State) :
  toolResponse m = Some tr -> (0 < payloadLength (tool_content tr))%nat ->
  activeOverlay (handleOpenTool m s) = Some tr.
Proof.
  intros Hm Hlen. unfold handleOpenTool. rewrite Hm.
  apply Nat.ltb_lt in Hlen. now rewrite Hlen.
Qed.

End Overlay.

(** C9.  The completion of a send leaves the active overlay as it was, and
    so does the call itself; when the response carries a tool artifact, the
    one assistant message that the completion appends stores a reference
    to it: the response's tool type, the artifact as content, and the
    response id when there is one.  Among all events of the panel the
    overlay changes only on an open-tool click or on closing; an open-tool
    click on a message whose reference holds content shows that reference. *)
Theorem completion_never_opens_overlay
    (props : Panel.Props) (s : Panel.State) (p : Panel.Pending) (now : Z) :
  let completed := fst (Panel.handleSendMessage_completed p now s) in
  Panel.activeOverlay completed = Panel.activeOverlay s
  /\ (forall mc ag ov,
        Panel.activeOverlay (fst (Panel.handleSendMessage props now mc ag ov s))
        = Panel.activeOverlay s)
  /\ (forall response payload,
        Panel.outcome p = Some response ->
        Panel.tool_response response = Some payload ->
        exists a,
          Panel.messages completed = Panel.messages s ++ [a]
          /\ Panel.sender a = Panel.ai
          /\ Panel.toolResponse a
             = Some {| Panel.tool_type := Panel.r_tool_type response;
                       Panel.tool_content := payload;
                       Panel.toolResponseId :=
                         Js.orElse (Panel.tool_response_id response) None |})
  /\ (forall e,
        Panel.activeOverlay (Panel.stateOf (Panel.step props s e))
        = Panel.activeOverlay s
        \/ (exists message, e = Panel.OpenTool message)
        \/ e = Panel.CloseOverlay)
  /\ (forall message tr,
        Panel.toolResponse message = Some tr ->
        (0 < Panel.payloadLength (Panel.tool_content tr))%nat ->
        Panel.activeOverlay
          (Panel.stateOf (Panel.step props s (Panel.OpenTool message)))
        = Some tr).
Proof.
  cbv zeta. split; [apply overlay_after_completion |].
  split; [intros; apply overlay_after_call |].
  split; [| split].
  - intros response payload Hout Hpay.
    rewrite completed_with_response with (r := response) by exact Hout. simpl.
    eexists. split; [reflexivity |]. simpl. rewrite Hpay. split; reflexivity.
  - apply overlay_changes_only_on_request.
  - intros message tr Hm Hlen. simpl. now apply open_tool_with_content.
Qed.

Lemma completion_never_opens_overlay_witness :
  let props := {| Panel.chatSessionId := "session"; Panel.currentPage := 11;
                  Panel.tocData := Some Spec.scenarioToc |} in
  let flashcards := {| Panel.tool_id := "flashcard"; Panel.tool_name := "Flashcards";
                       Panel.tool_description := "Generate flashcards" |} in
  let called := Panel.handleToolUse props 7 flashcards Panel.initial in
  exists p a,
    snd (fst called) = Some p
    /\ Panel.messages
         (fst (Panel.handleSendMessage_completed p 9 (Panel.stateOf called)))
       = Panel.messages (Panel.stateOf called) ++ [a]
    /\ Panel.toolResponse a
       = Some {| Panel.tool_type := Some "flashcard"%string;
                 Panel.tool_content := Panel.Cards Panel.flashCards;
                 Panel.toolResponseId := Some "mock-response-7"%string |}
    /\ Panel.activeOverlay
         (fst (Panel.handleSendMessage_completed p 9 (Panel.stateOf called)))
       = None.
Proof.
  cbv zeta.
  set (props := {| Panel.chatSessionId := "session"%string;
                   Panel.currentPage := 11%Z;
                   Panel.tocData := Some Spec.scenarioToc |}).
  set (called := Panel.handleToolUse props 7 _ Panel.initial).
  destruct (snd (fst called)) as [p |] eqn:Ep; [| discriminate Ep].
  destruct (Panel.outcome p) as [response |] eqn:Er;
    [| vm_compute in Ep; injection Ep as <-; discriminate Er].
  pose proof (completion_never_opens_overlay props (Panel.stateOf called) p 9)
    as H.
  cbv zeta in H. destruct H as (Hov & _ & Hmsg & _).
  assert (Hpay : Panel.tool_response response = Some (Panel.Cards Panel.flashCards)).
  { vm_compute in Ep. injection Ep as <-. injection Er as <-. reflexivity. }
  destruct (Hmsg response _ Er Hpay) as (a & Ha & _ & Hta).
  exists p, a. split; [reflexivity |]. split; [exact Ha |]. split.
  - rewrite Hta. vm_compute in Ep. injection Ep as <-. injection Er as <-.
    reflexivity.
  - rewrite Hov. reflexivity.
Defined.

(** * Further properties of the code *)

(** ** The viewer's page controls *)

Section PageControls.

Import App.
Local Open Scope Z_scope.

Lemma totalPages_after_navigation (s : State) (p : Z) (sid cid : option string) :
  totalPages (fst (handlePageChange s p sid cid)) = totalPages s.
Proof. reflexivity. Qed.

Lemma pageRequest_in_range (e : Paging.PageEvent) (cur tp p : Z) :
  1 <= cur <= tp ->
  Paging.pageRequest e cur (Js.Fin tp) = Some p -> 1 <= p <= tp.
Proof.
  intros Hcur. destruct e as [| | parsed]; simpl.
  - unfold Viewer.handlePrevPage. destruct (Z.ltb_spec 1 cur); [| discriminate].
    intros [= <-]. lia.
  - unfold Viewer.handleNextPage. simpl. destruct (Z.ltb_spec cur tp); [| discriminate].
    intros [= <-]. lia.
  - apply page_input_in_range.
Qed.

Lemma viewerStep_in_range (s : State) (e : Paging.PageEvent) (tp : Z) :
  totalPages s = Js.Fin tp -> 1 <= currentPage s <= tp ->
  totalPages (Paging.viewerStep s e) = Js.Fin tp
  /\ 1 <= currentPage (Paging.viewerStep s e) <= tp.
Proof.
  intros Htp Hcur. unfold Paging.viewerStep. rewrite Htp.
  destruct (Paging.pageRequest e (currentPage s) (Js.Fin tp)) as [p |] eqn:E.
  - split; [exact Htp |]. simpl. now apply pageRequest_in_range in E.
  - now split.
Qed.

End PageControls.

(** X1.  The previous, next and page-input controls of the viewer keep the
    page within [[1, totalPages]]: from a page in range, no sequence of
    these controls leads out of it, and [totalPages] stays what it was. *)
Theorem viewer_controls_keep_page_in_range
    (s : App.State) (tp : Z) (es : list Paging.PageEvent) :
  App.totalPages s = Js.Fin tp ->
  (1 <= App.currentPage s <= tp)%Z ->
  App.totalPages (Paging.viewerAll s es) = Js.Fin tp
  /\ (1 <= App.currentPage (Paging.viewerAll s es) <= tp)%Z.
Proof.
  revert s. induction es as [| e es IH]; intros s Htp Hcur; simpl.
  - now split.
  - destruct (viewerStep_in_range s e Htp Hcur) as [Htp' Hcur'].
    now apply IH.
Qed.

Lemma viewer_controls_keep_page_in_range_witness :
  (1 <= App.currentPage
          (Paging.viewerAll (App.loaded App.mockData)
             [Paging.NextPage; Paging.SubmitPage (Some 900%Z); Paging.PrevPage;
              Paging.SubmitPage (Some 151%Z); Paging.NextPage])
   <= 151)%Z.
Proof.
  apply (viewer_controls_keep_page_in_range (App.loaded App.mockData)
           [Paging.NextPage; Paging.SubmitPage (Some 900%Z); Paging.PrevPage;
            Paging.SubmitPage (Some 151%Z); Paging.NextPage] eq_refl).
  vm_compute. split; discriminate.
Defined.

(** X2.  At the edges the controls do nothing: previous on page 1 or
    below, next on the last page or beyond, and a page input that is not a
    number or lies outside [[1, totalPages]] leave the whole state as it
    is; with [totalPages] at [-Infinity] next and the page input never
    navigate.  Below the last page, next followed by previous comes back to
    the same state. *)
Theorem viewer_controls_at_the_edges (s : App.State) :
  ((App.currentPage s <= 1)%Z -> Paging.viewerStep s Paging.PrevPage = s)
  /\ (forall tp, App.totalPages s = Js.Fin tp -> (tp <= App.currentPage s)%Z ->
        Paging.viewerStep s Paging.NextPage = s)
  /\ Paging.viewerStep s (Paging.SubmitPage None) = s
  /\ (forall tp p, App.totalPages s = Js.Fin tp -> (p < 1 \/ tp < p)%Z ->
        Paging.viewerStep s (Paging.SubmitPage (Some p)) = s)
  /\ (App.totalPages s = Js.NegInfinity ->
      Paging.viewerStep s Paging.NextPage = s
      /\ forall parsed, Paging.viewerStep s (Paging.SubmitPage parsed) = s)
  /\ (forall tp, App.totalPages s = Js.Fin tp -> (1 <= App.currentPage s < tp)%Z ->
        Paging.viewerStep (Paging.viewerStep s Paging.NextPage) Paging.PrevPage = s).
Proof.
  unfold Paging.viewerStep. simpl.
  split; [| split; [| split; [| split; [| split]]]].
  - intros H. unfold Viewer.handlePrevPage.
    destruct (Z.ltb_spec 1 (App.currentPage s)); [lia | reflexivity].
  - intros tp Htp H. rewrite Htp. unfold Viewer.handleNextPage. simpl.
    destruct (Z.ltb_spec (App.currentPage s) tp); [lia | reflexivity].
  - reflexivity.
  - intros tp p Htp H. rewrite Htp. simpl.
    destruct (Z.leb_spec 1 p); simpl; [| reflexivity].
    destruct (Z.leb_spec p tp); [lia | reflexivity].
  - intros Htp. rewrite Htp. split; [reflexivity |].
    intros [p |]; simpl; [| reflexivity].
    now rewrite andb_false_r.
  - intros tp Htp H. rewrite Htp. unfold Viewer.handleNextPage. simpl.
    destruct (Z.ltb_spec (App.currentPage s) tp); [| lia]. simpl.
    unfold Viewer.handlePrevPage.
    destruct (Z.ltb_spec 1 (App.currentPage s + 1)); [| lia]. simpl.
    destruct s; unfold App.set_currentPage; simpl in *. f_equal. lia.
Qed.

Lemma viewer_controls_at_the_edges_witness :
  Paging.viewerStep
    (Paging.viewerStep (App.loaded App.mockData) Paging.NextPage) Paging.PrevPage
  = App.loaded App.mockData.
Proof.
  apply (proj2 (proj2 (proj2 (proj2 (proj2
           (viewer_controls_at_the_edges (App.loaded App.mockData)))))) 151%Z).
  - reflexivity.
  - vm_compute. split; [discriminate | reflexivity].
Defined.

(** ** Zoom *)

Section Zoom.

Import Reader.
Local Open Scope Q_scope.

Lemma zoomStep_in_bounds (s : State) (e : ZoomEvent) :
  0.5 <= zoom s <= 2 -> 0.5 <= zoom (zoomStep s e) <= 2.
Proof.
  intros [Hlo Hhi]. destruct e; simpl.
  - split.
    + apply Q.min_glb; lra.
    + apply Qle_trans with (2.0); [apply Q.le_min_r | lra].
  - split.
    + apply Qle_trans with (0.5); [lra | apply Q.le_max_r].
    + apply Q.max_lub; lra.
  - lra.
Qed.

End Zoom.

(** X3.  The zoom factor stays within [[0.5, 2]]: from a factor in that
    range (the initial factor is 1) no sequence of zoom-in, zoom-out and
    reset leaves it. *)
Theorem zoom_stays_in_bounds (s : Reader.State) (es : list Reader.ZoomEvent) :
  (0.5 <= Reader.zoom s <= 2)%Q ->
  (0.5 <= Reader.zoom (Reader.zoomAll s es) <= 2)%Q.
Proof.
  revert s. unfold Reader.zoomAll.
  induction es as [| e es IH]; intros s H; simpl; [exact H |].
  apply IH. now apply zoomStep_in_bounds.
Qed.

Lemma zoom_stays_in_bounds_witness :
  (0.5 <= Reader.zoom
            (Reader.zoomAll Reader.initial
               (repeat Reader.ZoomIn 15 ++ repeat Reader.ZoomOut 40))
   <= 2)%Q.
Proof.
  apply (zoom_stays_in_bounds Reader.initial
           (repeat Reader.ZoomIn 15 ++ repeat Reader.ZoomOut 40)).
  vm_compute. split; discriminate.
Defined.

(** ** The responsive check *)

Section Responsive.

Import App.
Local Open Scope Q_scope.

Lemma hasTOC_set_isMobile (b : bool) (s : State) :
  hasTOC (set_isMobile b s) = hasTOC s.
Proof. reflexivity. Qed.

Lemma checkMobile_narrow (w : Q) (s : State) :
  w < 1024 ->
  checkMobile w s = set_rightPanelWidth 280 (set_isTOCCollapsed true (set_isMobile true s)).
Proof.
  intros H. unfold checkMobile.
  destruct (Qlt_le_dec w 1024) as [_ | Hge]; [reflexivity | lra].
Qed.

Lemma checkMobile_wide (w : Q) (s : State) :
  1024 <= w ->
  checkMobile w s
  = set_rightPanelWidth
      (if isPDFHidden s then Qmin 800 (w - 100)
       else if hasTOC s then (if isTOCCollapsed s then 380 else 320) else 400)
      (set_isMobile false s).
Proof.
  intros H. unfold checkMobile.
  destruct (Qlt_le_dec w 1024) as [Hlt | _]; [lra |].
  destruct (isPDFHidden s); reflexivity.
Qed.

Lemma checkMobile_keeps_collapsed (w : Q) (s : State) :
  isTOCCollapsed s = true -> isTOCCollapsed (checkMobile w s) = true.
Proof.
  intros H. unfold checkMobile.
  destruct (Qlt_le_dec w 1024); [reflexivity |].
  destruct (isPDFHidden s); exact H.
Qed.

End Responsive.

(** X4.  The responsive check is idempotent: run twice at the same window
    width it gives the state it gave the first time, so re-running it after
    its own state changes settles at once. *)
Theorem responsive_check_is_idempotent (w : Q) (s : App.State) :
  App.checkMobile w (App.checkMobile w s) = App.checkMobile w s.
Proof.
  unfold App.checkMobile.
  destruct (Qlt_le_dec w 1024); [reflexivity |].
  destruct (App.isPDFHidden s) eqn:Eh; simpl; rewrite Eh; reflexivity.
Qed.

(** X5.  In the narrow layout the contents pane cannot stay expanded: below
    the breakpoint, expanding it is undone by the responsive check that the
    toggle triggers, which also pins the tool panel at 280; and the pane
    stays collapsed when the window is widened afterwards, since the check
    never expands it. *)
Theorem narrow_layout_keeps_contents_collapsed (w : Q) (s : App.State) :
  (w < 1024)%Q ->
  let s' := Paging.toggleContents w s in
  App.isMobile s' = true
  /\ App.isTOCCollapsed s' = true
  /\ App.rightPanelWidth s' = 280%Q
  /\ (forall w2, App.isTOCCollapsed (App.checkMobile w2 s') = true).
Proof.
  intros H s'. subst s'. unfold Paging.toggleContents.
  rewrite checkMobile_narrow by exact H. simpl.
  repeat split. intros w2. now apply checkMobile_keeps_collapsed.
Qed.

Lemma narrow_layout_keeps_contents_collapsed_witness :
  App.isTOCCollapsed
    (App.checkMobile 1440
       (Paging.toggleContents 800 (App.checkMobile 800 (App.loaded App.mockData))))
  = true.
Proof.
  apply (narrow_layout_keeps_contents_collapsed
           (w := 800) (App.checkMobile 800 (App.loaded App.mockData))).
  reflexivity.
Defined.

(** X6.  In the wide layout the responsive check discards a drag-resized
    width: after a toggle of the contents pane with the document visible,
    the tool panel is 380 wide when the pane ends up collapsed and 320 when
    it ends up expanded (400 without a table of contents), whatever width a
    drag had left; after hiding the document it is [min(800, w - 100)]. *)
Theorem toggles_reset_panel_width (w dragged : Q) (s : App.State) :
  (1024 <= w)%Q ->
  let s0 := App.set_rightPanelWidth dragged s in
  (App.isPDFHidden s = false ->
   App.rightPanelWidth (Paging.toggleContents w s0)
   = if App.hasTOC s
     then (if App.isTOCCollapsed (Paging.toggleContents w s0) then 380%Q else 320%Q)
     else 400%Q)
  /\ (App.isPDFHidden s = false ->
      App.rightPanelWidth (Paging.toggleDocument w s0) = Qmin 800 (w - 100))
  /\ App.isTOCCollapsed (Paging.toggleContents w s0) = negb (App.isTOCCollapsed s)
  /\ App.isMobile (Paging.toggleContents w s0) = false.
Proof.
  intros H s0. subst s0. unfold Paging.toggleContents, Paging.toggleDocument.
  rewrite !checkMobile_wide by exact H. simpl.
  split; [| split; [| split]].
  - intros ->.
    change (App.hasTOC
              (App.handleTOCToggle (App.set_rightPanelWidth dragged s)))
      with (App.hasTOC s).
    destruct (App.hasTOC s); reflexivity.
  - intros ->. reflexivity.
  - reflexivity.
  - reflexivity.
Qed.

Lemma toggles_reset_panel_width_witness :
  App.rightPanelWidth
    (Paging.toggleContents 1440
       (App.set_rightPanelWidth 555 (App.loaded App.mockData)))
  = 380%Q.
Proof.
  apply (proj1 (toggles_reset_panel_width (w := 1440) 555 (App.loaded App.mockData)
                  ltac:(vm_compute; discriminate))).
  reflexivity.
Defined.

(** ** Pointer moves *)

Section Pointer.

Import App.
Local Open Scope Q_scope.

Lemma set_rightPanelWidth_frame (w : Q) (s : State) :
  studyData (set_rightPanelWidth w s) = studyData s
  /\ currentPage (set_rightPanelWidth w s) = currentPage s
  /\ isTOCCollapsed (set_rightPanelWidth w s) = isTOCCollapsed s
  /\ isMobile (set_rightPanelWidth w s) = isMobile s
  /\ isResizing (set_rightPanelWidth w s) = isResizing s
  /\ isLoading (set_rightPanelWidth w s) = isLoading s
  /\ isPDFHidden (set_rightPanelWidth w s) = isPDFHidden s.
Proof. repeat split. Qed.

End Pointer.

(** X7.  A pointer move changes nothing unless a drag is in progress in the
    wide layout with the container mounted: in particular every move after
    the pointer is released is ignored.  A move that does count changes only
    the width of the tool panel, and moving the pointer to the right never
    widens the panel. *)
Theorem pointer_moves_count_only_while_dragging
    (container : option App.Rect) (x : Q) (s : App.State) :
  ((App.isResizing s = false \/ App.isMobile s = true \/ container = None) ->
   App.handleMouseMove container x s = s)
  /\ App.handleMouseMove container x (App.handleMouseUp s) = App.handleMouseUp s
  /\ App.set_rightPanelWidth (App.rightPanelWidth s)
       (App.handleMouseMove container x s)
     = App.set_rightPanelWidth (App.rightPanelWidth s) s
  /\ (forall x2, (x <= x2)%Q ->
        (App.rightPanelWidth (App.handleMouseMove container x2 (App.handleMouseDown s))
         <= App.rightPanelWidth
              (App.handleMouseMove container x (App.handleMouseDown s)))%Q).
Proof.
  split; [| split; [| split]].
  - intros [H | [H | H]]; unfold App.handleMouseMove.
    + destruct container; [| reflexivity]. now rewrite H.
    + destruct container; [| reflexivity]. rewrite H. now rewrite orb_true_r.
    + now rewrite H.
  - unfold App.handleMouseMove. destruct container; reflexivity.
  - unfold App.handleMouseMove. destruct container; [| reflexivity].
    destruct (negb (App.isResizing s) || App.isMobile s); reflexivity.
  - intros x2 Hx. unfold App.handleMouseMove. destruct container as [r |].
    + simpl. destruct (App.isMobile s); simpl; [apply Qle_refl |].
      apply Q.max_le_compat_l. apply Q.min_le_compat_l. lra.
    + apply Qle_refl.
Qed.

Lemma pointer_moves_count_only_while_dragging_witness :
  App.handleMouseMove (Some {| App.left := 0; App.width := 1200 |}) 300
    (App.loaded App.mockData)
  = App.loaded App.mockData.
Proof.
  apply (proj1 (pointer_moves_count_only_while_dragging
                  (Some {| App.left := 0; App.width := 1200 |}) 300
                  (App.loaded App.mockData))).
  left. reflexivity.
Defined.

(** ** What is on screen *)

Section Screen.

Local Open Scope Z_scope.

(** The pages on which the viewer's render throws. *)
Lemma renderThrows_spec (p : Z) :
  Reader.renderThrows p = true <-> p <= 0 /\ Z.rem (p - 1) 8 <> 0.
Proof.
  unfold Reader.renderThrows, Reader.generatePageContent.
  cbn [Reader.topic Reader.pageConcepts].
  change (Z.of_nat (length Reader.topics)) with 8.
  change (Z.of_nat (length Reader.concepts)) with 8.
  unfold Reader.at_index.
  destruct (Z.ltb_spec (Z.rem (p - 1) 8) 0) as [Hneg | Hpos].
  - split; [intros _ | reflexivity].
    destruct (Z_le_gt_dec p 0) as [Hp | Hp]; [split; lia |].
    pose proof (Z.rem_nonneg (p - 1) 8 ltac:(lia) ltac:(lia)). lia.
  - assert (Hlt : Z.rem (p - 1) 8 < 8).
    { destruct (Z_le_gt_dec 0 (p - 1)) as [Hp | Hp].
      - apply Z.rem_bound_pos; lia.
      - pose proof (Z.rem_nonpos (p - 1) 8 ltac:(lia) ltac:(lia)). lia. }
    assert (Hn : (Z.to_nat (Z.rem (p - 1) 8) < 8)%nat) by lia.
    split.
    + intros H. exfalso. revert H.
      destruct (Z.to_nat (Z.rem (p - 1) 8))
        as [| [| [| [| [| [| [| [| n]]]]]]]]; try discriminate.
      lia.
    + intros [Hp Hne]. exfalso.
      pose proof (Z.rem_nonpos (p - 1) 8 ltac:(lia) ltac:(lia)). lia.
Qed.

End Screen.

(** X8.  Once the study data is loaded, what is on screen follows the
    flags and the current page.  When the document is shown and the current
    page has no topic (a page [p <= 0] with [p - 1] no multiple of 8, such
    as page 0), the render of the document viewer throws and nothing stays
    on screen.  In every other case the tool panel is rendered; the
    document pane is rendered exactly when the document is not hidden, the
    resize handle exactly when it is not hidden and the layout is wide, and
    the contents pane exactly when there is a table of contents with a
    chapter and the document is not hidden.  With the document hidden the
    tool panel is the only pane, whatever the page. *)
Theorem rendered_panes_follow_the_flags (s : App.State) :
  App.studyData s <> None -> App.isLoading s = false ->
  let panes := App.panesOf (App.render s) in
  (App.render s = App.Unmounted
   <-> App.isPDFHidden s = false
       /\ (App.currentPage s <= 0)%Z
       /\ Z.rem (App.currentPage s - 1) 8 <> 0%Z)
  /\ (App.render s = App.Unmounted -> panes = [])
  /\ (App.render s <> App.Unmounted ->
      In (App.ToolPane (App.isPDFHidden s)) panes
      /\ (In App.DocumentPane panes <-> App.isPDFHidden s = false)
      /\ (In App.ResizeHandle panes
          <-> App.isPDFHidden s = false /\ App.isMobile s = false)
      /\ (App.contentsRendered s = true
          <-> App.hasTOC s = true /\ App.isPDFHidden s = false))
  /\ (App.isPDFHidden s = true -> panes = [App.ToolPane true]).
Proof.
  intros Hd Hl panes. subst panes.
  pose proof (renderThrows_spec (App.currentPage s)) as Hthrows.
  unfold App.contentsRendered, App.render.
  destruct (App.studyData s) as [d |]; [| contradiction]. rewrite Hl.
  destruct (Reader.renderThrows (App.currentPage s)) eqn:Et.
  - destruct Hthrows as [Hthrows _]. specialize (Hthrows eq_refl).
    destruct (App.isMobile s), (App.hasTOC s), (App.isPDFHidden s); simpl;
      repeat split; intros; try discriminate; try reflexivity;
      try tauto; try congruence;
      repeat match goal with
             | H : _ \/ _ |- _ => destruct H
             | H : _ /\ _ |- _ => destruct H
             | H : False |- _ => destruct H
             end; try discriminate; try congruence; auto.
  - assert (Hno : ~ ((App.currentPage s <= 0)%Z
                     /\ Z.rem (App.currentPage s - 1) 8 <> 0%Z)).
    { intros H. apply Hthrows in H. discriminate H. }
    destruct (App.isMobile s), (App.hasTOC s), (App.isPDFHidden s); simpl;
      repeat split; intros; try discriminate; try reflexivity;
      try tauto; try congruence;
      repeat match goal with
             | H : _ \/ _ |- _ => destruct H
             | H : _ /\ _ |- _ => destruct H
             | H : False |- _ => destruct H
             end; try discriminate; try congruence; try tauto; auto.
Qed.

Lemma rendered_panes_follow_the_flags_witness :
  App.panesOf (App.render (fst (App.handleTogglePDF (App.loaded App.mockData))))
  = [App.ToolPane true]
  /\ App.render (fst (App.handlePageChange (App.loaded App.mockData) 0 None None))
     = App.Unmounted.
Proof.
  split.
  - apply (rendered_panes_follow_the_flags
             (fst (App.handleTogglePDF (App.loaded App.mockData)))).
    + discriminate.
    + reflexivity.
    + reflexivity.
  - apply (proj1 (rendered_panes_follow_the_flags
                    (fst (App.handlePageChange (App.loaded App.mockData) 0
                            None None))
                    ltac:(discriminate) eq_refl)).
    split; [reflexivity | split; [simpl; lia | discriminate]].
Defined.

(** ** The selection popup *)

Section Strings.

Local Open Scope string_scope.

Lemma length_append (a b : string) :
  String.length (a ++ b) = (String.length a + String.length b)%nat.
Proof.
  induction a as [| c a IH]; simpl; [reflexivity | now rewrite IH].
Qed.

Lemma length_substring (n m : nat) (s : string) :
  (String.length (substring n m s) <= m)%nat.
Proof.
  revert n m. induction s as [| c s IH]; intros n m.
  - destruct n, m; simpl; lia.
  - destruct n as [| n]; destruct m as [| m]; simpl; try lia.
    + specialize (IH 0%nat m). lia.
    + apply IH.
    + apply IH.
Qed.

Lemma length_trimStart (s : string) :
  (String.length (Js.trimStart s) <= String.length s)%nat.
Proof.
  induction s as [| c s IH]; simpl; [lia |].
  destruct (Js.isWhiteSpace c); simpl; lia.
Qed.

Lemma length_trimEnd (s : string) :
  (String.length (Js.trimEnd s) <= String.length s)%nat.
Proof.
  induction s as [| c s IH]; simpl; [lia |].
  destruct (Js.trimEnd s); [destruct (Js.isWhiteSpace c) |]; simpl in *; lia.
Qed.

Lemma length_trim (s : string) :
  (String.length (Js.trim s) <= String.length s)%nat.
Proof.
  unfold Js.trim.
  pose proof (length_trimEnd (Js.trimStart s)). pose proof (length_trimStart s). lia.
Qed.

Lemma length_js_substring (a b : nat) (s : string) :
  (String.length (Reader.js_substring a b s)
   <= Nat.max (Nat.min a (String.length s)) (Nat.min b (String.length s))
      - Nat.min (Nat.min a (String.length s)) (Nat.min b (String.length s)))%nat.
Proof.
  unfold Reader.js_substring. apply length_substring.
Qed.

(** White space at neither end: what [trim] leaves. *)
Lemma trimEnd_fixed (s : string) : Js.trimEnd (Js.trimEnd s) = Js.trimEnd s.
Proof.
  induction s as [| c s IH]; simpl; [reflexivity |].
  destruct (Js.trimEnd s) as [| d r] eqn:E.
  - destruct (Js.isWhiteSpace c) eqn:Ec; simpl; [reflexivity |]. now rewrite Ec.
  - simpl in *. now rewrite IH.
Qed.

Lemma trimStart_head (s : string) :
  match Js.trimStart s with
  | EmptyString => True
  | String c _ => Js.isWhiteSpace c = false
  end.
Proof.
  induction s as [| c s IH]; simpl; [exact I |].
  destruct (Js.isWhiteSpace c) eqn:E; [exact IH | exact E].
Qed.

Lemma trimEnd_head (c : ascii) (s : string) :
  Js.isWhiteSpace c = false ->
  exists r, Js.trimEnd (String c s) = String c r.
Proof.
  intros H. simpl. destruct (Js.trimEnd s).
  - rewrite H. now exists EmptyString.
  - eexists. reflexivity.
Qed.

Lemma trim_idempotent (s : string) : Js.trim (Js.trim s) = Js.trim s.
Proof.
  unfold Js.trim. pose proof (trimStart_head s) as H.
  destruct (Js.trimStart s) as [| c r] eqn:E; [reflexivity |].
  destruct (trimEnd_head c r H) as [r' Hr]. rewrite Hr.
  simpl Js.trimStart. rewrite H. rewrite <- Hr. apply trimEnd_fixed.
Qed.

Lemma trim_head_not_blank (c : ascii) (s : string) :
  Js.isWhiteSpace c = false -> Js.truthy (Js.trim (String c s)) = true.
Proof.
  intros H. unfold Js.trim. simpl Js.trimStart. rewrite H.
  destruct (trimEnd_head c s H) as [r ->]. reflexivity.
Qed.

End Strings.

(** X9.  A selection in the document shows the popup exactly when the
    selected text is not blank.  The text the popup holds is the selection
    trimmed, is not empty and is unchanged by trimming again; its context is
    at most 100 characters longer than the text on either side; a blank or
    missing selection hides the popup and clears the stored selection.  The
    zoom factor is never touched. *)
Theorem selection_popup_holds_trimmed_text
    (sel : option Reader.Selection) (s : Reader.State) :
  let s' := Reader.handleTextSelection sel s in
  (Reader.showPopup s' = true
   <-> exists d, sel = Some d /\ Js.trim (Reader.selected d) <> EmptyString)
  /\ (Reader.showPopup s' = false <-> Reader.textSelection s' = None)
  /\ (forall t, Reader.textSelection s' = Some t ->
        exists d, sel = Some d
          /\ Reader.sel_text t = Js.trim (Reader.selected d)
          /\ Reader.sel_text t <> EmptyString
          /\ Js.trim (Reader.sel_text t) = Reader.sel_text t
          /\ (String.length (Reader.sel_context t)
              <= String.length (Reader.sel_text t) + 200)%nat)
  /\ Reader.zoom s' = Reader.zoom s.
Proof.
  cbv zeta. unfold Reader.handleTextSelection, Reader.selectionOf.
  destruct sel as [d |]; simpl.
  - destruct (Js.trim (Reader.selected d)) as [| c r] eqn:E; simpl.
    + repeat split; try discriminate.
      intros (d' & [= <-] & H). now rewrite E in H.
    + split; [| split; [| split]]; try reflexivity.
      * split; [| reflexivity]. intros _. exists d. rewrite E. split; [easy | discriminate].
      * split; discriminate.
      * intros t [= <-]. exists d. simpl. rewrite E.
        repeat split; try discriminate.
        -- rewrite <- E. apply trim_idempotent.
        -- etransitivity; [apply length_trim |].
           rewrite !length_append.
           pose proof (length_js_substring
                         (Reader.startOffset d - 100) (Reader.startOffset d)
                         (Reader.textContent d)).
           pose proof (length_js_substring
                         (Reader.endOffset d)
                         (Nat.min (String.length (Reader.textContent d))
                            (Reader.endOffset d + 100))
                         (Reader.textContent d)).
           simpl String.length. rewrite length_append. lia.
  - repeat split; try discriminate. intros (d & H & _). discriminate.
Qed.

Lemma selection_popup_holds_trimmed_text_witness :
  let d := {| Reader.selected := " heap ";
              Reader.textContent := "A binary heap is a complete binary tree.";
              Reader.startOffset := 8; Reader.endOffset := 14;
              Reader.rect_left := 10; Reader.rect_top := 20;
              Reader.rect_width := 30 |} in
  exists t,
    Reader.textSelection (Reader.handleTextSelection (Some d) Reader.initial) = Some t
    /\ Reader.sel_text t = "heap"%string.
Proof.
  cbv zeta. eexists. split; [reflexivity |].
  destruct (proj1 (proj2 (proj2
             (selection_popup_holds_trimmed_text
                (Some {| Reader.selected := " heap ";
                         Reader.textContent := "A binary heap is a complete binary tree.";
                         Reader.startOffset := 8; Reader.endOffset := 14;
                         Reader.rect_left := 10; Reader.rect_top := 20;
                         Reader.rect_width := 30 |})
                Reader.initial))) _ eq_refl) as (d & Hd & Ht & _).
  injection Hd as <-. exact Ht.
Defined.

(** ** The mock page content *)

Section MockPage.

Import Reader.
Local Open Scope Z_scope.

Lemma at_index_in_bounds {A : Type} (xs : list A) (i : Z) :
  0 <= i < Z.of_nat (length xs) -> exists x, at_index xs i = Some x.
Proof.
  intros [Hlo Hhi]. unfold at_index.
  destruct (Z.ltb_spec i 0); [lia |].
  destruct (nth_error xs (Z.to_nat i)) as [x |] eqn:E; [now exists x |].
  apply nth_error_None in E. lia.
Qed.

Lemma at_index_negative {A : Type} (xs : list A) (i : Z) :
  i < 0 -> at_index xs i = None.
Proof.
  intros H. unfold at_index. destruct (Z.ltb_spec i 0); [reflexivity | lia].
Qed.

Lemma rem_pred_period (p : Z) : 1 <= p -> Z.rem (p + 8 - 1) 8 = Z.rem (p - 1) 8.
Proof.
  intros H. rewrite !Z.rem_mod_nonneg by lia.
  replace (p + 8 - 1) with (p - 1 + 1 * 8) by lia. apply Z.mod_add. lia.
Qed.

End MockPage.

(** X10.  For every page from 1 on, the mock page content has a topic and a
    concept list (the index stays inside both tables), a section number
    between 1 and 4 and the chapter number whose block of 20 pages holds
    the page; topics repeat with period 8.  For a page below 1 whose
    predecessor is not a multiple of 8, such as page 0, the index is
    negative and there is no topic. *)
Theorem page_content_is_defined_from_page_one (p : Z) :
  ((1 <= p)%Z ->
   (exists t cs,
      Reader.topic (Reader.generatePageContent p) = Some t
      /\ Reader.pageConcepts (Reader.generatePageContent p) = Some cs)
   /\ (1 <= Reader.section (Reader.generatePageContent p) <= 4)%Z
   /\ (20 * (Reader.chapter (Reader.generatePageContent p) - 1) < p
       <= 20 * Reader.chapter (Reader.generatePageContent p))%Z
   /\ Reader.topic (Reader.generatePageContent (p + 8))
      = Reader.topic (Reader.generatePageContent p))
  /\ ((p <= 0)%Z -> Z.rem (p - 1) 8 <> 0%Z ->
      Reader.topic (Reader.generatePageContent p) = None
      /\ Reader.pageConcepts (Reader.generatePageContent p) = None).
Proof.
  unfold Reader.generatePageContent. simpl Reader.topic.
  simpl Reader.pageConcepts. simpl Reader.section. simpl Reader.chapter.
  change (Z.of_nat (length Reader.topics)) with 8%Z.
  change (Z.of_nat (length Reader.concepts)) with 8%Z.
  split.
  - intros Hp.
    assert (Hr : (0 <= Z.rem (p - 1) 8 < 8)%Z) by (apply Z.rem_bound_pos; lia).
    split; [| split; [| split]].
    + destruct (@at_index_in_bounds _ Reader.topics (Z.rem (p - 1) 8) Hr) as [t Ht].
      destruct (@at_index_in_bounds _ Reader.concepts (Z.rem (p - 1) 8) Hr) as [cs Hcs].
      now exists t, cs.
    + assert (Hm : (0 <= Z.rem p 20 < 20)%Z) by (apply Z.rem_bound_pos; lia).
      unfold Reader.ceilDiv.
      destruct (Z.eqb_spec (- (- Z.rem p 20 / 5)) 0) as [E | E]; [lia |].
      pose proof (Z.div_mod (- Z.rem p 20) 5 ltac:(lia)).
      pose proof (Z.mod_pos_bound (- Z.rem p 20) 5 ltac:(lia)). lia.
    + unfold Reader.ceilDiv.
      pose proof (Z.div_mod (- p) 20 ltac:(lia)).
      pose proof (Z.mod_pos_bound (- p) 20 ltac:(lia)). lia.
    + now rewrite rem_pred_period.
  - intros Hp Hne.
    assert (Hr : (Z.rem (p - 1) 8 <= 0)%Z) by (apply Z.rem_nonpos; lia).
    split; apply at_index_negative; lia.
Qed.

Lemma page_content_is_defined_from_page_one_witness :
  Reader.topic (Reader.generatePageContent 0) = None
  /\ (1 <= Reader.section (Reader.generatePageContent 151) <= 4)%Z.
Proof.
  split.
  - apply (proj2 (page_content_is_defined_from_page_one 0)); [lia | discriminate].
  - apply (proj1 (page_content_is_defined_from_page_one 151)). lia.
Defined.

(** ** From a selection to the tool panel *)

Section HighlightRouting.

Import Panel.
Local Open Scope string_scope.

Lemma direct_generation_message_not_blank (toolName text0 : string) :
  Js.truthy
    (Js.trim ("Generate " ++ Js.toLowerCase toolName
              ++ " from the selected text: " ++ Js.dquote ++ text0 ++ Js.dquote))
  = true.
Proof.
  change ("Generate " ++ ?x) with (String "G" ("enerate " ++ x)).
  now apply trim_head_not_blank.
Qed.

Lemma send_generated_with_highlight
    (props : Props) (now : Z) (m : string) (h : Highlight) (s : State) :
  Js.truthy (Js.trim (contentOf (Some m) s)) = true -> isLoading s = false ->
  handleSendMessage props now (Some m) true (Some h) s
  = (set_isLoading true
       (set_messages
          (messages s
           ++ [{| msg_id := Js.toString now; msg_content := contentOf (Some m) s;
                  sender := user; timestamp := now; model := None;
                  toolUsed := None; toolResponse := None;
                  highlightedText := Some h |}])%list s),
     Some {| outcome :=
               Some (sendChatMessage props s now (contentOf (Some m) s) true (Some h));
             pending_model := selectedModel s |}).
Proof.
  intros Hc Hl. unfold handleSendMessage. rewrite Hc, Hl. reflexivity.
Qed.

Lemma direct_generation_when_idle
    (props : Props) (now : Z) (text0 context0 toolType : string) (s : State) :
  isLoading s = false ->
  let r := handleDirectToolGeneration props now text0 context0 toolType s in
  exists u p,
    messages (stateOf r) = (messages s ++ [u])%list
    /\ sender u = user
    /\ highlightedText u = Some {| text := text0; context_of := context0 |}
    /\ snd (fst r) = Some p
    /\ isLoading (stateOf r) = true
    /\ inputValue (stateOf r) = inputValue s
    /\ contextText (stateOf r) = contextText s.
Proof.
  intros Hl. cbv zeta. unfold handleDirectToolGeneration.
  rewrite send_generated_with_highlight; [| | exact Hl].
  - eexists. eexists. unfold stateOf. simpl. repeat split.
  - apply direct_generation_message_not_blank.
Qed.

Lemma direct_generation_when_pending
    (props : Props) (now : Z) (text0 context0 toolType : string) (s : State) :
  isLoading s = true ->
  handleDirectToolGeneration props now text0 context0 toolType s
  = (s, None,
     [ToastInfo ("Generating " ++ Js.toLowerCase (getToolDisplayName toolType)
                 ++ " from selected text...")]).
Proof.
  intros Hl. unfold handleDirectToolGeneration.
  rewrite handleSendMessage_suppressed by now right. reflexivity.
Qed.

End HighlightRouting.

(** X11.  A tool chosen on a selection in the document closes the popup
    and reaches the panel as follows.  The ask tool sends nothing: it puts
    the selection into the compose box as a request to explain it and keeps
    it as context.  Any other tool, with the panel idle, appends exactly
    one user message that carries the selection and its context, issues a
    request, and leaves the compose box and the context as they were; with
    a request pending it changes nothing in the panel. *)
Theorem chosen_tool_reaches_the_panel
    (props : Panel.Props) (now : Z) (toolId : string)
    (viewer : Reader.State) (panel : Panel.State) (t : Reader.TextSelection) :
  Reader.textSelection viewer = Some t ->
  let r := Routing.selectTool props now toolId viewer panel in
  let viewer' := fst (fst r) in
  let panel' := snd (fst r) in
  let here := {| Panel.text := Reader.sel_text t;
                 Panel.context_of := Reader.sel_context t |} in
  Reader.showPopup viewer' = false
  /\ Reader.textSelection viewer' = None
  /\ (toolId = "ask"%string ->
      snd r = None
      /\ Panel.messages panel' = Panel.messages panel
      /\ Panel.inputValue panel'
         = ("Please explain: " ++ Js.dquote ++ Reader.sel_text t ++ Js.dquote)%string
      /\ Panel.contextText panel' = Some here)
  /\ (toolId <> "ask"%string -> toolId <> EmptyString ->
      Panel.isLoading panel = false ->
      exists u p,
        Panel.messages panel' = Panel.messages panel ++ [u]
        /\ Panel.sender u = Panel.user
        /\ Panel.highlightedText u = Some here
        /\ snd r = Some p
        /\ Panel.inputValue panel' = Panel.inputValue panel
        /\ Panel.contextText panel' = Panel.contextText panel)
  /\ (toolId <> "ask"%string -> toolId <> EmptyString ->
      Panel.isLoading panel = true -> panel' = panel /\ snd r = None).
Proof.
  intros Ht. cbv zeta. unfold Routing.selectTool, Reader.handleToolSelect.
  rewrite Ht.
  destruct (String.eqb_spec toolId "ask") as [E | E].
  - subst toolId. simpl. repeat split; intros; congruence.
  - unfold Routing.handleTextHighlight.
    cbn [Reader.hl_toolType Reader.hl_text Reader.hl_context].
    apply String.eqb_neq in E. rewrite E. cbn [negb].
    destruct (Js.truthy toolId) eqn:Etr; cbn [andb].
    + destruct (Panel.handleDirectToolGeneration props now (Reader.sel_text t)
                  (Reader.sel_context t) toolId panel)
        as [[panel' pending] out] eqn:Er.
      cbn [fst snd]. split; [reflexivity |]. split; [reflexivity |].
      apply String.eqb_neq in E.
      split; [intros; congruence |]. split.
      * intros _ _ Hl.
        destruct (direct_generation_when_idle props now (Reader.sel_text t)
                    (Reader.sel_context t) toolId panel Hl)
          as (u & p & Hm & Hs & Hh & Hp & _ & Hi & Hc).
        rewrite Er in *. unfold Panel.stateOf in *. cbn [fst snd] in *.
        exists u, p. repeat split; assumption.
      * intros _ _ Hl.
        rewrite direct_generation_when_pending in Er by exact Hl.
        injection Er as <- <- _. now split.
    + assert (toolId = EmptyString) as -> by (destruct toolId; [reflexivity | discriminate]).
      cbn [fst snd]. repeat split; intros; congruence.
Qed.

Lemma chosen_tool_reaches_the_panel_witness :
  let props := {| Panel.chatSessionId := "session"; Panel.currentPage := 11;
                  Panel.tocData := Some Spec.scenarioToc |} in
  let t := {| Reader.sel_text := "heap"; Reader.sel_x := 0; Reader.sel_y := 0;
              Reader.sel_context := "A binary heap is a tree." |} in
  let viewer := {| Reader.zoom := 1; Reader.textSelection := Some t;
                   Reader.showPopup := true; Reader.hoveredTool := None |} in
  Panel.messages
    (snd (fst (Routing.selectTool props 7 "ask" viewer Panel.initial))) = [].
Proof.
  cbv zeta.
  apply (proj1 (proj2 (proj2
           (chosen_tool_reaches_the_panel
              {| Panel.chatSessionId := "session"; Panel.currentPage := 11;
                 Panel.tocData := Some Spec.scenarioToc |}
              7 "ask"
              {| Reader.zoom := 1;
                 Reader.textSelection :=
                   Some {| Reader.sel_text := "heap"; Reader.sel_x := 0;
                           Reader.sel_y := 0;
                           Reader.sel_context := "A binary heap is a tree." |};
                 Reader.showPopup := true; Reader.hoveredTool := None |}
              Panel.initial eq_refl))) eq_refl).
Defined.

(** ** Tool types, labels and overlays *)

Section ToolTypes.

Local Open Scope string_scope.

Lemma lowerChar_idempotent (c : ascii) : Js.lowerChar (Js.lowerChar c) = Js.lowerChar c.
Proof.
  destruct c as [[] [] [] [] [] [] [] []]; reflexivity.
Qed.

Lemma toLowerCase_idempotent (s : string) :
  Js.toLowerCase (Js.toLowerCase s) = Js.toLowerCase s.
Proof.
  induction s as [| c s IH]; simpl; [reflexivity |].
  now rewrite lowerChar_idempotent, IH.
Qed.

Lemma prefix_append (sub a b : string) :
  prefix sub a = true -> prefix sub (a ++ b) = true.
Proof.
  revert a. induction sub as [| c sub IH]; intros a H;
    [destruct (a ++ b); reflexivity |].
  destruct a as [| d a]; simpl in *; [discriminate |].
  destruct (ascii_dec c d); [now apply IH | discriminate].
Qed.

Lemma includes_append_l (sub a b : string) :
  Js.includes sub a = true -> Js.includes sub (a ++ b) = true.
Proof.
  induction a as [| d a IH]; intros H.
  - simpl in H. rewrite orb_false_r in H.
    destruct sub; [| discriminate]. destruct b; reflexivity.
  - change (Js.includes sub (String d a))
      with (prefix sub (String d a) || Js.includes sub a) in H.
    change (Js.includes sub (String d a ++ b))
      with (prefix sub (String d a ++ b) || Js.includes sub (a ++ b)).
    apply orb_true_iff in H. apply orb_true_iff. destruct H as [H | H].
    + left. now apply prefix_append.
    + right. now apply IH.
Qed.

Lemma includes_append_r (sub a b : string) :
  Js.includes sub b = true -> Js.includes sub (a ++ b) = true.
Proof.
  intros H. induction a as [| d a IH]; [exact H |].
  change (Js.includes sub (String d a ++ b))
    with (prefix sub (String d a ++ b) || Js.includes sub (a ++ b)).
  rewrite IH. apply orb_true_r.
Qed.

End ToolTypes.

(** X12.  The label of a message's open-tool button, the display name of
    the tool and the overlay that opens agree for every tool type: all
    three test the lower-cased type for flashcard, quiz, diagram and game
    in this order.  The choice does not depend on the case of the letters,
    and the display name of a type opens the same overlay as the type. *)
Theorem label_and_overlay_agree (toolType : string) :
  (Labels.getToolButtonText toolType, Panel.getToolDisplayName toolType)
  = match Labels.getOverlayContent toolType with
    | Labels.FlashcardOverlay => ("Open Flashcards", "Flashcards")
    | Labels.QuizOverlay => ("Open Quiz", "Quiz")
    | Labels.DiagramOverlay => ("Open Diagrams", "Diagrams")
    | Labels.GameOverlay => ("Open Game", "Games")
    | Labels.PlainOverlay => ("Open Tool", toolType)
    end%string
  /\ Labels.getOverlayContent (Js.toLowerCase toolType)
     = Labels.getOverlayContent toolType
  /\ Labels.getToolButtonText (Js.toLowerCase toolType)
     = Labels.getToolButtonText toolType
  /\ Labels.getOverlayContent (Panel.getToolDisplayName toolType)
     = Labels.getOverlayContent toolType.
Proof.
  unfold Labels.getToolButtonText, Panel.getToolDisplayName,
    Labels.getOverlayContent.
  rewrite !toLowerCase_idempotent.
  destruct (Js.includes "flashcard" (Js.toLowerCase toolType)) eqn:E1;
    [repeat split |].
  destruct (Js.includes "quiz" (Js.toLowerCase toolType)) eqn:E2;
    [repeat split |].
  destruct (Js.includes "diagram" (Js.toLowerCase toolType)) eqn:E3;
    [repeat split |].
  destruct (Js.includes "game" (Js.toLowerCase toolType)) eqn:E4;
    [repeat split |].
  repeat split. now rewrite E1, E2, E3, E4.
Qed.

(** X13.  A generated tool can always be opened from its message without a
    fetch: for an auto-generated request the mocked service answers with a
    tool type among game, diagram, flashcard and quiz, an id and a payload
    that is not empty, so the assistant message built from the answer holds
    a reference whose overlay is one of the four tool overlays, and a click
    on its open-tool button shows exactly that reference and leaves the
    messages alone.  For a request that is not auto-generated the message
    has no reference and the click does nothing. *)
Theorem generated_tool_opens_without_fetch
    (props : Panel.Props) (s : Panel.State) (now finished : Z)
    (content : string) (highlight : option Panel.Highlight) :
  let generated :=
    Panel.aiMessageOf finished (Panel.selectedModel s)
      (Panel.sendChatMessage props s now content true highlight) in
  let plain :=
    Panel.aiMessageOf finished (Panel.selectedModel s)
      (Panel.sendChatMessage props s now content false highlight) in
  (exists tr ty,
     Panel.toolResponse generated = Some tr
     /\ Panel.tool_type tr = Some ty
     /\ In ty ["game"; "diagram"; "flashcard"; "quiz"]%string
     /\ Labels.getOverlayContent ty <> Labels.PlainOverlay
     /\ Panel.toolUsed generated = Some ty
     /\ Panel.toolResponseId tr = Some ("mock-response-" ++ Js.toString now)%string
     /\ (0 < Panel.payloadLength (Panel.tool_content tr))%nat
     /\ forall st, Panel.handleOpenTool generated st
                   = Panel.set_activeOverlay (Some tr) st)
  /\ Panel.toolResponse plain = None
  /\ Panel.toolUsed plain = None
  /\ (forall st, Panel.handleOpenTool plain st = st).
Proof.
  cbv zeta. split; [| repeat split].
  unfold Panel.aiMessageOf, Panel.sendChatMessage, Panel.handleOpenTool. simpl.
  destruct (Js.includes "game" content);
    [| destruct (Js.includes "diagram" content);
       [| destruct (Js.includes "flashcard" content);
          [| destruct (Js.includes "quiz" content)]]];
    (eexists; eexists; split; [reflexivity |]; simpl;
     split; [reflexivity |];
     split; [simpl; tauto |];
     split; [discriminate |];
     split; [reflexivity |];
     split; [reflexivity |];
     split; [lia | reflexivity]).
Qed.

(** X14.  The mocked service picks the tool from the words of the request,
    not from the tool asked for: a direct generation on a selection that
    contains the word game, with the panel idle, is answered with the game
    tool and the game payload whatever tool type was requested. *)
Theorem selected_text_can_override_requested_tool
    (props : Panel.Props) (now : Z) (text0 context0 toolType : string)
    (s : Panel.State) :
  Panel.isLoading s = false ->
  Js.includes "game" text0 = true ->
  exists p r,
    snd (fst (Panel.handleDirectToolGeneration props now text0 context0 toolType s))
    = Some p
    /\ Panel.outcome p = Some r
    /\ Panel.r_tool_type r = Some "game"%string
    /\ Panel.tool_response r = Some (Panel.Texts Panel.gameTexts).
Proof.
  intros Hl Hg. unfold Panel.handleDirectToolGeneration.
  rewrite send_generated_with_highlight;
    [| apply direct_generation_message_not_blank | exact Hl].
  set (c := Panel.contentOf (Some _) s).
  assert (Hm : Js.includes "game" c = true).
  { subst c. change (Panel.contentOf (Some ?m) s) with m.
    do 4 apply includes_append_r. now apply includes_append_l. }
  clearbody c.
  eexists. eexists. split; [reflexivity |]. split; [reflexivity |].
  unfold Panel.sendChatMessage. simpl. rewrite Hm. split; reflexivity.
Qed.

Lemma selected_text_can_override_requested_tool_witness :
  exists p r,
    snd (fst (Panel.handleDirectToolGeneration
                {| Panel.chatSessionId := "session"; Panel.currentPage := 11;
                   Panel.tocData := None |}
                7 "game theory" "an introduction to game theory" "flashcard"
                Panel.initial))
    = Some p
    /\ Panel.outcome p = Some r
    /\ Panel.r_tool_type r = Some "game"%string
    /\ Panel.tool_response r = Some (Panel.Texts Panel.gameTexts).
Proof.
  apply (selected_text_can_override_requested_tool
           {| Panel.chatSessionId := "session"; Panel.currentPage := 11;
              Panel.tocData := None |}
           7 "game theory" "an introduction to game theory" "flashcard"
           Panel.initial); reflexivity.
Defined.

(** ** The message list *)

Section MessageList.

Import Panel.

Lemma sameTurn_refl (m : Message) : Turns.sameTurn m m.
Proof. repeat split. Qed.

Lemma sameTurn_backfill (i : string) (m : Message) :
  Turns.sameTurn m (backfill i m).
Proof.
  unfold backfill. destruct (toolResponse m) as [tr |] eqn:E;
    [| apply sameTurn_refl].
  destruct (sameId (toolResponseId tr) i); [| apply sameTurn_refl].
  unfold Turns.sameTurn. simpl. rewrite E. repeat split.
Qed.

Lemma Forall2_map_r {A : Type} (R : A -> A -> Prop) (f : A -> A) (l : list A) :
  (forall x, R x (f x)) -> Forall2 R l (map f l).
Proof.
  intros H. induction l; simpl; constructor; auto.
Qed.

Lemma Forall2_same {A : Type} (R : A -> A -> Prop) (l : list A) :
  (forall x, R x x) -> Forall2 R l l.
Proof.
  intros H. induction l; constructor; auto.
Qed.

Lemma messages_after_send
    (props : Props) (now : Z) (mc : option string) (ag : bool)
    (ov : option Highlight) (s : State) :
  messages (fst (handleSendMessage props now mc ag ov s)) = messages s
  \/ exists u, messages (fst (handleSendMessage props now mc ag ov s))
               = messages s ++ [u].
Proof.
  unfold handleSendMessage.
  destruct (negb (Js.truthy (Js.trim (contentOf mc s))) || isLoading s);
    [now left |].
  right. destruct ag, ov; eexists; reflexivity.
Qed.

Lemma messages_after_completion (p : Pending) (now : Z) (s : State) :
  messages (fst (handleSendMessage_completed p now s)) = messages s
  \/ exists a, messages (fst (handleSendMessage_completed p now s))
               = messages s ++ [a].
Proof.
  unfold handleSendMessage_completed. destruct (outcome p).
  - right. eexists. reflexivity.
  - now left.
Qed.

Lemma messages_after_toggleRecording (c : Capture) (b : bool) (s : State) :
  messages (fst (toggleRecording c b s)) = messages s.
Proof.
  unfold toggleRecording, stopRecording, startRecording, clearTimer.
  destruct (isRecording s).
  - destruct (mediaRecorderRef s); [| reflexivity].
    destruct b; simpl; destruct (recordingTimerRef s); reflexivity.
  - destruct c; reflexivity.
Qed.

Lemma messages_after_open (m : Message) (s : State) :
  messages (handleOpenTool m s) = messages s
  \/ exists i, messages (handleOpenTool m s) = map (backfill i) (messages s).
Proof.
  unfold handleOpenTool. destruct (toolResponse m) as [tr |]; [| now left].
  destruct (0 <? payloadLength (tool_content tr))%nat; [now left |].
  destruct (toolResponseId tr) as [i |]; [| now left].
  destruct (Js.truthy i); [| now left].
  right. exists i. reflexivity.
Qed.

End MessageList.

(** X15.  Within one mounted panel, every event other than the effect on
    the chat history keeps the messages it finds, in order, and appends at
    most one.  A kept message keeps its id, text, sender, time, model, tool
    name and highlight, and the type and id of its tool reference; only
    opening a tool can change anything in a kept message, namely the
    content of its tool reference.  The effect on the chat history replaces
    the list by the converted history, whatever it held; and when the
    layout changes between narrow and wide the panel is mounted anew, so
    that its list is the converted history (or the welcome message) alone
    and the messages sent before are gone. *)
Theorem messages_are_append_only
    (props : Panel.Props) (s : Panel.State) (e : Panel.Event) :
  ((forall converted, e <> Panel.HistoryEffect converted) ->
   exists kept tail,
     Panel.messages (Panel.stateOf (Panel.step props s e)) = kept ++ tail
     /\ (length tail <= 1)%nat
     /\ Forall2 Turns.sameTurn (Panel.messages s) kept
     /\ ((forall message, e <> Panel.OpenTool message) -> kept = Panel.messages s))
  /\ (forall converted,
        e = Panel.HistoryEffect converted ->
        Panel.messages (Panel.stateOf (Panel.step props s e)) = converted)
  /\ (forall wasMobile isMobile parseDate now history cleanupThrows,
        wasMobile <> isMobile ->
        Panel.messages
          (fst (Lifetime.relayout wasMobile isMobile props parseDate now history
                  cleanupThrows s))
        = Lifetime.converted parseDate now history
        /\ Lifetime.converted parseDate now history
           = match history with
             | Some h =>
                 match History.messages h with
                 | [] => [History.welcome now]
                 | turns => map (History.convertMessage parseDate) turns
                 end
             | None => [History.welcome now]
             end).
Proof.
  split; [| split].
  2: { intros converted ->. reflexivity. }
  2: { intros wasMobile isMobile parseDate now history cleanupThrows Hne.
       split.
       - unfold Lifetime.relayout.
         destruct (Bool.eqb wasMobile isMobile) eqn:E.
         + apply Bool.eqb_prop in E. contradiction.
         + reflexivity.
       - unfold Lifetime.converted, History.convertMessagesFromHistory.
         destruct history as [h |]; [| reflexivity].
         destruct (History.messages h); reflexivity. }
  intros Hnot.
  assert (Hsame : forall tail, (length tail <= 1)%nat ->
            exists kept tail0,
              Panel.messages s ++ tail = kept ++ tail0
              /\ (length tail0 <= 1)%nat
              /\ Forall2 Turns.sameTurn (Panel.messages s) kept
              /\ ((forall message, e <> Panel.OpenTool message) ->
                  kept = Panel.messages s)).
  { intros tail Hlen. exists (Panel.messages s), tail.
    repeat split; [exact Hlen | apply Forall2_same, sameTurn_refl]. }
  assert (Hgrow : forall l,
            (l = Panel.messages s \/ exists u, l = Panel.messages s ++ [u]) ->
            exists kept tail0,
              l = kept ++ tail0
              /\ (length tail0 <= 1)%nat
              /\ Forall2 Turns.sameTurn (Panel.messages s) kept
              /\ ((forall message, e <> Panel.OpenTool message) ->
                  kept = Panel.messages s)).
  { intros l [-> | [u ->]].
    - exists (Panel.messages s), []. rewrite app_nil_r.
      repeat split; [simpl; lia | apply Forall2_same, sameTurn_refl].
    - apply Hsame. simpl. lia. }
  unfold Panel.stateOf.
  destruct e; simpl; try (apply Hgrow; left; reflexivity).
  - apply Hgrow, messages_after_send.
  - pose proof (messages_after_completion p now s) as H.
    destruct (Panel.handleSendMessage_completed p now s). apply Hgrow, H.
  - apply Hgrow. unfold Panel.handleToolUse. apply messages_after_send.
  - apply Hgrow. unfold Panel.handleDirectToolGeneration. apply messages_after_send.
  - destruct (messages_after_open message s) as [H | [i H]]; rewrite H.
    + apply Hgrow. now left.
    + exists (map (Panel.backfill i) (Panel.messages s)), [].
      rewrite app_nil_r. repeat split; [simpl; lia | |].
      * apply Forall2_map_r. apply sameTurn_backfill.
      * intros Hno. exfalso. now apply (Hno message).
  - pose proof (messages_after_toggleRecording c stopThrows s) as H.
    destruct (Panel.toggleRecording c stopThrows s). apply Hgrow. now left.
  - exfalso. now apply (Hnot converted).
Qed.

Lemma messages_are_append_only_witness :
  let props := {| Panel.chatSessionId := "session"; Panel.currentPage := 11;
                  Panel.tocData := None |} in
  let s := Panel.set_inputValue "What is a heap?" Panel.initial in
  (exists kept tail,
     Panel.messages (Panel.stateOf (Panel.step props s (Panel.Send 7))) = kept ++ tail
     /\ (length tail <= 1)%nat
     /\ Forall2 Turns.sameTurn (Panel.messages s) kept
     /\ ((forall message, Panel.Send 7 <> Panel.OpenTool message) ->
         kept = Panel.messages s))
  /\ Panel.messages
       (fst (Lifetime.relayout false true props (fun _ => 0%Z) 5 None false
               (Panel.stateOf (Panel.step props s (Panel.Send 7)))))
     = [History.welcome 5].
Proof.
  cbv zeta. split.
  - apply (proj1 (messages_are_append_only
                    {| Panel.chatSessionId := "session"; Panel.currentPage := 11;
                       Panel.tocData := None |}
                    (Panel.set_inputValue "What is a heap?" Panel.initial)
                    (Panel.Send 7))).
    intros converted H. discriminate H.
  - apply (proj1 (proj2 (proj2 (messages_are_append_only
                    {| Panel.chatSessionId := "session"; Panel.currentPage := 11;
                       Panel.tocData := None |}
                    (Panel.stateOf
                       (Panel.step
                          {| Panel.chatSessionId := "session";
                             Panel.currentPage := 11; Panel.tocData := None |}
                          (Panel.set_inputValue "What is a heap?" Panel.initial)
                          (Panel.Send 7)))
                    Panel.CloseOverlay))
                  false true (fun _ => 0%Z) 5%Z None false
                  ltac:(discriminate))).
Defined.

(** ** Tool content fetched on demand *)

(** X16.  A message that refers to a tool by id without content is loaded
    on the first click and opened directly from then on: the click shows
    the fetched content in the overlay and stores it in every message with
    that id, keeping the number of messages and leaving the messages with
    another id or none as they are; a click on the message as stored then
    opens that same reference with no further change to the list.  A
    reference without content and without id cannot be opened. *)
Theorem tool_content_is_fetched_once
    (m : Panel.Message) (tr : Panel.ToolRef) (s : Panel.State) :
  Panel.toolResponse m = Some tr ->
  Panel.payloadLength (Panel.tool_content tr) = 0%nat ->
  (forall i, Panel.toolResponseId tr = Some i -> Js.truthy i = true ->
     let s' := Panel.handleOpenTool m s in
     let loaded := {| Panel.tool_type := Panel.tool_type tr;
                      Panel.tool_content := Panel.Texts Panel.mockToolResponse;
                      Panel.toolResponseId := Some i |} in
     Panel.activeOverlay s' = Some loaded
     /\ Panel.messages s' = map (Panel.backfill i) (Panel.messages s)
     /\ length (Panel.messages s') = length (Panel.messages s)
     /\ Panel.toolResponse (Panel.backfill i m) = Some loaded
     /\ (In m (Panel.messages s) -> In (Panel.backfill i m) (Panel.messages s'))
     /\ (forall st, Panel.handleOpenTool (Panel.backfill i m) st
                    = Panel.set_activeOverlay (Some loaded) st)
     /\ (forall other,
           (forall tr2, Panel.toolResponse other = Some tr2 ->
                        Panel.toolResponseId tr2 <> Some i) ->
           Panel.backfill i other = other))
  /\ (Js.orElse (Panel.toolResponseId tr) None = None ->
      Panel.handleOpenTool m s = s).
Proof.
  intros Hm Hlen. split.
  - intros i Hi Ht. cbv zeta.
    assert (Hopen : Panel.handleOpenTool m s
                    = Panel.loadToolResponse i (Panel.tool_type tr) s).
    { unfold Panel.handleOpenTool. now rewrite Hm, Hlen, Hi, Ht. }
    assert (Hback : Panel.toolResponse (Panel.backfill i m)
                    = Some {| Panel.tool_type := Panel.tool_type tr;
                              Panel.tool_content := Panel.Texts Panel.mockToolResponse;
                              Panel.toolResponseId := Some i |}).
    { unfold Panel.backfill. rewrite Hm, Hi. simpl. now rewrite String.eqb_refl. }
    rewrite Hopen. split; [reflexivity |]. split; [reflexivity |].
    split; [apply length_map |]. split; [exact Hback |].
    split; [apply in_map |]. split.
    + intros st. unfold Panel.handleOpenTool. rewrite Hback. reflexivity.
    + intros other Hother. unfold Panel.backfill.
      destruct (Panel.toolResponse other) as [tr2 |] eqn:E; [| reflexivity].
      specialize (Hother tr2 eq_refl).
      destruct (Panel.toolResponseId tr2) as [j |]; [| reflexivity].
      simpl. destruct (String.eqb_spec j i); [subst; congruence | reflexivity].
  - intros Hnone. unfold Panel.handleOpenTool. rewrite Hm, Hlen. simpl.
    destruct (Panel.toolResponseId tr) as [i |]; [| reflexivity].
    simpl in Hnone. destruct (Js.truthy i); [discriminate | reflexivity].
Qed.

Lemma tool_content_is_fetched_once_witness :
  let tr := {| Panel.tool_type := Some "diagram"%string;
               Panel.tool_content := Panel.Texts [];
               Panel.toolResponseId := Some "f97c7715"%string |} in
  let m := {| Panel.msg_id := "48743bba"; Panel.msg_content := "a block is";
              Panel.sender := Panel.ai; Panel.timestamp := 0;
              Panel.model := None; Panel.toolUsed := Some "diagram"%string;
              Panel.toolResponse := Some tr; Panel.highlightedText := None |} in
  Panel.activeOverlay
    (Panel.handleOpenTool m (Panel.set_messages [m] Panel.initial))
  = Some {| Panel.tool_type := Some "diagram"%string;
            Panel.tool_content := Panel.Texts Panel.mockToolResponse;
            Panel.toolResponseId := Some "f97c7715"%string |}.
Proof.
  cbv zeta.
  apply (proj1 (tool_content_is_fetched_once
                  {| Panel.msg_id := "48743bba"; Panel.msg_content := "a block is";
                     Panel.sender := Panel.ai; Panel.timestamp := 0;
                     Panel.model := None; Panel.toolUsed := Some "diagram"%string;
                     Panel.toolResponse :=
                       Some {| Panel.tool_type := Some "diagram"%string;
                               Panel.tool_content := Panel.Texts [];
                               Panel.toolResponseId := Some "f97c7715"%string |};
                     Panel.highlightedText := None |}
                  (Panel.set_messages
                     [{| Panel.msg_id := "48743bba"; Panel.msg_content := "a block is";
                         Panel.sender := Panel.ai; Panel.timestamp := 0;
                         Panel.model := None; Panel.toolUsed := Some "diagram"%string;
                         Panel.toolResponse :=
                           Some {| Panel.tool_type := Some "diagram"%string;
                                   Panel.tool_content := Panel.Texts [];
                                   Panel.toolResponseId := Some "f97c7715"%string |};
                         Panel.highlightedText := None |}]
                     Panel.initial) eq_refl eq_refl)
           "f97c7715"%string eq_refl eq_refl).
Defined.

(** ** Recording *)

Section Recording.

Import Panel.






End Recording.



(** ** From a highlight to a question *)

(** X18.  A highlight routed into the compose box and then sent with Enter,
    the panel being idle, becomes one user message whose text asks to
    explain the quoted selection and which carries the selection and its
    context; the compose box and the context are cleared and the pending
    flag is set.  The answer of the mocked service has no tool and refers
    to the selection with the page of the panel and the section and chapter
    current on that page. *)
Theorem highlight_then_enter_asks_about_it
    (props : Panel.Props) (now : Z) (text0 context0 : string) (s : Panel.State) :
  Panel.isLoading s = false ->
  let asked := Panel.handleHighlightedText text0 context0 s in
  let sent := Panel.handleSendMessage props now None false None asked in
  let here := {| Panel.text := text0; Panel.context_of := context0 |} in
  exists u p r,
    snd sent = Some p
    /\ Panel.outcome p = Some r
    /\ Panel.messages (fst sent) = Panel.messages s ++ [u]
    /\ Panel.sender u = Panel.user
    /\ Panel.msg_content u
       = ("Please explain: " ++ Js.dquote ++ text0 ++ Js.dquote)%string
    /\ Panel.highlightedText u = Some here
    /\ Panel.inputValue (fst sent) = EmptyString
    /\ Panel.contextText (fst sent) = None
    /\ Panel.isLoading (fst sent) = true
    /\ Panel.tool_response r = None
    /\ Panel.highlighted_text r
       = Some {| Panel.h_text := text0; Panel.h_context := context0;
                 Panel.h_page := Panel.currentPage props;
                 Panel.h_chapter_id := Panel.chapterId (Panel.getCurrentContext props);
                 Panel.h_section_id := Panel.sectionId (Panel.getCurrentContext props) |}.
Proof.
  intros Hl. cbv zeta. unfold Panel.handleSendMessage.
  assert (Hc : Panel.contentOf None (Panel.handleHighlightedText text0 context0 s)
               = ("Please explain: " ++ Js.dquote ++ text0 ++ Js.dquote)%string)
    by reflexivity.
  rewrite Hc.
  assert (Hb : Js.truthy
                 (Js.trim ("Please explain: " ++ Js.dquote ++ text0 ++ Js.dquote)%string)
               = true).
  { change ("Please explain: " ++ ?x)%string
      with (String "P" ("lease explain: " ++ x)%string).
    now apply trim_head_not_blank. }
  rewrite Hb. simpl negb. simpl orb.
  change (Panel.isLoading (Panel.handleHighlightedText text0 context0 s))
    with (Panel.isLoading s).
  rewrite Hl. cbn [negb].
  eexists. eexists. eexists. cbn [fst snd].
  split; [reflexivity |]. split; [reflexivity |]. repeat split.
Qed.

Lemma highlight_then_enter_asks_about_it_witness :
  exists u,
    Panel.messages
      (fst (Panel.handleSendMessage
              {| Panel.chatSessionId := "session"; Panel.currentPage := 11;
                 Panel.tocData := Some Spec.scenarioToc |}
              7 None false None
              (Panel.handleHighlightedText "heap" "A binary heap is a tree."
                 Panel.initial)))
    = [u]
    /\ Panel.highlightedText u
       = Some {| Panel.text := "heap";
                 Panel.context_of := "A binary heap is a tree." |}.
Proof.
  destruct (highlight_then_enter_asks_about_it
              {| Panel.chatSessionId := "session"; Panel.currentPage := 11;
                 Panel.tocData := Some Spec.scenarioToc |}
              7 "heap" "A binary heap is a tree." Panel.initial eq_refl)
    as (u & p & r & _ & _ & Hm & _ & _ & Hh & _).
  exists u. split; [exact Hm | exact Hh].
Defined.

(** ** The restored history *)

(** X19.  Restoring a chat history keeps the turns in order with their ids
    and texts.  A turn that names a tool response and a tool type comes
    back with a reference that has that type and id and no content, so the
    first click on it goes through the fetch and shows the fetched content;
    a turn that lacks either has no reference.  Without a history, or with
    an empty one, the list is the single welcome message of the assistant. *)
Theorem restored_history_opens_by_fetch
    (parseDate : string -> Z) (now : Z) (history : option History.ChatHistory)
    (s : Panel.State) :
  let s' := History.convertMessagesFromHistory parseDate now history s in
  ((history = None \/ exists h, history = Some h /\ History.messages h = []) ->
   Panel.messages s' = [History.welcome now])
  /\ (forall h, history = Some h -> History.messages h <> [] ->
        map Panel.msg_id (Panel.messages s') = map History.id (History.messages h)
        /\ map Panel.msg_content (Panel.messages s')
           = map History.content (History.messages h)
        /\ forall msg, In msg (History.messages h) ->
             let m := History.convertMessage parseDate msg in
             In m (Panel.messages s')
             /\ (forall i ty,
                   History.tool_response_id msg = Some i ->
                   History.tool_type msg = Some ty ->
                   i <> EmptyString -> ty <> EmptyString ->
                   Panel.toolResponse m
                   = Some {| Panel.tool_type := Some ty;
                             Panel.tool_content := Panel.Texts [];
                             Panel.toolResponseId := Some i |}
                   /\ Panel.activeOverlay (Panel.handleOpenTool m s')
                      = Some {| Panel.tool_type := Some ty;
                                Panel.tool_content := Panel.Texts Panel.mockToolResponse;
                                Panel.toolResponseId := Some i |})
             /\ (History.bothTruthy (History.tool_response_id msg)
                   (History.tool_type msg) = None ->
                 Panel.toolResponse m = None
                 /\ Panel.handleOpenTool m s' = s')).
Proof.
  cbv zeta. unfold History.convertMessagesFromHistory. split.
  - intros [-> | (h & -> & E)]; [reflexivity |]. now rewrite E.
  - intros h -> Hne.
    assert (Hlen : (0 <? length (History.messages h))%nat = true).
    { destruct (History.messages h); [contradiction | reflexivity]. }
    rewrite Hlen. cbn [Panel.messages Panel.set_messages].
    split; [now rewrite map_map |]. split; [now rewrite map_map |].
    intros msg Hin. cbv zeta. split; [now apply in_map |]. split.
    + intros i ty Hi Hty Hin0 Hty0.
      assert (Hb : History.bothTruthy (History.tool_response_id msg)
                     (History.tool_type msg) = Some (i, ty)).
      { unfold History.bothTruthy. rewrite Hi, Hty.
        destruct i; [contradiction |]. destruct ty; [contradiction |]. reflexivity. }
      assert (Hr : Panel.toolResponse (History.convertMessage parseDate msg)
                   = Some {| Panel.tool_type := Some ty;
                             Panel.tool_content := Panel.Texts [];
                             Panel.toolResponseId := Some i |}).
      { unfold History.convertMessage. simpl. now rewrite Hb. }
      split; [exact Hr |].
      unfold Panel.handleOpenTool. rewrite Hr. simpl.
      destruct i; [contradiction | reflexivity].
    + intros Hb. unfold Panel.handleOpenTool, History.convertMessage. simpl.
      rewrite Hb. split; reflexivity.
Qed.

Lemma restored_history_opens_by_fetch_witness :
  let turn := {| History.id := "48743bba"; History.chat_session_id := "8bb10527";
                 History.role := History.role_assistant;
                 History.content := "In the context of DDS, a block is";
                 History.model_id := Some "d50a33ce"%string;
                 History.tool_response_id := Some "f97c7715"%string;
                 History.tool_type := Some "diagram"%string;
                 History.created_at := "2025-07-18T00:18:57" |} in
  let h := {| History.history_session_id := "8bb10527";
              History.messages := [turn] |} in
  map Panel.msg_id
    (Panel.messages
       (History.convertMessagesFromHistory (fun _ => 0%Z) 7 (Some h) Panel.initial))
  = ["48743bba"%string].
Proof.
  cbv zeta.
  apply (proj2 (restored_history_opens_by_fetch (fun _ => 0%Z) 7
                  (Some {| History.history_session_id := "8bb10527";
                           History.messages :=
                             [{| History.id := "48743bba";
                                 History.chat_session_id := "8bb10527";
                                 History.role := History.role_assistant;
                                 History.content := "In the context of DDS, a block is";
                                 History.model_id := Some "d50a33ce"%string;
                                 History.tool_response_id := Some "f97c7715"%string;
                                 History.tool_type := Some "diagram"%string;
                                 History.created_at := "2025-07-18T00:18:57" |}] |})
                  Panel.initial) _ eq_refl).
  discriminate.
Defined.

(** ** Flashcards and diagrams *)

Section Cyclic.

Import Overlays.
Local Open Scope Z_scope.

Lemma nextIndex_in_range (n i : Z) : 0 <= i < n -> 0 <= nextIndex n i < n.
Proof.
  intros H. unfold nextIndex. apply Z.rem_bound_pos; lia.
Qed.

Lemma prevIndex_in_range (n i : Z) : 0 <= i < n -> 0 <= prevIndex n i < n.
Proof.
  intros H. unfold prevIndex. apply Z.rem_bound_pos; lia.
Qed.

Lemma nextIndex_mod (n i : Z) : 0 <= i < n -> nextIndex n i = (i + 1) mod n.
Proof.
  intros H. unfold nextIndex. apply Z.rem_mod_nonneg; lia.
Qed.

Lemma prev_after_next (n i : Z) : 0 <= i < n -> prevIndex n (nextIndex n i) = i.
Proof.
  intros H. unfold prevIndex. rewrite nextIndex_mod by exact H.
  assert (Hb : 0 <= (i + 1) mod n < n) by (apply Z.mod_pos_bound; lia).
  rewrite Z.rem_mod_nonneg by lia.
  destruct (Z.eq_dec (i + 1) n) as [E | E].
  - rewrite E, Z.mod_same by lia. replace (0 - 1 + n) with (n - 1) by lia.
    rewrite Z.mod_small; lia.
  - rewrite (Z.mod_small (i + 1)) by lia.
    replace (i + 1 - 1 + n) with (i + 1 * n) by lia.
    rewrite Z.mod_add by lia. apply Z.mod_small. lia.
Qed.

Lemma next_after_prev (n i : Z) : 0 <= i < n -> nextIndex n (prevIndex n i) = i.
Proof.
  intros H. unfold prevIndex. rewrite (Z.rem_mod_nonneg (i - 1 + n)) by lia.
  assert (Hb : 0 <= (i - 1 + n) mod n < n) by (apply Z.mod_pos_bound; lia).
  rewrite nextIndex_mod by exact Hb.
  destruct (Z.eq_dec i 0) as [E | E].
  - subst i. replace (0 - 1 + n) with (n - 1) by lia.
    rewrite (Z.mod_small (n - 1)) by lia.
    replace (n - 1 + 1) with n by lia. apply Z.mod_same. lia.
  - replace (i - 1 + n) with (i - 1 + 1 * n) by lia.
    rewrite Z.mod_add by lia. rewrite (Z.mod_small (i - 1)) by lia.
    replace (i - 1 + 1) with i by lia. apply Z.mod_small. lia.
Qed.

Lemma nextIndex_iterated (n i : Z) (k : nat) :
  0 <= i < n ->
  Nat.iter k (nextIndex n) i = (i + Z.of_nat k) mod n.
Proof.
  intros H. induction k as [| k IH].
  - simpl. rewrite Z.add_0_r. symmetry. apply Z.mod_small. lia.
  - rewrite Nat.iter_succ, IH.
    assert (Hb : 0 <= (i + Z.of_nat k) mod n < n) by (apply Z.mod_pos_bound; lia).
    rewrite nextIndex_mod by exact Hb.
    rewrite Z.add_mod_idemp_l by lia. f_equal. lia.
Qed.

Lemma flashcardStep_in_range (cards : list Card) (s : FlashcardState)
    (e : FlashcardEvent) :
  0 <= currentCard s < Z.of_nat (length cards) ->
  0 <= currentCard (flashcardStep cards s e) < Z.of_nat (length cards).
Proof.
  intros H. unfold flashcardStep.
  destruct (Z.eqb_spec (Z.of_nat (length cards)) 0) as [E | E]; [lia |].
  destruct e; simpl; [now apply nextIndex_in_range | now apply prevIndex_in_range | exact H].
Qed.

End Cyclic.

(** X20.  The flashcard overlay always has a current card: with a deck that
    is not empty and an index inside it (it starts at 0), no sequence of
    next, previous and flip takes the index outside the deck, so the card
    to show and its text for the clipboard exist.  With an empty deck next
    and previous do nothing. *)
Theorem flashcard_index_stays_in_deck
    (cards : list Overlays.Card) (s : Overlays.FlashcardState)
    (es : list Overlays.FlashcardEvent) :
  (cards <> [] ->
   (0 <= Overlays.currentCard s < Z.of_nat (length cards))%Z ->
   let s' := fold_left (Overlays.flashcardStep cards) es s in
   (0 <= Overlays.currentCard s' < Z.of_nat (length cards))%Z
   /\ exists c,
        Overlays.currentCardData cards s' = Some c
        /\ In c cards
        /\ Overlays.cardText cards s'
           = Some ("Q: " ++ Overlays.front c ++ Panel.nl ++ "A: "
                   ++ Overlays.back c)%string)
  /\ (cards = [] ->
      Overlays.flashcardStep cards s Overlays.CardNext = s
      /\ Overlays.flashcardStep cards s Overlays.CardPrev = s
      /\ Overlays.cardText cards s = None).
Proof.
  split.
  - intros Hne Hin. cbv zeta.
    assert (Hr : (0 <= Overlays.currentCard
                         (fold_left (Overlays.flashcardStep cards) es s)
                  < Z.of_nat (length cards))%Z).
    { revert s Hin. induction es as [| e es IH]; intros s Hin; simpl; [exact Hin |].
      apply IH. now apply flashcardStep_in_range. }
    split; [exact Hr |].
    destruct (@at_index_in_bounds _ cards _ Hr) as [c Hc].
    exists c. unfold Overlays.cardText, Overlays.currentCardData. rewrite Hc.
    split; [reflexivity |]. split.
    + unfold Reader.at_index in Hc.
      destruct (Overlays.currentCard (fold_left (Overlays.flashcardStep cards) es s) <? 0)%Z;
        [discriminate |].
      now apply nth_error_In in Hc.
    + destruct cards; [contradiction | reflexivity].
  - intros ->. repeat split.
Qed.

Lemma flashcard_index_stays_in_deck_witness :
  (0 <= Overlays.currentCard
          (fold_left (Overlays.flashcardStep (Overlays.cardsOf Panel.flashCards))
             [Overlays.CardPrev; Overlays.CardFlip; Overlays.CardPrev;
              Overlays.CardNext; Overlays.CardNext; Overlays.CardNext]
             Overlays.flashcardInitial)
   < 5)%Z.
Proof.
  apply (proj1 (flashcard_index_stays_in_deck
                  (Overlays.cardsOf Panel.flashCards) Overlays.flashcardInitial
                  [Overlays.CardPrev; Overlays.CardFlip; Overlays.CardPrev;
                   Overlays.CardNext; Overlays.CardNext; Overlays.CardNext])).
  - discriminate.
  - vm_compute. split; [discriminate | reflexivity].
Defined.

(** X21.  Flashcard navigation is a cycle: inside the deck, next followed
    by previous and previous followed by next come back to the same card,
    as many nexts as there are cards come back to it too, and each of them
    turns the card face up. *)
Theorem flashcard_navigation_is_a_cycle
    (cards : list Overlays.Card) (s : Overlays.FlashcardState) :
  (0 <= Overlays.currentCard s < Z.of_nat (length cards))%Z ->
  let next st := Overlays.flashcardStep cards st Overlays.CardNext in
  let prev st := Overlays.flashcardStep cards st Overlays.CardPrev in
  prev (next s) = {| Overlays.currentCard := Overlays.currentCard s;
                     Overlays.isFlipped := false |}
  /\ next (prev s) = {| Overlays.currentCard := Overlays.currentCard s;
                        Overlays.isFlipped := false |}
  /\ Overlays.currentCard (Nat.iter (length cards) next s) = Overlays.currentCard s
  /\ (Overlays.currentCard (next s) = Overlays.currentCard s <-> length cards = 1%nat).
Proof.
  intros H next prev. subst next prev. unfold Overlays.flashcardStep.
  destruct (Z.eqb_spec (Z.of_nat (length cards)) 0) as [E | E]; [lia |].
  simpl. split; [| split; [| split]].
  - f_equal. now apply prev_after_next.
  - f_equal. now apply next_after_prev.
  - assert (Hk : forall k st,
              (0 <= Overlays.currentCard st < Z.of_nat (length cards))%Z ->
              Overlays.currentCard
                (Nat.iter k
                   (fun st0 =>
                      {| Overlays.currentCard :=
                           Overlays.nextIndex (Z.of_nat (length cards))
                             (Overlays.currentCard st0);
                         Overlays.isFlipped := false |}) st)
              = Nat.iter k (Overlays.nextIndex (Z.of_nat (length cards)))
                  (Overlays.currentCard st)).
    { induction k as [| k IH]; intros st Hst; [reflexivity |].
      rewrite !Nat.iter_succ. simpl. now rewrite IH. }
    rewrite Hk by exact H. rewrite nextIndex_iterated by exact H.
    replace (Overlays.currentCard s + Z.of_nat (length cards))%Z
      with (Overlays.currentCard s + 1 * Z.of_nat (length cards))%Z by lia.
    rewrite Z.mod_add by lia. apply Z.mod_small. exact H.
  - rewrite nextIndex_mod by exact H.
    destruct (Z.eq_dec (Overlays.currentCard s + 1) (Z.of_nat (length cards)))
      as [E1 | E1].
    + rewrite E1, Z.mod_same by lia. lia.
    + rewrite Z.mod_small by lia. lia.
Qed.

Lemma flashcard_navigation_is_a_cycle_witness :
  Overlays.flashcardStep (Overlays.cardsOf Panel.flashCards)
    (Overlays.flashcardStep (Overlays.cardsOf Panel.flashCards)
       {| Overlays.currentCard := 4; Overlays.isFlipped := true |}
       Overlays.CardNext)
    Overlays.CardPrev
  = {| Overlays.currentCard := 4; Overlays.isFlipped := false |}.
Proof.
  apply (proj1 (flashcard_navigation_is_a_cycle
                  (Overlays.cardsOf Panel.flashCards)
                  {| Overlays.currentCard := 4; Overlays.isFlipped := true |}
                  ltac:(vm_compute; split; [discriminate | reflexivity]))).
Defined.

(** X22.  The diagram overlay never shows a blank diagram: the diagrams it
    keeps are the entries that are not blank once trimmed, and when there
    is one, the current index (it starts at 0) stays inside them under any
    sequence of next and previous, so the diagram shown exists, comes from
    the content and is not blank. *)
Theorem diagram_shown_is_never_blank
    (content : list string) (es : list Overlays.DiagramEvent) :
  let diagrams := Overlays.diagramsOf content in
  (forall d, In d diagrams <-> In d content /\ Js.trim d <> EmptyString)
  /\ (diagrams <> [] ->
      let current := fold_left (Overlays.diagramStep diagrams) es 0%Z in
      (0 <= current < Z.of_nat (length diagrams))%Z
      /\ exists d, Reader.at_index diagrams current = Some d
                   /\ In d content /\ Js.trim d <> EmptyString).
Proof.
  cbv zeta.
  assert (Hin : forall d, In d (Overlays.diagramsOf content)
                          <-> In d content /\ Js.trim d <> EmptyString).
  { intros d. unfold Overlays.diagramsOf. rewrite filter_In.
    destruct (Js.trim d); simpl; split; intros [H1 H2]; split;
      try assumption; try discriminate; try reflexivity.
    now contradiction H2. }
  split; [exact Hin |]. intros Hne.
  assert (Hpos : (0 < Z.of_nat (length (Overlays.diagramsOf content)))%Z).
  { destruct (Overlays.diagramsOf content); [contradiction | simpl; lia]. }
  assert (Hr : forall i,
            (0 <= i < Z.of_nat (length (Overlays.diagramsOf content)))%Z ->
            (0 <= fold_left (Overlays.diagramStep (Overlays.diagramsOf content)) es i
             < Z.of_nat (length (Overlays.diagramsOf content)))%Z).
  { induction es as [| e es IH]; intros i Hi; simpl; [exact Hi |].
    apply IH. unfold Overlays.diagramStep.
    destruct (Z.eqb_spec (Z.of_nat (length (Overlays.diagramsOf content))) 0);
      [lia |].
    destruct e; [now apply nextIndex_in_range | now apply prevIndex_in_range]. }
  specialize (Hr 0%Z ltac:(lia)). split; [exact Hr |].
  destruct (@at_index_in_bounds _ _ _ Hr) as [d Hd]. exists d.
  split; [exact Hd |]. apply Hin.
  unfold Reader.at_index in Hd.
  destruct (fold_left (Overlays.diagramStep (Overlays.diagramsOf content)) es 0 <? 0)%Z;
    [discriminate |].
  now apply nth_error_In in Hd.
Qed.

Lemma diagram_shown_is_never_blank_witness :
  exists d,
    Reader.at_index (Overlays.diagramsOf ("  " :: Panel.diagramTexts)%string)
      (fold_left (Overlays.diagramStep
                    (Overlays.diagramsOf ("  " :: Panel.diagramTexts)%string))
         [Overlays.DiagramPrev; Overlays.DiagramPrev; Overlays.DiagramNext] 0%Z)
    = Some d
    /\ Js.trim d <> EmptyString.
Proof.
  destruct (proj2 (diagram_shown_is_never_blank
                     ("  " :: Panel.diagramTexts)%string
                     [Overlays.DiagramPrev; Overlays.DiagramPrev;
                      Overlays.DiagramNext])
              ltac:(discriminate)) as (_ & d & Hd & _ & Hb).
  exists d. split; [exact Hd | exact Hb].
Defined.

(** ** The quiz *)

Section Quiz.

Import Overlays.

Lemma currentQuestions_chunk (qs : list Panel.QuizQuestion) (p : nat) :
  currentQuestions qs p = firstn 2 (skipn (2 * p) qs).
Proof.
  unfold currentQuestions, slice, questionsPerPage.
  replace ((p + 1) * 2 - p * 2)%nat with 2%nat by lia.
  now replace (p * 2)%nat with (2 * p)%nat by lia.
Qed.

Lemma totalPages_two_more (a b : Panel.QuizQuestion) (qs : list Panel.QuizQuestion) :
  totalPages (a :: b :: qs) = S (totalPages qs).
Proof.
  unfold totalPages. simpl length.
  replace (S (S (length qs)) + 1)%nat with (length qs + 1 + 1 * 2)%nat by lia.
  rewrite Nat.div_add by lia. lia.
Qed.

Lemma pages_cover (n : nat) :
  forall qs : list Panel.QuizQuestion,
    (length qs <= n)%nat ->
    concat (map (currentQuestions qs) (seq 0 (totalPages qs))) = qs.
Proof.
  induction n as [| n IH]; intros qs Hlen.
  - destruct qs; [reflexivity | simpl in Hlen; lia].
  - destruct qs as [| a [| b qs]]; [reflexivity | reflexivity |].
    rewrite totalPages_two_more.
    change (seq 0 (S (totalPages qs))) with (0%nat :: seq 1 (totalPages qs)).
    rewrite <- seq_shift, map_cons, map_map. simpl concat.
    f_equal. f_equal.
    transitivity (concat (map (currentQuestions qs) (seq 0 (totalPages qs))));
      [| apply IH; simpl in Hlen; lia].
    reflexivity.
Qed.

Lemma page_size (qs : list Panel.QuizQuestion) (p : nat) :
  (p < totalPages qs)%nat ->
  (1 <= length (currentQuestions qs p) <= 2)%nat.
Proof.
  intros H. rewrite currentQuestions_chunk.
  rewrite length_firstn, length_skipn. unfold totalPages in H.
  assert (2 * p < length qs)%nat.
  { destruct (Nat.lt_ge_cases (2 * p) (length qs)) as [Hlt | Hge]; [exact Hlt |].
    exfalso. assert ((length qs + 1) / 2 < S p)%nat; [| lia].
    apply Nat.Div0.div_lt_upper_bound. lia. }
  lia.
Qed.

Lemma page_beyond (qs : list Panel.QuizQuestion) (p : nat) :
  (totalPages qs <= p)%nat -> currentQuestions qs p = [].
Proof.
  intros H. rewrite currentQuestions_chunk. rewrite skipn_all2; [reflexivity |].
  unfold totalPages in H.
  pose proof (Nat.div_mod_eq (length qs + 1) 2) as Hd.
  pose proof (Nat.mod_upper_bound (length qs + 1) 2 ltac:(lia)). lia.
Qed.

Lemma quizStep_page_in_range (qs : list Panel.QuizQuestion) (s : QuizState)
    (e : QuizEvent) :
  (currentPage s < totalPages qs)%nat ->
  (currentPage (quizStep qs s e) < totalPages qs)%nat.
Proof.
  intros H. destruct e; simpl.
  - exact H.
  - unfold handleSubmitQuestion.
    destruct (find _ qs); [| exact H].
    destruct (Js.orElse _ None); exact H.
  - unfold quizNext.
    destruct (Z.ltb_spec (Z.of_nat (currentPage s)) (Z.of_nat (totalPages qs) - 1));
      simpl; lia.
  - unfold quizPrev. destruct (Nat.ltb_spec 0 (currentPage s)); simpl; lia.
Qed.

End Quiz.

(** X23.  The quiz pages split the questions two by two: the pages from 0
    to [totalPages - 1], one after the other, give back the list of
    questions, each of these pages shows one or two questions, and a page
    from [totalPages] on shows none. *)
Theorem quiz_pages_partition_the_questions (questions : list Panel.QuizQuestion) :
  concat (map (Overlays.currentQuestions questions)
            (seq 0 (Overlays.totalPages questions)))
  = questions
  /\ (forall p, (p < Overlays.totalPages questions)%nat ->
        (1 <= length (Overlays.currentQuestions questions p) <= 2)%nat)
  /\ (forall p, (Overlays.totalPages questions <= p)%nat ->
        Overlays.currentQuestions questions p = [])
  /\ (Overlays.totalPages questions = 0%nat <-> questions = []).
Proof.
  split; [apply (@pages_cover (length questions)); lia |].
  split; [intros p; apply page_size |].
  split; [intros p; apply page_beyond |].
  unfold Overlays.totalPages. destruct questions as [| q qs]; [easy |].
  split; [| discriminate]. simpl length. intros H. exfalso.
  pose proof (Nat.div_mod_eq (S (length qs) + 1) 2) as Hd.
  pose proof (Nat.mod_upper_bound (S (length qs) + 1) 2 ltac:(lia)). lia.
Qed.

(** X24.  A quiz that has questions always shows some: starting on a page
    below [totalPages] (the first is 0), no sequence of selecting, submitting
    and paging leaves that range, so the page in view holds one or two
    questions; next on the last page and previous on the first do nothing. *)
Theorem quiz_page_in_view_is_never_empty
    (questions : list Panel.QuizQuestion) (s : Overlays.QuizState)
    (es : list Overlays.QuizEvent) :
  (Overlays.currentPage s < Overlays.totalPages questions)%nat ->
  let s' := Overlays.quizAll questions s es in
  (Overlays.currentPage s' < Overlays.totalPages questions)%nat
  /\ (1 <= length (Overlays.currentQuestions questions (Overlays.currentPage s'))
      <= 2)%nat
  /\ (Overlays.currentPage s' = (Overlays.totalPages questions - 1)%nat ->
      Overlays.quizNext questions s' = s')
  /\ (Overlays.currentPage s' = 0%nat -> Overlays.quizPrev s' = s').
Proof.
  intros H. cbv zeta.
  assert (Hr : (Overlays.currentPage (Overlays.quizAll questions s es)
                < Overlays.totalPages questions)%nat).
  { unfold Overlays.quizAll. revert s H.
    induction es as [| e es IH]; intros s H; simpl; [exact H |].
    apply IH. now apply quizStep_page_in_range. }
  split; [exact Hr |]. split; [now apply page_size |]. split.
  - intros E. unfold Overlays.quizNext.
    destruct (Z.ltb_spec
                (Z.of_nat (Overlays.currentPage (Overlays.quizAll questions s es)))
                (Z.of_nat (Overlays.totalPages questions) - 1)); [lia | reflexivity].
  - intros E. unfold Overlays.quizPrev. now rewrite E.
Qed.

Lemma quiz_page_in_view_is_never_empty_witness :
  (1 <= length
          (Overlays.currentQuestions Panel.quizQuestions
             (Overlays.currentPage
                (Overlays.quizAll Panel.quizQuestions Overlays.quizInitial
                   [Overlays.QuizNext; Overlays.QuizNext; Overlays.QuizNext;
                    Overlays.QuizNext])))
   <= 2)%nat.
Proof.
  apply (quiz_page_in_view_is_never_empty Panel.quizQuestions Overlays.quizInitial
           [Overlays.QuizNext; Overlays.QuizNext; Overlays.QuizNext;
            Overlays.QuizNext]).
  vm_compute. lia.
Defined.

(** ** Quiz answers *)

Section Answers.

Import Overlays.

Lemma lookup_assign_same {A : Type} (k : string) (v : A) (d : Dict A) :
  lookup k (assign k v d) = Some v.
Proof.
  induction d as [| [k' v'] d IH]; simpl.
  - now rewrite String.eqb_refl.
  - destruct (String.eqb_spec k' k) as [E | E]; simpl.
    + now rewrite String.eqb_refl.
    + destruct (String.eqb_spec k' k); [contradiction | exact IH].
Qed.

Lemma lookup_assign_other {A : Type} (k k0 : string) (v : A) (d : Dict A) :
  k0 <> k -> lookup k0 (assign k v d) = lookup k0 d.
Proof.
  intros Hne. induction d as [| [k' v'] d IH]; simpl.
  - destruct (String.eqb_spec k k0); [congruence | reflexivity].
  - destruct (String.eqb_spec k' k) as [E | E]; simpl.
    + subst k'. destruct (String.eqb_spec k k0); [congruence | reflexivity].
    + destruct (String.eqb_spec k' k0); [reflexivity | exact IH].
Qed.

Lemma keys_assign_in {A : Type} (k k0 : string) (v : A) (d : Dict A) :
  In k0 (keys (assign k v d)) <-> k0 = k \/ In k0 (keys d).
Proof.
  unfold keys. induction d as [| [k' v'] d IH]; simpl.
  - intuition.
  - destruct (String.eqb_spec k' k) as [E | E]; simpl.
    + subst k'. intuition.
    + rewrite IH. intuition.
Qed.

Lemma keys_assign_NoDup {A : Type} (k : string) (v : A) (d : Dict A) :
  NoDup (keys d) -> NoDup (keys (assign k v d)).
Proof.
  unfold keys. induction d as [| [k' v'] d IH]; simpl; intros H.
  - constructor; [intros [] | constructor].
  - inversion H as [| ? ? Hnot Hrest]; subst.
    destruct (String.eqb_spec k' k) as [E | E]; simpl.
    + subst k'. now constructor.
    + constructor; [| now apply IH].
      intros Hin. apply (keys_assign_in k k' v d) in Hin.
      destruct Hin as [Hin | Hin]; [congruence | contradiction].
Qed.

Lemma find_id_in (qs : list Panel.QuizQuestion) (k : string) (q : Panel.QuizQuestion) :
  find (fun q0 => String.eqb (Panel.quiz_id q0) k) qs = Some q ->
  In k (map Panel.quiz_id qs).
Proof.
  intros H. apply find_some in H. destruct H as [Hin Heq].
  apply String.eqb_eq in Heq. subst k. now apply in_map.
Qed.

(** The answered questions are distinct questions of the quiz. *)
Lemma answered_are_questions (qs : list Panel.QuizQuestion) (s : QuizState)
    (e : QuizEvent) :
  NoDup (keys (questionStates s))
  /\ incl (keys (questionStates s)) (map Panel.quiz_id qs) ->
  NoDup (keys (questionStates (quizStep qs s e)))
  /\ incl (keys (questionStates (quizStep qs s e))) (map Panel.quiz_id qs).
Proof.
  intros [Hnd Hincl]. destruct e; simpl; try (now split).
  - unfold handleSubmitQuestion.
    destruct (find _ qs) as [q |] eqn:Ef; [| now split].
    destruct (Js.orElse _ None) as [a |]; [| now split].
    simpl. split; [now apply keys_assign_NoDup |].
    intros k Hk. apply keys_assign_in in Hk. destruct Hk as [-> | Hk].
    + now apply find_id_in in Ef.
    + now apply Hincl.
  - unfold quizNext. destruct (_ <? _)%Z; now split.
  - unfold quizPrev. destruct (_ <? _)%nat; now split.
Qed.

End Answers.

(** X25.  Selecting an answer and submitting it records it: for a question
    of the quiz and an answer that is not empty, the state kept under the
    question's id says answered, holds the answer, and is marked correct
    exactly when the answer equals the question's correct answer, with the
    matching toast; the states of the other questions and the page are as
    before.  Submitting for an id that is no question's, or with no answer
    selected, changes nothing and shows no toast. *)
Theorem submitted_answer_is_recorded
    (questions : list Panel.QuizQuestion) (s : Overlays.QuizState)
    (questionId answer : string) :
  (forall q,
     find (fun q0 => String.eqb (Panel.quiz_id q0) questionId) questions = Some q ->
     answer <> EmptyString ->
     let r := Overlays.handleSubmitQuestion questions questionId
                (Overlays.handleAnswerSelect questionId answer s) in
     let correct := String.eqb answer (Panel.correct_answer q) in
     Overlays.lookup questionId (Overlays.questionStates (fst r))
     = Some {| Overlays.answered := true;
               Overlays.selectedAnswer := Some answer;
               Overlays.isCorrect := correct;
               Overlays.showExplanation := true |}
     /\ (correct = true <-> answer = Panel.correct_answer q)
     /\ snd r = Some (if correct then Overlays.CorrectToast
                      else Overlays.IncorrectToast)
     /\ (forall other, other <> questionId ->
           Overlays.lookup other (Overlays.questionStates (fst r))
           = Overlays.lookup other (Overlays.questionStates s))
     /\ Overlays.currentPage (fst r) = Overlays.currentPage s)
  /\ ((find (fun q0 => String.eqb (Panel.quiz_id q0) questionId) questions = None
       \/ Js.orElse (Overlays.lookup questionId (Overlays.selectedAnswers s)) None
          = None) ->
      Overlays.handleSubmitQuestion questions questionId s = (s, None)).
Proof.
  split.
  - intros q Hq Ha. cbv zeta. unfold Overlays.handleSubmitQuestion.
    rewrite Hq. cbn [Overlays.selectedAnswers Overlays.handleAnswerSelect].
    rewrite lookup_assign_same.
    assert (Ht : Js.orElse (Some answer) None = Some answer).
    { destruct answer; [contradiction | reflexivity]. }
    rewrite Ht. cbn [fst snd Overlays.questionStates Overlays.currentPage].
    split; [apply lookup_assign_same |].
    split; [apply String.eqb_eq |]. split; [reflexivity |].
    split; [| reflexivity].
    intros other Hne. now apply lookup_assign_other.
  - intros [H | H]; unfold Overlays.handleSubmitQuestion; rewrite H;
      [reflexivity |].
    destruct (find _ questions); reflexivity.
Qed.

Lemma submitted_answer_is_recorded_witness :
  snd (Overlays.handleSubmitQuestion Panel.quizQuestions "2"
         (Overlays.handleAnswerSelect "2" "b) Binary search" Overlays.quizInitial))
  = Some Overlays.CorrectToast.
Proof.
  destruct (proj1 (submitted_answer_is_recorded Panel.quizQuestions
                     Overlays.quizInitial "2" "b) Binary search")
              _ eq_refl ltac:(discriminate)) as (_ & _ & Ht & _).
  exact Ht.
Defined.

(** X26.  The answered count never exceeds the number of questions: in
    every state the quiz reaches from its initial state, the keys of the
    question states are distinct ids of questions, and submitting a
    question again replaces its state instead of adding one. *)
Theorem answered_count_is_bounded
    (questions : list Panel.QuizQuestion) (es : list Overlays.QuizEvent) :
  let s := Overlays.quizAll questions Overlays.quizInitial es in
  (Overlays.getAnsweredCount s <= length questions)%nat
  /\ NoDup (Overlays.keys (Overlays.questionStates s))
  /\ (forall k, In k (Overlays.keys (Overlays.questionStates s)) ->
                exists q, In q questions /\ Panel.quiz_id q = k)
  /\ (forall questionId,
        In questionId (Overlays.keys (Overlays.questionStates s)) ->
        Overlays.getAnsweredCount
          (fst (Overlays.handleSubmitQuestion questions questionId s))
        = Overlays.getAnsweredCount s).
Proof.
  cbv zeta.
  assert (Hinv : NoDup (Overlays.keys
                          (Overlays.questionStates
                             (Overlays.quizAll questions Overlays.quizInitial es)))
                 /\ incl (Overlays.keys
                            (Overlays.questionStates
                               (Overlays.quizAll questions Overlays.quizInitial es)))
                      (map Panel.quiz_id questions)).
  { unfold Overlays.quizAll.
    assert (H0 : NoDup (Overlays.keys (Overlays.questionStates Overlays.quizInitial))
                 /\ incl (Overlays.keys (Overlays.questionStates Overlays.quizInitial))
                      (map Panel.quiz_id questions)).
    { split; [constructor | intros k []]. }
    revert H0. generalize Overlays.quizInitial.
    induction es as [| e es IH]; intros s0 H0; simpl; [exact H0 |].
    apply IH. now apply answered_are_questions. }
  destruct Hinv as [Hnd Hincl].
  split; [| split; [exact Hnd | split]].
  - unfold Overlays.getAnsweredCount.
    rewrite <- (length_map Panel.quiz_id questions).
    now apply NoDup_incl_length.
  - intros k Hk. apply Hincl in Hk. apply in_map_iff in Hk.
    destruct Hk as (q & Hq & Hin). now exists q.
  - intros questionId Hk. unfold Overlays.handleSubmitQuestion.
    destruct (find _ questions); [| reflexivity].
    destruct (Js.orElse _ None); [| reflexivity].
    unfold Overlays.getAnsweredCount. cbn [fst Overlays.questionStates].
    clear - Hk. unfold Overlays.keys in *.
    induction (Overlays.questionStates
                 (Overlays.quizAll questions Overlays.quizInitial es))
      as [| [k' v'] d IH]; [destruct Hk |].
    simpl. destruct (String.eqb_spec k' questionId) as [E | E]; [reflexivity |].
    simpl. f_equal. apply IH. destruct Hk as [Hk | Hk]; [contradiction | exact Hk].
Qed.

(** ** Elapsed time *)

Section ElapsedTime.

Local Open Scope string_scope.

Lemma two_digit_seconds (k : nat) :
  (k < 60)%nat ->
  Labels.padStart2 (Js.toString (Z.of_nat k))
  = (if (k <? 10)%nat then "0" ++ Js.toString (Z.of_nat k)
     else Js.toString (Z.of_nat k))
  /\ String.length (Labels.padStart2 (Js.toString (Z.of_nat k))) = 2%nat.
Proof.
  intros H.
  assert (Hall : forallb
                   (fun j =>
                      String.eqb (Labels.padStart2 (Js.toString (Z.of_nat j)))
                        (if (j <? 10)%nat then "0" ++ Js.toString (Z.of_nat j)
                         else Js.toString (Z.of_nat j))
                      && (String.length (Labels.padStart2 (Js.toString (Z.of_nat j)))
                          =? 2)%nat)
                   (seq 0 60) = true) by (vm_compute; reflexivity).
  rewrite forallb_forall in Hall. specialize (Hall k).
  assert (Hin : In k (seq 0 60)) by (apply in_seq; lia).
  apply Hall in Hin. apply andb_true_iff in Hin. destruct Hin as [H1 H2].
  apply String.eqb_eq in H1. apply Nat.eqb_eq in H2. now split.
Qed.

End ElapsedTime.

(** X27.  The elapsed time of a recording (and of a game) is shown as
    minutes, a colon and exactly two digits of seconds: for a whole number
    of seconds from 0 on, the minutes are the seconds divided by 60, the
    two digits are the remainder with a leading zero below 10, and minutes
    and remainder add up to the seconds shown. *)
Theorem elapsed_time_has_two_digit_seconds (seconds : Z) :
  (0 <= seconds)%Z ->
  let mins := (seconds / 60)%Z in
  let secs := (seconds mod 60)%Z in
  Labels.formatRecordingTime seconds
  = (Js.toString mins ++ ":"
     ++ (if (secs <? 10)%Z then "0" ++ Js.toString secs else Js.toString secs))%string
  /\ String.length (Labels.padStart2 (Js.toString secs)) = 2%nat
  /\ (60 * mins + secs = seconds /\ 0 <= secs < 60)%Z.
Proof.
  intros H mins secs. subst mins secs. unfold Labels.formatRecordingTime.
  rewrite Z.rem_mod_nonneg by lia.
  pose proof (Z.mod_pos_bound seconds 60 ltac:(lia)) as Hb.
  destruct (@two_digit_seconds (Z.to_nat (seconds mod 60)) ltac:(lia)) as [H1 H2].
  rewrite Z2Nat.id in H1, H2 by lia.
  split; [| split; [exact H2 |]].
  - rewrite H1. f_equal. f_equal.
    destruct (Nat.ltb_spec (Z.to_nat (seconds mod 60)) 10);
      destruct (Z.ltb_spec (seconds mod 60) 10); try lia; reflexivity.
  - split; [| exact Hb]. pose proof (Z.div_mod seconds 60 ltac:(lia)). lia.
Qed.

Lemma elapsed_time_has_two_digit_seconds_witness :
  Labels.formatRecordingTime 65 = "1:05"%string.
Proof.
  apply (proj1 (@elapsed_time_has_two_digit_seconds 65%Z ltac:(lia))).
Defined.

(** ** From a click in the contents to the current section *)

(** X28.  A click on a section row that the navigator shows for a chapter
    of the loaded table of contents makes that section's page the current
    page.  The chapter's entry then shows the same rows with that row
    marked current, together with every other row on the same page and no
    other.  The panel's lookup finds the first section, in the order of the
    table of contents, whose page is that page, with its chapter: the ids
    carried by the click play no part, so the section found is the clicked
    one exactly when it is the first on its page.  With the document shown,
    the navigator stays on screen when the page is at least 1; on a page
    without topic the render of the document viewer throws and nothing
    stays on screen. *)
Theorem section_click_sets_the_current_section
    (s : App.State) (d : App.StudyModeData) (t : TOC)
    (c : Chapter) (rs : list Contents.SectionRow) (r : Contents.SectionRow) :
  App.studyData s = Some d -> App.toc d = Some t ->
  In c (chapters t) ->
  Contents.rows (Contents.TOCItemComponent c (App.currentPage s)) = Some rs ->
  In r rs ->
  let sec := Contents.row_section r in
  let s' := fst (Contents.deliver s (Contents.handleSectionClick c sec)) in
  let contextOf := fun (c0 : Chapter) (sec0 : TocSection) =>
    {| Panel.chapterName := title c0; Panel.sectionName := section_title sec0;
       Panel.chapterId := Some (chapter_id c0);
       Panel.sectionId := Some (section_id sec0) |} in
  App.currentPage s' = page sec
  /\ (exists rs',
        Contents.rows (Contents.TOCItemComponent c (App.currentPage s')) = Some rs'
        /\ map Contents.row_section rs' = map Contents.row_section rs
        /\ In {| Contents.row_section := sec; Contents.row_current := true |} rs'
        /\ (forall r', In r' rs' ->
              (Contents.row_current r' = true
               <-> page (Contents.row_section r') = page sec)))
  /\ (exists c' sec',
        Order.firstOnPage (page sec) (chapters t) c' sec'
        /\ Wiring.currentContext s' = Some (contextOf c' sec'))
  /\ (Wiring.currentContext s' = Some (contextOf c sec)
      <-> exists c' sec',
            Order.firstOnPage (page sec) (chapters t) c' sec'
            /\ contextOf c' sec' = contextOf c sec)
  /\ (App.isLoading s = false -> App.isPDFHidden s = false ->
      ((1 <= page sec)%Z -> App.contentsRendered s' = true)
      /\ ((page sec <= 0)%Z -> Z.rem (page sec - 1) 8 <> 0%Z ->
          App.render s' = App.Unmounted)).
Proof.
  intros Hd Ht Hc Hrows Hr. cbv zeta.
  assert (He : Contents.hasExpandableSections c = true).
  { unfold Contents.TOCItemComponent in Hrows. cbn [Contents.rows] in Hrows.
    destruct (Contents.hasExpandableSections c); [reflexivity | discriminate]. }
  assert (Hsecs : exists secs, sections c = Some secs
                               /\ map Contents.row_section rs = secs).
  { unfold Contents.TOCItemComponent in Hrows. cbn [Contents.rows] in Hrows.
    rewrite He in Hrows. injection Hrows as <-.
    destruct (sections c) as [secs |] eqn:Es.
    - exists secs. split; [reflexivity |]. rewrite map_map.
      cbn [Contents.row_section]. apply map_id.
    - unfold Contents.hasExpandableSections, Contents.shouldShowSections in He.
      rewrite Es in He. discriminate. }
  destruct Hsecs as (secs & Hs & Hmap).
  assert (Hsec : In (Contents.row_section r) secs).
  { rewrite <- Hmap. now apply in_map. }
  assert (Hpage : App.currentPage
                    (fst (Contents.deliver s
                            (Contents.handleSectionClick c (Contents.row_section r))))
                  = page (Contents.row_section r)) by reflexivity.
  assert (Hctx : Wiring.currentContext
                   (fst (Contents.deliver s
                           (Contents.handleSectionClick c (Contents.row_section r))))
                 = Some (Panel.getCurrentContext
                           {| Panel.chatSessionId := App.chat_session_id d;
                              Panel.currentPage := page (Contents.row_section r);
                              Panel.tocData := Some t |})).
  { unfold Wiring.currentContext, Wiring.panelProps. simpl. rewrite Hd. simpl.
    now rewrite Ht. }
  destruct (@firstOnPage_exists (page (Contents.row_section r)) (chapters t) c secs
              (Contents.row_section r) Hc Hs Hsec eq_refl)
    as (c' & sec' & Hfirst).
  assert (Hfound : Panel.getCurrentContext
                     {| Panel.chatSessionId := App.chat_session_id d;
                        Panel.currentPage := page (Contents.row_section r);
                        Panel.tocData := Some t |}
                   = {| Panel.chapterName := title c';
                        Panel.sectionName := section_title sec';
                        Panel.chapterId := Some (chapter_id c');
                        Panel.sectionId := Some (section_id sec') |}).
  { now apply getCurrentContext_first with (t := t). }
  split; [exact Hpage |]. split; [| split; [| split]].
  - rewrite Hpage.
    destruct (@rows_of_expandable c secs (page (Contents.row_section r)) Hs He)
      as (rs' & Hrs' & Hmap' & Hcur).
    exists rs'. split; [exact Hrs' |]. split; [congruence |]. split.
    + unfold Contents.TOCItemComponent in Hrs'. cbn [Contents.rows] in Hrs'.
      rewrite He, Hs in Hrs'. injection Hrs' as <-.
      apply in_map_iff. exists (Contents.row_section r). split; [| exact Hsec].
      unfold Contents.isCurrentSection. now rewrite Z.eqb_refl.
    + intros r' Hin. rewrite (Hcur r' Hin). split; intros H; now symmetry.
  - exists c', sec'. split; [exact Hfirst |]. now rewrite Hctx, Hfound.
  - rewrite Hctx, Hfound. split.
    + intros [= H1 H2 H3 H4]. exists c', sec'. split; [exact Hfirst |].
      now rewrite H1, H2, H3, H4.
    + intros (c'' & sec'' & Hfirst' & Heq).
      apply scanChapters_first in Hfirst. apply scanChapters_first in Hfirst'.
      rewrite Hfirst in Hfirst'. injection Hfirst' as <- <-. now rewrite Heq.
  - intros Hl Hh.
    pose proof (renderThrows_spec (page (Contents.row_section r))) as Hthrows.
    assert (Htoc : App.hasTOC
                     (fst (Contents.deliver s
                             (Contents.handleSectionClick c (Contents.row_section r))))
                   = true).
    { unfold App.hasTOC, App.tocOf. simpl. rewrite Hd. simpl. rewrite Ht.
      destruct (chapters t); [destruct Hc | reflexivity]. }
    split.
    + intros Hp. unfold App.contentsRendered, App.render. rewrite Htoc.
      simpl. rewrite Hd, Hl, Hh. simpl.
      destruct (Reader.renderThrows (page (Contents.row_section r))) eqn:E.
      * destruct Hthrows as [Hthrows _]. specialize (Hthrows eq_refl). lia.
      * destruct (App.isMobile s); reflexivity.
    + intros Hp Hne. unfold App.render. simpl. rewrite Hd, Hl, Hh. simpl.
      destruct Hthrows as [_ Hthrows]. now rewrite (Hthrows (conj Hp Hne)).
Qed.

Lemma section_click_sets_the_current_section_witness :
  let heaps := {| section_id := "abcdfe9d-b9cd-4820-ae8d-5ba3a9c16cb6";
                  section_title := "6.1 Heaps"; page := 151 |} in
  let chapter2 := {| chapter_id := "0ada99be-dfc6-4efa-acca-c91d67458e4e";
                     chapter_number := "2";
                     title := "Chapter 2: Sorting and Order Statistics";
                     sections := Some [
                       {| section_id := "d945fa7c-2d8d-4302-811c-05a7ab9646dc";
                          section_title := "6 Heapsort"; page := 151 |};
                       heaps ] |} in
  App.currentPage
    (fst (Contents.deliver (App.loaded App.mockData)
            (Contents.handleSectionClick chapter2 heaps)))
  = 151%Z
  /\ option_map Panel.sectionName
       (Wiring.currentContext
          (fst (Contents.deliver (App.loaded App.mockData)
                  (Contents.handleSectionClick chapter2 heaps))))
     = Some "6 Heapsort"%string.
Proof.
  cbv zeta. split; [| reflexivity].
  apply (@section_click_sets_the_current_section
           (App.loaded App.mockData) App.mockData App.mockToc
           {| chapter_id := "0ada99be-dfc6-4efa-acca-c91d67458e4e";
              chapter_number := "2";
              title := "Chapter 2: Sorting and Order Statistics";
              sections := Some [
                {| section_id := "d945fa7c-2d8d-4302-811c-05a7ab9646dc";
                   section_title := "6 Heapsort"; page := 151 |};
                {| section_id := "abcdfe9d-b9cd-4820-ae8d-5ba3a9c16cb6";
                   section_title := "6.1 Heaps"; page := 151 |} ] |}
           [ {| Contents.row_section :=
                  {| section_id := "d945fa7c-2d8d-4302-811c-05a7ab9646dc";
                     section_title := "6 Heapsort"; page := 151 |};
                Contents.row_current := false |};
             {| Contents.row_section :=
                  {| section_id := "abcdfe9d-b9cd-4820-ae8d-5ba3a9c16cb6";
                     section_title := "6.1 Heaps"; page := 151 |};
                Contents.row_current := false |} ]
           {| Contents.row_section :=
                {| section_id := "abcdfe9d-b9cd-4820-ae8d-5ba3a9c16cb6";
                   section_title := "6.1 Heaps"; page := 151 |};
              Contents.row_current := false |}
           eq_refl eq_refl).
  - right. left. reflexivity.
  - reflexivity.
  - right. left. reflexivity.
Defined.

(** ** The properties above at work on the mock data *)

Lemma quiz_pages_partition_the_questions_witness :
  (1 <= length (Overlays.currentQuestions Panel.quizQuestions 2) <= 2)%nat.
Proof.
  apply (proj1 (proj2 (quiz_pages_partition_the_questions Panel.quizQuestions))).
  vm_compute. lia.
Defined.

Lemma answered_count_is_bounded_witness :
  Overlays.getAnsweredCount
    (fst (Overlays.handleSubmitQuestion Panel.quizQuestions "1"
            (Overlays.quizAll Panel.quizQuestions Overlays.quizInitial
               [Overlays.AnswerSelect "1" "a) Best case time complexity";
                Overlays.SubmitQuestion "1"])))
  = Overlays.getAnsweredCount
      (Overlays.quizAll Panel.quizQuestions Overlays.quizInitial
         [Overlays.AnswerSelect "1" "a) Best case time complexity";
          Overlays.SubmitQuestion "1"]).
Proof.
  apply (proj2 (proj2 (proj2
           (answered_count_is_bounded Panel.quizQuestions
              [Overlays.AnswerSelect "1" "a) Best case time complexity";
               Overlays.SubmitQuestion "1"])))).
  vm_compute. left. reflexivity.
Defined.
